(** * Staged-stake trading workflow: shallow embedding and verified properties

    The development follows the TypeScript sources of the repository:
    - the static decision graph and [calculateValue]
      (lib/decision-tree.ts, in src/unnamed/part_001);
    - the signal processor (lib/signal-processor.ts, in
      src/unnamed/part_001);
    - the trade-result webhook with its node-jump validator
      (src/unnamed/part_005) and the validator, the partial-fill handler
      and the rollback of src/lib/exception-handler.ts;
    - the broker cost model and the stake solver
      (lib/broker-cost-service.ts, in src/unnamed/part_003);
    - the execution coordinator (src/lib/trading-platform-service.ts);
    - the overnight trade manager (src/lib/overnight-trade-manager.ts);
    - the trade-signal webhook (src/app/api/webhook/trade-signal/route.ts).

    Conventions of the embedding.
    - A JavaScript [number] is a value of [JsNum.num]: an exact rational,
      or one of the IEEE special values +Infinity, -Infinity and NaN.  The
      special values follow IEEE 754 (division by zero yields an infinity,
      never an exception); finite arithmetic is exact, so rounding of
      doubles is not modelled, and the two zeros are not distinguished
      (a zero behaves as +0).
    - Strings are [string]; JavaScript objects used as dictionaries are
      finite maps.  A field of a request body that the code reads without
      a check of its type (the id of a trade signal, the result of a
      trade-result callback) is a value of [Json.JsValue]; the [Set] of
      processed signal ids is the list of the values added to it, searched
      as [Set.prototype.has] searches.
    - The durable store is a record of tables with the columns the code
      reads and writes; the database is configured ([sql] is not null).
      A statement against it succeeds and stores the numbers it is given:
      the column types and the NOT NULL constraints of the SQL scripts are
      not modelled, and a uniqueness constraint is modelled only where the
      code relies on it.  Two statements are the exception, because the
      code paths studied here end in them: a text given for the INTEGER
      column [final_total] is read as that column reads it, or refused;
      and the [INSERT ... ON CONFLICT (trade_id)] of the overnight manager
      is checked against the script of its table.
    - Sources of non-determinism of the code ([Math.random], the clock, the
      venue) are explicit arguments. *)

From Stdlib Require Import ZArith QArith Qround Qabs String Ascii List Bool Lia Lqa.
From stdpp Require Import gmap strings list fin_maps.

Import ListNotations.
Local Open Scope string_scope.

(* ===================================================================== *)
(** * JavaScript numbers *)
(* ===================================================================== *)

Module JsNum.

Local Open Scope Q_scope.

Inductive num : Type :=
| Fin (q : Q)
| PInf
| NInf
| NaN.

Definition of_Z (z : Z) : num := Fin (inject_Z z).

Definition isNaN (a : num) : bool :=
  match a with NaN => true | _ => false end.


(** [!x] on a number: zero and NaN are falsy. *)
Definition falsy (a : num) : bool :=
  match a with
  | Fin q => Qeq_bool q 0
  | NaN => true
  | _ => false
  end.

Definition neg (a : num) : num :=
  match a with
  | Fin q => Fin (Qred (- q))
  | PInf => NInf
  | NInf => PInf
  | NaN => NaN
  end.

Definition add (a b : num) : num :=
  match a, b with
  | NaN, _ | _, NaN => NaN
  | Fin x, Fin y => Fin (Qred (x + y))
  | PInf, NInf | NInf, PInf => NaN
  | PInf, _ | _, PInf => PInf
  | NInf, _ | _, NInf => NInf
  end.

Definition sub (a b : num) : num := add a (neg b).

(** An infinity with the sign of [q]; [0 * Infinity] is NaN. *)
Definition scaled_inf (q : Q) (positive : bool) : num :=
  match q ?= 0 with
  | Eq => NaN
  | Gt => if positive then PInf else NInf
  | Lt => if positive then NInf else PInf
  end.

Definition mul (a b : num) : num :=
  match a, b with
  | NaN, _ | _, NaN => NaN
  | Fin x, Fin y => Fin (Qred (x * y))
  | Fin x, PInf | PInf, Fin x => scaled_inf x true
  | Fin x, NInf | NInf, Fin x => scaled_inf x false
  | PInf, PInf | NInf, NInf => PInf
  | PInf, NInf | NInf, PInf => NInf
  end.

(** IEEE division: [x / 0] is an infinity with the sign of [x] (the zero
    divisor is taken to be +0), [0 / 0] is NaN; nothing is thrown. *)
Definition div (a b : num) : num :=
  match a, b with
  | NaN, _ | _, NaN => NaN
  | Fin x, Fin y =>
      if Qeq_bool y 0 then scaled_inf x true else Fin (Qred (x / y))
  | Fin _, PInf | Fin _, NInf => Fin 0
  | PInf, Fin y => if Qle_bool 0 y then PInf else NInf
  | NInf, Fin y => if Qle_bool 0 y then NInf else PInf
  | _, _ => NaN
  end.

Definition abs (a : num) : num :=
  match a with
  | Fin q => Fin (Qred (Qabs q))
  | PInf | NInf => PInf
  | NaN => NaN
  end.

(** Comparisons; every comparison with NaN is false. *)
Definition leb (a b : num) : bool :=
  match a, b with
  | NaN, _ | _, NaN => false
  | Fin x, Fin y => Qle_bool x y
  | NInf, _ => true
  | _, PInf => true
  | _, _ => false
  end.

Definition ltb (a b : num) : bool :=
  match a, b with
  | NaN, _ | _, NaN => false
  | Fin x, Fin y => negb (Qle_bool y x)
  | PInf, _ => false
  | _, NInf => false
  | _, _ => true
  end.

Definition gtb (a b : num) : bool := ltb b a.
Definition geb (a b : num) : bool := leb b a.

(** [Math.min] and [Math.max]: NaN if either argument is NaN. *)
Definition min (a b : num) : num :=
  match a, b with
  | NaN, _ | _, NaN => NaN
  | _, _ => if leb a b then a else b
  end.

Definition max (a b : num) : num :=
  match a, b with
  | NaN, _ | _, NaN => NaN
  | _, _ => if leb a b then b else a
  end.

(** [Math.round]: nearest integer, ties towards +Infinity. *)
Definition round (a : num) : num :=
  match a with
  | Fin q => of_Z (Qfloor (q + (1 # 2)))
  | other => other
  end.

(** Numeric equality of two numbers ([===] on numbers). *)
Definition eqb (a b : num) : bool :=
  match a, b with
  | Fin x, Fin y => Qeq_bool x y
  | PInf, PInf | NInf, NInf => true
  | _, _ => false
  end.

(** A whole number that is not negative. *)
Definition nonneg_whole (a : num) : Prop :=
  exists z : Z, (0 <= z)%Z /\ a = of_Z z.

End JsNum.

Declare Scope js_scope.
Delimit Scope js_scope with js.
Bind Scope js_scope with JsNum.num.
Infix "+" := JsNum.add : js_scope.
Infix "-" := JsNum.sub : js_scope.
Infix "*" := JsNum.mul : js_scope.
Infix "/" := JsNum.div : js_scope.
Infix "<=?" := JsNum.leb : js_scope.
Infix "<?" := JsNum.ltb : js_scope.
Infix ">?" := JsNum.gtb : js_scope.
Infix ">=?" := JsNum.geb : js_scope.

(* ===================================================================== *)
(** * JavaScript string primitives used by the sources *)
(* ===================================================================== *)

Module JsString.

Import JsNum.

Definition is_digit (c : ascii) : bool :=
  ((48 <=? nat_of_ascii c) && (nat_of_ascii c <=? 57))%nat.

Definition digit_val (c : ascii) : Z := Z.of_nat (nat_of_ascii c - 48).

(** [s.replace(c, "")] with a one-character string pattern: only the
    first occurrence is removed. *)
Fixpoint replace_first (c : ascii) (s : string) : string :=
  match s with
  | EmptyString => EmptyString
  | String d r => if Ascii.eqb d c then r else String d (replace_first c r)
  end.

(** [s.replace(/\D/g, '')]: every character that is not a digit goes. *)
Fixpoint strip_non_digits (s : string) : string :=
  match s with
  | EmptyString => EmptyString
  | String d r =>
      if is_digit d then String d (strip_non_digits r) else strip_non_digits r
  end.

(** Reads a maximal run of decimal digits: its value, its length and the
    rest of the string. *)
Fixpoint read_digits (s : string) (acc : Z) (n : nat) : Z * nat * string :=
  match s with
  | String c r =>
      if is_digit c then read_digits r (10 * acc + digit_val c)%Z (S n)
      else (acc, n, s)
  | EmptyString => (acc, n, s)
  end.

(** [s.startsWith(pre)]. *)
Fixpoint startsWith (s pre : string) : bool :=
  match pre, s with
  | EmptyString, _ => true
  | String a p, String b r => Ascii.eqb a b && startsWith r p
  | String _ _, EmptyString => false
  end.

Definition is_space (c : ascii) : bool :=
  let n := nat_of_ascii c in
  ((n =? 32) || ((9 <=? n) && (n <=? 13)))%nat.

Fixpoint skip_ws (s : string) : string :=
  match s with
  | String c r => if is_space c then skip_ws r else s
  | EmptyString => s
  end.

Definition read_sign (s : string) : bool * string :=
  match s with
  | String c r =>
      if Ascii.eqb c "-" then (true, r)
      else if Ascii.eqb c "+" then (false, r)
      else (false, s)
  | EmptyString => (false, s)
  end.

(** The fraction of a decimal literal: a point and its digits, if any. *)
Definition read_fraction (s : string) : Z * nat * string :=
  match s with
  | String c r => if Ascii.eqb c "." then read_digits r 0 0 else (0%Z, 0%nat, s)
  | EmptyString => (0%Z, 0%nat, s)
  end.

(** [parseInt(s)] in radix 10 (a hexadecimal prefix is not modelled: the
    only caller passes a string of digits). *)
Definition parseInt (s : string) : num :=
  let '(negative, s1) := read_sign (skip_ws s) in
  let '(v, n, _) := read_digits s1 0 0 in
  if (n =? 0)%nat then NaN
  else of_Z (if negative then - v else v).

(** The optional exponent part of a decimal literal. *)
Definition read_exponent (s : string) : Z :=
  match s with
  | String c r =>
      if (Ascii.eqb c "e" || Ascii.eqb c "E")%bool then
        let '(negative, r1) := read_sign r in
        let '(v, n, _) := read_digits r1 0 0 in
        if (n =? 0)%nat then 0%Z else if negative then (- v)%Z else v
      else 0%Z
  | EmptyString => 0%Z
  end.

(** [parseFloat(s)]: leading white space, a sign, then [Infinity] or the
    longest prefix that is a decimal literal; NaN when there is none. *)
Definition parseFloat (s : string) : num :=
  let '(negative, s1) := read_sign (skip_ws s) in
  if startsWith s1 "Infinity" then (if negative then NInf else PInf)
  else
    let '(ip, ni, s2) := read_digits s1 0 0 in
    let '(fp, nf, s3) := read_fraction s2 in
    if (ni + nf =? 0)%nat then NaN
    else
      let mant := (inject_Z ip + inject_Z fp / inject_Z (10 ^ Z.of_nat nf))%Q in
      let v := (mant * Qpower (inject_Z 10) (read_exponent s3))%Q in
      Fin (Qred (if negative then - v else v)%Q).

(** What follows the exponent part, if there is one. *)
Definition exponent_rest (s : string) : string :=
  match s with
  | String c r =>
      if (Ascii.eqb c "e" || Ascii.eqb c "E")%bool then
        let '(_, r1) := read_sign r in
        let '(_, n, r2) := read_digits r1 0 0 in
        if (n =? 0)%nat then s else r2
      else s
  | EmptyString => s
  end.

(** What follows the longest decimal literal at the head of [s]. *)
Definition literal_rest (s : string) : string :=
  let '(_, _, s2) := read_digits s 0 0 in
  let '(_, _, s3) := read_fraction s2 in
  exponent_rest s3.

Fixpoint drop_chars (n : nat) (s : string) : string :=
  match n, s with
  | S n', String _ r => drop_chars n' r
  | _, _ => s
  end.

(** [Number(s)] on a string: white space around the literal is ignored,
    the empty string is 0, and anything after the literal makes the
    result NaN (hexadecimal, octal and binary literals are not
    modelled). *)
Definition jsNumber (s : string) : num :=
  let t := skip_ws s in
  if String.eqb t "" then of_Z 0
  else
    let '(negative, s1) := read_sign t in
    let rest :=
      if startsWith s1 "Infinity" then drop_chars 8 s1 else literal_rest s1 in
    if String.eqb (skip_ws rest) "" then parseFloat t else NaN.

Definition lower_char (c : ascii) : ascii :=
  let n := nat_of_ascii c in
  if ((65 <=? n) && (n <=? 90))%nat then ascii_of_nat (n + 32) else c.

(** [s.toLowerCase()] on ASCII text. *)
Fixpoint toLowerCase (s : string) : string :=
  match s with
  | EmptyString => EmptyString
  | String c r => String (lower_char c) (toLowerCase r)
  end.

(** [hay.includes(needle)]. *)
Fixpoint includes (hay needle : string) : bool :=
  startsWith hay needle
  || match hay with
     | String _ r => includes r needle
     | EmptyString => false
     end.

End JsString.

(* ===================================================================== *)
(** * Values of a parsed JSON body *)
(* ===================================================================== *)

Module Json.

Import JsNum JsString.

(** The decimal digits of a natural number. *)
Fixpoint digits_from (fuel : nat) (n : Z) (acc : string) : string :=
  match fuel with
  | O => acc
  | S fuel' =>
      let acc' := String (ascii_of_nat (48 + Z.to_nat (n mod 10))) acc in
      if (n / 10 =? 0)%Z then acc' else digits_from fuel' (n / 10) acc'
  end.

Definition digits (n : Z) : string :=
  digits_from (S (Z.to_nat (Z.log2 n))) n "".

(** The digits after the point of [r / b], for [0 <= r < b]. *)
Fixpoint fraction_digits (fuel : nat) (r b : Z) : string :=
  match fuel with
  | O => ""
  | S fuel' =>
      if (r =? 0)%Z then ""
      else String (ascii_of_nat (48 + Z.to_nat ((10 * r) / b)))
             (fraction_digits fuel' ((10 * r) mod b) b)
  end.

(** [String(x)] on a number that JavaScript prints in positional
    notation with all its digits: an integer below 10^21 in magnitude,
    or a decimal fraction of at most 17 significant digits that is not
    below 10^-6.  The exponent notation of the other numbers and the
    rounding to the shortest digits that read back as the same double
    are not modelled: the expansion is cut after 20 digits of the
    fraction. *)
Definition numberToString (a : num) : string :=
  match a with
  | NaN => "NaN"
  | PInf => "Infinity"
  | NInf => "-Infinity"
  | Fin q =>
      let r := Qred q in
      let n := Z.abs (Qnum r) in
      let b := Zpos (Qden r) in
      (if (Qnum r <? 0)%Z then "-" else "")
      ++ digits (n / b)
      ++ (if (n mod b =? 0)%Z then ""
          else "." ++ fraction_digits 20 (n mod b) b)
  end.

(** A value of the parsed body, or [undefined] for a field that is
    absent.  An array or an object is known by the two texts the code
    can obtain from it: its conversion to a string ([text]) and the
    text the database driver sends for it as a parameter ([param]). *)
Inductive JsValue : Type :=
| JUndefined
| JNull
| JBool (b : bool)
| JNumber (n : num)
| JString (s : string)
| JCompound (text param : string).

(** [!v] is [negb (truthy v)]. *)
Definition truthy (v : JsValue) : bool :=
  match v with
  | JUndefined | JNull => false
  | JBool b => b
  | JNumber n => negb (falsy n)
  | JString s => negb (String.eqb s "")
  | JCompound _ _ => true
  end.

(** [String(v)]. *)
Definition toText (v : JsValue) : string :=
  match v with
  | JUndefined => "undefined"
  | JNull => "null"
  | JBool b => if b then "true" else "false"
  | JNumber n => numberToString n
  | JString s => s
  | JCompound text _ => text
  end.

(** [Number(v)]; an array or an object is converted through its
    string. *)
Definition toNumber (v : JsValue) : num :=
  match v with
  | JUndefined => NaN
  | JNull => of_Z 0
  | JBool b => if b then of_Z 1 else of_Z 0
  | JNumber n => n
  | JString s => jsNumber s
  | JCompound text _ => jsNumber text
  end.

(** [t + v] with a number on the left: a string, an array or an object
    on the right makes it a concatenation of strings. *)
Definition plus (t : num) (v : JsValue) : JsValue :=
  match v with
  | JString _ | JCompound _ _ => JString (numberToString t ++ toText v)
  | _ => JNumber (t + toNumber v)%js
  end.

(** The comparison of [Set.prototype.has] and of [Map] keys
    (SameValueZero): primitives by value, NaN equal to itself.  An
    array or an object is the same value only as the same object, and
    every request body is parsed into objects of its own: a compound
    value of one request is never the same value as one kept from
    another. *)
Definition same_value_zero (a b : JsValue) : bool :=
  match a, b with
  | JUndefined, JUndefined | JNull, JNull => true
  | JBool x, JBool y => Bool.eqb x y
  | JNumber x, JNumber y => JsNum.eqb x y || (isNaN x && isNaN y)
  | JString x, JString y => String.eqb x y
  | _, _ => false
  end.

Definition is_compound (v : JsValue) : bool :=
  match v with JCompound _ _ => true | _ => false end.

(** A [Set] of values, in insertion order. *)
Definition set_has (v : JsValue) (s : list JsValue) : bool :=
  existsb (same_value_zero v) s.

Definition set_add (v : JsValue) (s : list JsValue) : list JsValue :=
  if set_has v s then s else (s ++ [v])%list.

(** The text the database driver sends for a value given as a
    parameter of a statement: a string as it is, a number and a boolean
    by [toString]; [null] and [undefined] are sent as NULL and have no
    text (the empty string stands for it; the callers modelled here
    have refused such a value before). *)
Definition sqlText (v : JsValue) : string :=
  match v with
  | JUndefined | JNull => ""
  | JBool b => if b then "true" else "false"
  | JNumber n => numberToString n
  | JString s => s
  | JCompound _ param => param
  end.

(** What an INTEGER column reads from a text: optional white space, an
    optional sign, decimal digits, optional white space, within the
    range of 32 bits; any other text is refused (the hexadecimal, octal
    and binary forms and the underscores that recent versions of the
    database read as well are not modelled). *)
Definition sqlInteger (text : string) : option Z :=
  let '(negative, s1) := read_sign (skip_ws text) in
  let '(v, n, rest) := read_digits s1 0 0 in
  if (n =? 0)%nat then None
  else if negb (String.eqb (skip_ws rest) "") then None
  else
    let z := if negative then (- v)%Z else v in
    if ((- 2147483648 <=? z) && (z <=? 2147483647))%Z then Some z else None.

End Json.

(* ===================================================================== *)
(** * The decision graph (lib/decision-tree.ts) *)
(* ===================================================================== *)

Module DecisionTree.

Import JsNum JsString.

(** [level: number | string]: a level number or the string "END". *)
Inductive Level : Type :=
| LevelNum (n : nat)
| LevelEnd.

Record DecisionNode : Type := mkNode {
  value : string;
  level : Level;
  win : option string;
  loss : option string;
  final : bool  (* absent on non-terminal nodes, hence falsy *)
}.

Definition inner (v : string) (l : nat) (w lo : string) : DecisionNode :=
  mkNode v (LevelNum l) (Some w) (Some lo) false.

Definition terminal (v : string) : DecisionNode :=
  mkNode v LevelEnd None None true.

Definition decisionTreeEntries : list (string * DecisionNode) :=
  [ ("Start", inner "0.65%" 1 "1-0" "0-1");
    ("1-0", inner "0.58%" 2 "2-0" "1-1");
    ("0-1", inner "0.73%" 2 "1-1" "0-2");
    ("2-0", inner "0.44%" 3 "3-0" "2-1");
    ("1-1", inner "0.73%" 3 "2-1" "1-2");
    ("0-2", inner "0.73%" 3 "1-2" "0-3");
    ("3-0", inner "0.25%" 4 "4-0" "3-1");
    ("2-1", inner "0.62%" 4 "3-1" "2-2");
    ("1-2", inner "0.83%" 4 "2-2" "1-3");
    ("0-3", inner "0.62%" 4 "1-3" "0-4");
    ("4-0", inner "0.08%" 5 "WIN" "4-1");
    ("3-1", inner "0.41%" 5 "4-1" "3-2");
    ("2-2", inner "0.83%" 5 "3-2" "2-3");
    ("1-3", inner "0.83%" 5 "2-3" "1-4");
    ("0-4", inner "0.41%" 5 "1-4" "0-5");
    ("4-1", inner "0.17%" 6 "WIN" "4-2");
    ("3-2", inner "0.66%" 6 "4-2" "3-3");
    ("2-3", inner "0.99%" 6 "3-3" "2-4");
    ("1-4", inner "0.66%" 6 "2-4" "1-5");
    ("0-5", inner "0.17%" 6 "1-5" "LOST");
    ("4-2", inner "0.33%" 7 "WIN" "4-3");
    ("3-3", inner "0.99%" 7 "4-3" "3-4");
    ("2-4", inner "0.99%" 7 "3-4" "2-5");
    ("1-5", inner "0.33%" 7 "2-5" "LOST");
    ("4-3", inner "0.66%" 8 "WIN" "4-4");
    ("3-4", inner "1.33%" 8 "4-4" "3-5");
    ("2-5", inner "0.66%" 8 "3-5" "LOST");
    ("4-4", inner "1.33%" 9 "WIN" "4-5");
    ("3-5", inner "1.33%" 9 "4-5" "LOST");
    ("4-5", inner "2.65%" 10 "WIN" "LOST");
    ("WIN", terminal "+2.00%");
    ("LOST", terminal "-3.31%") ].

Definition decisionTree : gmap string DecisionNode :=
  list_to_map decisionTreeEntries.

(** [calculateValue(percentage, amount)]. *)
Definition calculateValue (percentage : string) (amount : num) : num :=
  let numericPercentage :=
    parseFloat
      (replace_first "-" (replace_first "+" (replace_first "%" percentage))) in
  round ((numericPercentage / of_Z 100) * amount)%js.


(** The stake percentages as the graph writes them: an optional sign, a
    decimal numeral (digits and a point, starting with a digit or with a
    point followed by a digit) and a closing percent sign. *)
Inductive Sign : Type := NoSign | Plus | Minus.

Definition sign_string (sg : Sign) : string :=
  match sg with NoSign => "" | Plus => "+" | Minus => "-" end.

Definition numeral_char (c : ascii) : bool :=
  is_digit c || Ascii.eqb c ".".

Fixpoint all_chars (p : ascii -> bool) (s : string) : bool :=
  match s with
  | EmptyString => true
  | String c r => p c && all_chars p r
  end.

Definition starts_numeral (s : string) : bool :=
  match s with
  | String c r =>
      is_digit c
      || (Ascii.eqb c "."
          && match r with String d _ => is_digit d | EmptyString => false end)
  | EmptyString => false
  end.

Definition is_numeral (body : string) : bool :=
  all_chars numeral_char body && starts_numeral body.

Definition stakePercentage (sg : Sign) (body : string) : string :=
  sign_string sg ++ body ++ "%".

(** The sign and the numeral of a value of the graph: a leading sign
    and a closing percent sign are taken off. *)
Fixpoint drop_percent (s : string) : string :=
  match s with
  | EmptyString => EmptyString
  | String c r =>
      match r with
      | EmptyString => if Ascii.eqb c "%" then EmptyString else s
      | String _ _ => String c (drop_percent r)
      end
  end.

Definition stake_parts (v : string) : Sign * string :=
  match v with
  | String c r =>
      if Ascii.eqb c "+" then (Plus, drop_percent r)
      else if Ascii.eqb c "-" then (Minus, drop_percent r)
      else (NoSign, drop_percent v)
  | EmptyString => (NoSign, EmptyString)
  end.

End DecisionTree.

(* ===================================================================== *)
(** * Node-jump validation *)
(* ===================================================================== *)

Module NodeJump.

Import JsNum JsString DecisionTree.

(** The text of [expectedNode]: a node id, or the template
    [`Level ${n}`] kept with its number. *)
Inductive NodeLabel : Type :=
| NodeId (id : string)
| LevelLabel (n : num).

Record NodeJumpValidation : Type := mkValidation {
  isValid : bool;
  expectedNode : option NodeLabel;
  actualNode : option string;
  requiresRollback : bool;
  rollbackToNode : option string
}.

(** [x || d] on numbers. *)
Definition num_or (x d : num) : num := if falsy x then d else x.

(** [parseInt(node.replace(/\D/g, '')) || 1]. *)
Definition nodeLevel (node : string) : num :=
  num_or (parseInt (strip_non_digits node)) (of_Z 1).

(** [validateNodeJump] of the trade-result webhook. *)
Definition validateNodeJump (currentNode nextNode : string) : NodeJumpValidation :=
  let currentLevel := nodeLevel currentNode in
  let nextLevel := nodeLevel nextNode in
  if (nextLevel >? currentLevel + of_Z 1)%js then
    {| isValid := false;
       expectedNode := Some (LevelLabel (currentLevel + of_Z 1)%js);
       actualNode := Some nextNode;
       requiresRollback := true;
       rollbackToNode := Some currentNode |}
  else
    {| isValid := true;
       expectedNode := Some (NodeId nextNode);
       actualNode := Some nextNode;
       requiresRollback := false;
       rollbackToNode := None |}.

(** ** The validator of lib/exception-handler.ts *)

Record ExceptionHandlingConfig : Type := mkConfig {
  maxRetryCount : Z;
  cacheTimeoutMs : Z;
  partialFillThreshold : Q;
  nodeJumpValidationEnabled : bool;
  rollbackConfirmationRequired : bool
}.

Definition defaultHandlerConfig : ExceptionHandlingConfig :=
  {| maxRetryCount := 3;
     cacheTimeoutMs := 60 * 60 * 1000;
     partialFillThreshold := 1 # 10;
     nodeJumpValidationEnabled := true;
     rollbackConfirmationRequired := true |}.

Definition validProgressions : gmap string (list string) :=
  list_to_map
    [ ("Start", ["Level 1"]);
      ("Level 1", ["Level 2"; "Level 3"]);
      ("Level 2", ["Level 3"; "Level 4"]);
      ("Level 3", ["Level 4"; "Level 5"]);
      ("Level 4", ["Level 5"; "Level 6"]);
      ("Level 5", ["Level 6"; "Level 7"]);
      ("Level 6", ["Level 7"; "Level 8"]);
      ("Level 7", ["Level 8"; "Level 9"]);
      ("Level 8", ["Level 9"; "Level 10"]);
      ("Level 9", ["Level 10"; "Complete"]);
      ("Level 10", ["Complete"]) ].

Definition nodeLevels : list string :=
  [ "Start"; "Level 1"; "Level 2"; "Level 3"; "Level 4"; "Level 5";
    "Level 6"; "Level 7"; "Level 8"; "Level 9"; "Level 10" ].

(** [xs.includes(x)] on an array of strings. *)
Definition array_includes (xs : list string) (x : string) : bool :=
  existsb (String.eqb x) xs.

(** [xs.indexOf(x)], [None] standing for -1. *)
Fixpoint indexOf (xs : list string) (x : string) : option nat :=
  match xs with
  | [] => None
  | y :: ys => if String.eqb y x then Some 0%nat else S <$> indexOf ys x
  end.

Definition determineRollbackNode (currentNode invalidNode : string) : string :=
  match indexOf nodeLevels currentNode with
  | Some (S i) => nth i nodeLevels "Start"
  | _ => "Start"
  end.

Definition handlerValidateNodeJump (config : ExceptionHandlingConfig)
    (currentSessionNode proposedNode : string) : NodeJumpValidation :=
  if negb (nodeJumpValidationEnabled config) then
    mkValidation true None None false None
  else
    let validNextNodes := default [] (validProgressions !! currentSessionNode) in
    if negb (array_includes validNextNodes proposedNode) then
      {| isValid := false;
         expectedNode := NodeId <$> head validNextNodes;
         actualNode := Some proposedNode;
         requiresRollback := true;
         rollbackToNode :=
           Some (determineRollbackNode currentSessionNode proposedNode) |}
    else mkValidation true None None false None.

(** A single win or loss edge of the static graph. *)
Definition is_edge (currentNode nextNode : string) : bool :=
  match decisionTree !! currentNode with
  | Some node =>
      bool_decide (win node = Some nextNode)
      || bool_decide (loss node = Some nextNode)
  | None => false
  end.

Definition is_terminal (nodeId : string) : bool :=
  match decisionTree !! nodeId with
  | Some node => final node
  | None => false
  end.

End NodeJump.

(* ===================================================================== *)
(** * The durable store *)
(* ===================================================================== *)

(** The tables the modelled code reads and writes, with the columns it
    uses; timestamps, names and free-text notes are left out. *)
Module Store.

Import JsNum.

Record SessionRow : Type := mkSession {
  s_session_id : string;
  current_node : string;
  initial_amount : num;
  final_total : num;
  is_completed : bool;
  path_summary : string;
  s_result : string
}.

Record StepRow : Type := mkStep {
  st_session_id : string;
  step_number : Z;
  node_name : string;
  action : option string;
  stake_value : option num;
  stake_result : option num;
  trade_result_actual : option num;
  step_type : string;          (* column default 'DECISION' *)
  execution_status : option string
}.

Record SignalRow : Type := mkSignalRow {
  ts_session_id : string;
  ts_trade_id : string;
  ts_symbol : string;
  ts_action : string;
  entry_price : num;
  target_price : num;
  stop_price : num;
  ts_trade_amount : num;
  ts_current_node : string
}.

Record DB : Type := mkDB {
  sessions : gmap string SessionRow;      (* session_id is UNIQUE *)
  session_steps : list StepRow;           (* in insertion order *)
  trade_signals : gmap string SignalRow   (* trade_id is UNIQUE *)
}.

Definition emptyDB : DB := mkDB ∅ [] ∅.

Definition with_sessions (f : gmap string SessionRow -> gmap string SessionRow)
    (db : DB) : DB :=
  mkDB (f (sessions db)) (session_steps db) (trade_signals db).

Definition with_steps (f : list StepRow -> list StepRow) (db : DB) : DB :=
  mkDB (sessions db) (f (session_steps db)) (trade_signals db).

Definition with_signals (f : gmap string SignalRow -> gmap string SignalRow)
    (db : DB) : DB :=
  mkDB (sessions db) (session_steps db) (f (trade_signals db)).

(** [SELECT COALESCE(MAX(step_number), 0) + 1 FROM session_steps
    WHERE session_id = sid], followed by [|| 1] in the callers. *)
Definition max_step (p : StepRow -> bool) (steps : list StepRow) : option Z :=
  foldr (fun st acc =>
           if p st then
             Some (match acc with
                   | Some m => Z.max m (step_number st)
                   | None => step_number st
                   end)
           else acc) None steps.

Definition of_session (sid : string) (st : StepRow) : bool :=
  String.eqb (st_session_id st) sid.

Definition sql_next_step (sid : string) (db : DB) : Z :=
  (default 0 (max_step (of_session sid) (session_steps db)) + 1)%Z.

Definition next_step (sid : string) (db : DB) : Z :=
  let n := sql_next_step sid db in
  if (n =? 0)%Z then 1%Z else n.

Definition insert_step (st : StepRow) (db : DB) : DB :=
  with_steps (fun steps => (steps ++ [st])%list) db.

(** The signed results recorded in a session's path history: the
    [trade_result_actual] of its RESULT steps, oldest first. *)
Definition recordedResults (sid : string) (db : DB) : list num :=
  omap (fun st =>
          if of_session sid st && String.eqb (step_type st) "RESULT"
          then trade_result_actual st else None)
       (session_steps db).

Definition js_sum (base : num) (xs : list num) : num :=
  fold_left add xs base.

End Store.

(* ===================================================================== *)
(** * The session state machine (trade-result webhook, signal processor,
      trading platform service) *)
(* ===================================================================== *)

Module Session.

Import JsNum JsString Json DecisionTree NodeJump Store.

Inductive Outcome : Type := Win | Loss.

Definition outcome_upper (o : Outcome) : string :=
  match o with Win => "WIN" | Loss => "LOSS" end.

Definition outcome_lower (o : Outcome) : string :=
  match o with Win => "win" | Loss => "loss" end.

(** The callback as [processTradeResult] receives it from the route,
    after [validateTradeResultCallback]: [result] is one of the two
    strings the validator accepts.  [profit_loss] is the value of the
    body as it is: the validator accepts every truthy value that
    [Number] converts, a string such as "5" or the boolean [true]
    included, and nothing converts it before it is used.  The price is
    only written into the note of the step. *)
Record TradeResultCallback : Type := mkCallback {
  trade_id : string;
  cb_session_id : string;
  result : Outcome;
  exit_price : num;
  profit_loss : JsValue;
  exit_reason : string;
  exited_at : string
}.

(** Error texts; templates keep their arguments. *)
Inductive Failure : Type :=
| SessionNotFound (sid : string)
| SessionAlreadyCompleted (sid : string)
| InvalidDecisionTreeNode (node : string)
| NoNextNode (node : string) (o : Outcome)
| ManualConfirmationNeeded (expected : option NodeLabel) (actual : option string)
| RollbackFailed
| InvalidIntegerInput (text : string)
| Thrown (msg : string).

Record ResponseData : Type := mkData {
  d_session_id : string;
  d_current_node : string;
  d_final_total : JsValue;
  d_is_completed : bool;
  d_next_action : string
}.

Record TradeResultResponse : Type := mkResponse {
  success : bool;
  data : option ResponseData;
  error : option Failure
}.

Definition failed (e : Failure) : TradeResultResponse :=
  mkResponse false None (Some e).

(** [exceptionHandler.handleNodeJumpValidation]: the webhook calls this
    method, which the [ExceptionHandler] class of
    lib/exception-handler.ts does not define.  It is a parameter of the
    model; with the class as it stands the call raises a [TypeError]
    ([handlerUndefined]). *)
Inductive HandlerOutcome : Type :=
| HandlerThrew (msg : string)
| HandlerReturned (requiresManualConfirmation : bool).

Definition Handler : Type :=
  string -> string -> string -> NodeJumpValidation -> DB -> HandlerOutcome * DB.

Definition handlerUndefined : Handler :=
  fun _ _ _ _ db =>
    (HandlerThrew "exceptionHandler.handleNodeJumpValidation is not a function", db).

(** [s || d] on strings. *)
Definition str_or (s : option string) (d : string) : string :=
  match s with
  | Some x => if String.eqb x "" then d else x
  | None => d
  end.

(** What the column [final_total] takes from the parameter of
    [updateSession]: a number as it is given; a text, which is what
    [final_total + profit_loss] is when the result is not a number, as
    the INTEGER column reads it.  [None]: the database refuses the
    statement. *)
Definition finalTotalColumn (newTotal : JsValue) : option num :=
  match newTotal with
  | JNumber n => Some n
  | other => of_Z <$> sqlInteger (sqlText other)
  end.

(** The UPDATE of [updateSession], with the total the column takes. *)
Definition updateSession (sid nextNode : string) (total : num)
    (isCompleted : bool) (db : DB) : DB :=
  with_sessions
    (alter (fun row =>
              mkSession (s_session_id row) nextNode (initial_amount row)
                total isCompleted (path_summary row) (s_result row)) sid)
    db.

(** The row of [recordResultStep] for a result that is a number. *)
Definition resultStep (callback : TradeResultCallback) (actualPnL : num)
    (db : DB) : StepRow :=
  let sid := cb_session_id callback in
  {| st_session_id := sid;
     step_number := next_step sid db;
     node_name := outcome_upper (result callback);
     action := None;
     stake_value := None;
     stake_result := None;
     trade_result_actual := Some actualPnL;
     step_type := "RESULT";
     execution_status := Some "COMPLETED" |}.

(** [recordResultStep]: the note of the row calls
    [actualPnL.toFixed(2)], a method that only a number has; on any
    other value the call raises a [TypeError] before the INSERT is
    sent. *)
Definition recordResultStep (callback : TradeResultCallback) (db : DB)
  : string + DB :=
  match profit_loss callback with
  | JNumber actualPnL => inr (insert_step (resultStep callback actualPnL db) db)
  | JUndefined => inl "Cannot read properties of undefined (reading 'toFixed')"
  | JNull => inl "Cannot read properties of null (reading 'toFixed')"
  | _ => inl "actualPnL.toFixed is not a function"
  end.

Definition updatePathSummary (sid pathSummary : string) (db : DB) : DB :=
  with_sessions
    (alter (fun row =>
              mkSession (s_session_id row) (current_node row) (initial_amount row)
                (final_total row) (is_completed row) pathSummary (s_result row)) sid)
    db.

Definition arrow : string := " → ".

(** [processTradeResult] of the trade-result webhook. *)
Definition processTradeResult (handler : Handler)
    (callback : TradeResultCallback) (db : DB) : TradeResultResponse * DB :=
  let sid := cb_session_id callback in
  match sessions db !! sid with
  | None => (failed (SessionNotFound sid), db)
  | Some sessionData =>
      if is_completed sessionData then (failed (SessionAlreadyCompleted sid), db)
      else
        let newTotal := plus (final_total sessionData) (profit_loss callback) in
        let currentNode := current_node sessionData in
        match decisionTree !! currentNode with
        | None => (failed (InvalidDecisionTreeNode currentNode), db)
        | Some node =>
            let nextNode :=
              match result callback with
              | Win => str_or (win node) "End"
              | Loss => str_or (loss node) "End"
              end in
            let isCompleted := String.eqb nextNode "End" || final node in
            let nextAction :=
              if isCompleted then "SESSION COMPLETED"
              else match result callback with
                   | Win => "WIN - Moving to next level"
                   | Loss => "LOSS - Moving to next level"
                   end in
            let commit (db0 : DB) : TradeResultResponse * DB :=
              match finalTotalColumn newTotal with
              | None => (failed (InvalidIntegerInput (sqlText newTotal)), db0)
              | Some total =>
                  let db1 := updateSession sid nextNode total isCompleted db0 in
                  match recordResultStep callback db1 with
                  | inl msg => (failed (Thrown msg), db1)
                  | inr db2 =>
                      let newPathSummary :=
                        if String.eqb (path_summary sessionData) ""
                        then currentNode ++ arrow ++ nextNode
                        else path_summary sessionData ++ arrow ++ nextNode in
                      let db3 := updatePathSummary sid newPathSummary db2 in
                      (mkResponse true
                         (Some (mkData sid nextNode newTotal isCompleted nextAction))
                         None,
                       db3)
                  end
              end in
            let nodeJumpValidation := validateNodeJump currentNode nextNode in
            if requiresRollback nodeJumpValidation then
              match handler sid currentNode nextNode nodeJumpValidation db with
              | (HandlerThrew msg, db0) => (failed (Thrown msg), db0)
              | (HandlerReturned true, db0) =>
                  (mkResponse false
                     (Some (mkData sid currentNode newTotal false
                              "MANUAL CONFIRMATION REQUIRED"))
                     (Some (ManualConfirmationNeeded
                              (expectedNode nodeJumpValidation)
                              (actualNode nodeJumpValidation))),
                   db0)
              | (HandlerReturned false, db0) => commit db0
              end
            else commit db
        end
  end.

(** A sequence of outcome callbacks, applied in order. *)
Fixpoint processAll (handler : Handler) (callbacks : list TradeResultCallback)
    (db : DB) : DB :=
  match callbacks with
  | [] => db
  | cb :: rest => processAll handler rest (snd (processTradeResult handler cb db))
  end.

(** The result of a callback when it is a number. *)
Definition numberOf (v : JsValue) : option num :=
  match v with JNumber n => Some n | _ => None end.

(** The signed results of the callbacks of a session that were accepted
    (answered with [success: true]) along such a sequence. *)
Fixpoint acceptedResults (handler : Handler) (sid : string)
    (callbacks : list TradeResultCallback) (db : DB) : list num :=
  match callbacks with
  | [] => []
  | cb :: rest =>
      let '(resp, db') := processTradeResult handler cb db in
      ((if success resp && String.eqb (cb_session_id cb) sid
        then option_list (numberOf (profit_loss cb)) else [])
       ++ acceptedResults handler sid rest db')%list
  end.

(** What a handler must leave alone for the running total to stay in
    step with the path history: the total and the recorded results of
    every session. *)
Definition ledger (sid : string) (db : DB) : option num * list num :=
  (final_total <$> sessions db !! sid, recordedResults sid db).

Definition handler_keeps_ledger (handler : Handler) : Prop :=
  forall sid cur next v db s,
    ledger s (snd (handler sid cur next v db)) = ledger s db.

(** [SignalProcessor.createNewSession]: the session row starts with
    [final_total] equal to the initial amount. *)
Definition createNewSession (sessionId symbol currentNode : string)
    (initialAmount : num) (db : DB) : DB :=
  match sessions db !! sessionId with
  | Some _ => db   (* session_id is UNIQUE: the insert is refused *)
  | None =>
      with_sessions
        (insert sessionId
           (mkSession sessionId currentNode initialAmount initialAmount false
              currentNode ""))
        db
  end.

(** [createNewSession] of the trade-signal webhook: [final_total] starts
    at 0 and a first step records the stake of the start node. *)
Definition createNewSessionWebhook (sessionId currentNode : string)
    (initialAmount : num) (db : DB) : DB :=
  match sessions db !! sessionId with
  | Some _ => db
  | None =>
      let db1 :=
        with_sessions
          (insert sessionId
             (mkSession sessionId currentNode initialAmount (of_Z 0) false
                currentNode ""))
          db in
      insert_step
        {| st_session_id := sessionId;
           step_number := 1;
           node_name := currentNode;
           action := Some "start";
           stake_value :=
             (fun node => calculateValue (value node) initialAmount)
               <$> decisionTree !! currentNode;
           stake_result := None;
           trade_result_actual := None;
           step_type := "DECISION";
           execution_status := None |}
        db1
  end.

(** ** The path of lib/trading-platform-service.ts *)

Record TradeResult : Type := mkTradeResult {
  tr_trade_id : string;
  tr_session_id : string;
  tr_result : Outcome;
  tr_exit_price : num;
  tr_profit_loss : num;
  tr_exit_reason : string
}.

(** [ExceptionHandler.executeRollback]. *)
Definition executeRollback (sid rollbackTo : string) (db : DB) : DB :=
  let db1 :=
    with_sessions
      (alter (fun row =>
                mkSession (s_session_id row) rollbackTo (initial_amount row)
                  (final_total row) (is_completed row) (path_summary row)
                  (s_result row)) sid)
      db in
  insert_step
    {| st_session_id := sid;
       step_number := sql_next_step sid db1;
       node_name := rollbackTo;
       action := Some "ROLLBACK";
       stake_value := Some (of_Z 0);
       stake_result := None;
       trade_result_actual := None;
       step_type := "DECISION";
       execution_status := Some "COMPLETED" |}
    db1.

(** [TradingPlatformService.completeSession]. *)
Definition completeSession (sid finalNode : string) (finalTotal : num)
    (db : DB) : DB :=
  with_sessions
    (alter (fun row =>
              mkSession (s_session_id row) (current_node row) (initial_amount row)
                finalTotal true (path_summary row) finalNode) sid)
    db.

(** [TradingPlatformService.updateDecisionTreeNode]; its errors are
    caught and logged, so only the store is returned.  The row it selects
    has no [path_summary], hence the new summary is the next node. *)
Definition updateDecisionTreeNode (config : ExceptionHandlingConfig)
    (sid : string) (res : TradeResult) (db : DB) : DB :=
  match sessions db !! sid with
  | None => db
  | Some session =>
      let currentNode := current_node session in
      match decisionTree !! currentNode with
      | None => db
      | Some node =>
          let next := match tr_result res with Win => win node | Loss => loss node end in
          match next with
          | None => db
          | Some nextNode =>
              if String.eqb nextNode "" then db
              else
                let nodeValidation := handlerValidateNodeJump config currentNode nextNode in
                if negb (isValid nodeValidation) then
                  executeRollback sid
                    (str_or (rollbackToNode nodeValidation) currentNode) db
                else
                  let newRunningTotal :=
                    (num_or (final_total session) (of_Z 0) + tr_profit_loss res)%js in
                  let db1 :=
                    with_sessions
                      (alter (fun row =>
                                mkSession (s_session_id row) nextNode
                                  (initial_amount row) newRunningTotal
                                  (is_completed row) nextNode (s_result row)) sid)
                      db in
                  match decisionTree !! nextNode with
                  | Some nextNodeData =>
                      if final nextNodeData
                      then completeSession sid nextNode newRunningTotal db1
                      else db1
                  | None => db1
                  end
          end
      end
  end.

End Session.

(* ===================================================================== *)
(** * Broker cost model and stake solver (lib/broker-cost-service.ts) *)
(* ===================================================================== *)

Module BrokerCost.

Import JsNum.
Local Open Scope js_scope.

(** An [async] function ends in a resolved or in a rejected promise. *)
Inductive Promise (A : Type) : Type :=
| Resolved (a : A)
| Rejected (e : string).
Arguments Resolved {A} a.
Arguments Rejected {A} e.

(** [await p] followed by the rest of a [try { ... } catch (e) { throw e }]
    body. *)
Definition await {A B : Type} (p : Promise A) (k : A -> Promise B) : Promise B :=
  match p with
  | Resolved a => k a
  | Rejected e => Rejected e
  end.

Inductive CommissionType : Type := fixed | percentage | per_lot.

Record BrokerCostConfig : Type := mkBrokerConfig {
  brokerId : string;
  commissionType : CommissionType;
  commissionValue : num;
  minCommission : num;
  maxCommission : num;
  defaultSpread : num;
  maxAllowedSpread : num;
  spreadMultiplier : num;
  longSwapRate : num;
  shortSwapRate : num;
  maxSpreadToSL : num
}.

Definition dec (n d : Z) : num := Fin (Qred (Qmake n (Z.to_pos d))).

Definition demo : BrokerCostConfig :=
  {| brokerId := "demo"; commissionType := fixed;
     commissionValue := of_Z 5; minCommission := of_Z 5; maxCommission := of_Z 5;
     defaultSpread := of_Z 3; maxAllowedSpread := of_Z 10;
     spreadMultiplier := dec 15 10;
     longSwapRate := of_Z 0; shortSwapRate := of_Z 0; maxSpreadToSL := of_Z 5 |}.

Definition binance : BrokerCostConfig :=
  {| brokerId := "binance"; commissionType := percentage;
     commissionValue := dec 1 10; minCommission := of_Z 1; maxCommission := of_Z 1000;
     defaultSpread := of_Z 2; maxAllowedSpread := of_Z 8;
     spreadMultiplier := of_Z 2;
     longSwapRate := dec (-1) 100; shortSwapRate := dec 1 100;
     maxSpreadToSL := of_Z 3 |}.

Definition mt5 : BrokerCostConfig :=
  {| brokerId := "mt5"; commissionType := per_lot;
     commissionValue := of_Z 7; minCommission := of_Z 7; maxCommission := of_Z 700;
     defaultSpread := of_Z 5; maxAllowedSpread := of_Z 15;
     spreadMultiplier := dec 18 10;
     longSwapRate := dec (-2) 100; shortSwapRate := dec 2 100;
     maxSpreadToSL := of_Z 8 |}.

Inductive CostWarning : Type :=
| HighSpread (spread : num)
| SpreadToSLExceedsLimit (spreadToSL : num)
| UsingDefaultCostData.

Inductive CostError : Type :=
| SpreadExceedsLimit (spread limit : num)
| StakeExceedsMaximum (stake limit : num).

Record RealTimeCostData : Type := mkCostData {
  cd_symbol : string;
  currentSpread : num;
  currentCommission : num;
  spreadToSL : num;
  effectiveSLDistance : num;
  isWithinLimits : bool;
  cd_warnings : list CostWarning
}.

(** [getCurrentSpread]: the default spread varied by a [Math.random()]
    draw [r] of [0, 1), never below 0.1. *)
Definition getCurrentSpread (config : BrokerCostConfig) (r : num) : num :=
  let variation := (r - dec 5 10) * dec 5 10 in
  max (dec 1 10) (defaultSpread config * (of_Z 1 + variation)).

(** The data [getRealTimeCostData] builds when it does not answer from
    its 30-second cache; [r1] and [r2] are the two random draws. *)
Definition freshCostData (config : BrokerCostConfig) (symbol : string)
    (r1 r2 : num) : RealTimeCostData :=
  let currentSpread := getCurrentSpread config r1 in
  let spreadToSL := getCurrentSpread config r2 * spreadMultiplier config in
  {| cd_symbol := symbol;
     currentSpread := currentSpread;
     currentCommission := commissionValue config;
     spreadToSL := spreadToSL;
     effectiveSLDistance := spreadToSL;
     isWithinLimits := currentSpread <=? maxAllowedSpread config;
     cd_warnings :=
       (if currentSpread >? defaultSpread config * dec 15 10
        then [HighSpread currentSpread] else [])
       ++ (if spreadToSL >? maxSpreadToSL config
           then [SpreadToSLExceedsLimit spreadToSL] else []) |}%list.

Section WithConfig.

Variable config : BrokerCostConfig.

Definition calculateCommission (amount price : num) : num :=
  match commissionType config with
  | fixed =>
      max (minCommission config) (min (maxCommission config) (commissionValue config))
  | percentage =>
      let commission := (amount * commissionValue config) / of_Z 100 in
      max (minCommission config) (min (maxCommission config) commission)
  | per_lot =>
      let lots := amount / (price * of_Z 100000) in
      max (minCommission config)
        (min (maxCommission config) (lots * commissionValue config))
  end.

Definition calculateSpreadCost (amount spread price : num) : num :=
  let spreadInPrice := (spread / of_Z 10000) * price in
  amount * (spreadInPrice / price).

Definition calculateSwapCost (amount price days : num) : num :=
  let lots := amount / (price * of_Z 100000) in
  let swapRate := longSwapRate config in
  lots * swapRate * days.

Definition calculateMaxAllowedStake (nominalAmount : num)
    (costData : RealTimeCostData) : num :=
  let maxRiskPercentage := dec 1 100 in
  let adjustedSLDistance := effectiveSLDistance costData + spreadToSL costData in
  let maxStake :=
    (nominalAmount * maxRiskPercentage) / (adjustedSLDistance / of_Z 10000) in
  min maxStake (nominalAmount * dec 1 10).

Record CostCalculationResult : Type := mkCostResult {
  nominalAmount : num;
  commission : num;
  spreadCost : num;
  swapCost : num;
  totalCosts : num;
  netAmount : num;
  ra_effectiveSLDistance : num;
  ra_adjustedStake : num;
  ra_maxAllowedStake : num;
  v_isWithinLimits : bool;
  v_warnings : list CostWarning;
  v_errors : list CostError
}.

(** All cost terms of a stake, at the spread of the given cost data. *)
Definition totalCostsAt (costData : RealTimeCostData) (stake entryPrice : num) : num :=
  calculateCommission stake entryPrice
  + calculateSpreadCost stake (currentSpread costData) entryPrice
  + calculateSwapCost stake entryPrice (of_Z 1).

(** The relative price move [|target - entry| / entry]. *)
Definition priceMoveRatio (entryPrice targetPrice : num) : num :=
  abs (targetPrice - entryPrice) / entryPrice.

(** The stake that would gross the target plus the costs of the
    nominal amount: a division by the price-move ratio. *)
Definition requiredStake (costData : RealTimeCostData)
    (nominal entryPrice targetPrice targetNetProfit : num) : num :=
  (targetNetProfit + totalCostsAt costData nominal entryPrice)
  / priceMoveRatio entryPrice targetPrice.

(** [calculateTradeCosts], given the cost data its call to
    [getRealTimeCostData] returned. *)
Definition calculateTradeCosts (costData : RealTimeCostData)
    (nominal entryPrice targetPrice stopPrice targetNetProfit : num)
  : Promise CostCalculationResult :=
  let commission := calculateCommission nominal entryPrice in
  let spreadCost := calculateSpreadCost nominal (currentSpread costData) entryPrice in
  let swapCost := calculateSwapCost nominal entryPrice (of_Z 1) in
  let totalCosts := commission + spreadCost + swapCost in
  let requiredGrossProfit := targetNetProfit + totalCosts in
  let priceDifference := abs (targetPrice - entryPrice) in
  let requiredStake := requiredGrossProfit / (priceDifference / entryPrice) in
  let maxAllowedStake := calculateMaxAllowedStake nominal costData in
  let adjustedStake := min requiredStake maxAllowedStake in
  let finalCommission := calculateCommission adjustedStake entryPrice in
  let finalSpreadCost :=
    calculateSpreadCost adjustedStake (currentSpread costData) entryPrice in
  let finalSwapCost := calculateSwapCost adjustedStake entryPrice (of_Z 1) in
  let finalTotalCosts := finalCommission + finalSpreadCost + finalSwapCost in
  Resolved
    {| nominalAmount := nominal;
       commission := finalCommission;
       spreadCost := finalSpreadCost;
       swapCost := finalSwapCost;
       totalCosts := finalTotalCosts;
       netAmount := adjustedStake;
       ra_effectiveSLDistance := effectiveSLDistance costData;
       ra_adjustedStake := adjustedStake;
       ra_maxAllowedStake := maxAllowedStake;
       v_isWithinLimits :=
         isWithinLimits costData && (adjustedStake <=? maxAllowedStake);
       v_warnings := cd_warnings costData;
       v_errors :=
         (if negb (isWithinLimits costData)
          then [SpreadExceedsLimit (currentSpread costData) (maxAllowedSpread config)]
          else [])
         ++ (if adjustedStake >? maxAllowedStake
             then [StakeExceedsMaximum adjustedStake maxAllowedStake] else []) |}%list.

Record StakeAdjustment : Type := mkAdjustment {
  adjustedStake : num;
  expectedNetProfit : num;
  adj_totalCosts : num
}.

Definition maxIterations : nat := 10.
Definition tolerance : num := dec 1 100.

(** How the [while] loop of the solver is left. *)
Inductive LoopExit : Type :=
| Converged (iterations : nat) (answer : StakeAdjustment)
| Capped (iterations : nat) (currentStake : num)       (* [break] at the cap *)
| Exhausted (currentStake : num)                       (* ten iterations done *)
| Failed (e : string).                                 (* a rejected [await] *)

Section Solver.

(** [costDataAt k]: the cost data seen by the call number [k] (from 0)
    of [calculateTradeCosts]; a constant stream is the case of
    a cache that stays warm. *)
Variable costDataAt : nat -> RealTimeCostData.
Variables targetNetProfit entryPrice targetPrice stopPrice maxRiskAmount : num.

(** The net profit the solver recomputes for a cost result. *)
Definition actualNetProfitOf (costResult : CostCalculationResult) : num :=
  netAmount costResult * (abs (targetPrice - entryPrice) / entryPrice)
  - totalCosts costResult.

(** The factor by which a stake that missed the target is scaled. *)
Definition adjustmentFactorFor (actualNetProfit : num) : num :=
  targetNetProfit / actualNetProfit.

Fixpoint solverLoop (remaining iterations : nat) (currentStake : num) : LoopExit :=
  match remaining with
  | O => Exhausted currentStake
  | S remaining' =>
      match calculateTradeCosts (costDataAt iterations) currentStake
              entryPrice targetPrice stopPrice targetNetProfit with
      | Rejected e => Failed e
      | Resolved costResult =>
          let actualNetProfit := actualNetProfitOf costResult in
          let difference := abs (actualNetProfit - targetNetProfit) in
          if difference <=? tolerance then
            Converged iterations
              {| adjustedStake := netAmount costResult;
                 expectedNetProfit := actualNetProfit;
                 adj_totalCosts := totalCosts costResult |}
          else
            let adjustmentFactor := adjustmentFactorFor actualNetProfit in
            let currentStake' := currentStake * adjustmentFactor in
            if currentStake' >? maxRiskAmount
            then Capped iterations maxRiskAmount
            else solverLoop remaining' (S iterations) currentStake'
      end
  end.

(** The calls of [calculateTradeCosts] made before the final one. *)
Definition callsMade (exit : LoopExit) : nat :=
  match exit with
  | Converged k _ | Capped k _ => S k
  | Exhausted _ => maxIterations
  | Failed _ => O
  end.

Definition initialStake : num := targetNetProfit / dec 1 100.

(** [adjustStakeForNetProfit]. *)
Definition adjustStakeForNetProfit : Promise StakeAdjustment :=
  let exit := solverLoop maxIterations 0 initialStake in
  let final (currentStake : num) :=
    await (calculateTradeCosts (costDataAt (callsMade exit)) currentStake
             entryPrice targetPrice stopPrice targetNetProfit)
      (fun finalCostResult =>
         Resolved {| adjustedStake := netAmount finalCostResult;
                     expectedNetProfit := targetNetProfit;
                     adj_totalCosts := totalCosts finalCostResult |}) in
  match exit with
  | Converged _ answer => Resolved answer
  | Capped _ currentStake => final currentStake
  | Exhausted currentStake => final currentStake
  | Failed e => Rejected e
  end.

End Solver.

(** The net profit of a stake, recomputed from the cost model. *)
Definition actualNet (costData : RealTimeCostData)
    (stake entryPrice targetPrice : num) : num :=
  stake * priceMoveRatio entryPrice targetPrice
  - totalCostsAt costData stake entryPrice.

Definition withinTolerance (costData : RealTimeCostData)
    (stake entryPrice targetPrice targetNetProfit : num) : bool :=
  abs (actualNet costData stake entryPrice targetPrice - targetNetProfit)
  <=? tolerance.

End WithConfig.

(** ** Reference scenarios *)

(** The demo venue with both random draws at 0.5: a spread of 3 pips and
    a spread-to-stop of 4.5 pips, served from the cache on every call. *)
Definition demoCostData (k : nat) : RealTimeCostData :=
  freshCostData demo "BTCUSDT" (dec 5 10) (dec 5 10).


Definition convergedAnswer : StakeAdjustment :=
  {| adjustedStake := Fin (12852450000000 # 430158479);
     expectedNetProfit := Fin (279603472605 # 430158479);
     adj_totalCosts := Fin (6006527395 # 430158479) |}.

(** The same target with the cap the trade-signal webhook passes for a
    100000 account (10 percent of it). *)
Definition cappedSolve : Promise StakeAdjustment :=
  adjustStakeForNetProfit demo demoCostData (of_Z 650) (of_Z 45000) (of_Z 46000)
    (of_Z 44500) (of_Z 10000).



End BrokerCost.

(* ===================================================================== *)
(** * The execution coordinator (lib/trading-platform-service.ts) and the
      partial-fill handler (lib/exception-handler.ts) *)
(* ===================================================================== *)

Module Execution.

Import JsNum JsString Store.
Local Open Scope js_scope.

Inductive ExecutionStatus : Type := SUCCESS | FAILED.

Definition status_string (s : ExecutionStatus) : string :=
  match s with SUCCESS => "SUCCESS" | FAILED => "FAILED" end.

Record TradeExecution : Type := mkExecution {
  ex_trade_id : string;
  ex_session_id : string;
  status : ExecutionStatus;
  ex_error : option string;
  platform_order_id : option string;
  actual_entry_price : option num;
  actual_quantity : option num
}.

(** The fields of the processed signal that [executeTrade] reads; the
    prices are the strings of the signal. *)
Record ProcessedSignal : Type := mkProcessed {
  ps_trade_id : string;
  ps_session_id : string;
  ps_symbol : string;
  ps_action : string;
  ps_entry : string;
  ps_target : string;
  ps_stop : string;
  trade_amount : num
}.

Record ExecutionData : Type := mkExecutionData {
  ed_symbol : string;
  ed_action : string;
  ed_entry_price : num;
  ed_target_price : num;
  ed_stop_price : num;
  ed_trade_amount : num;
  quantity : num;
  ed_trade_id : string;
  ed_session_id : string
}.

(** What the venue does with one submission: it throws or it answers. *)
Inductive VenueOutcome : Type :=
| VenueThrows (message : string)
| VenueReturns (execution : TradeExecution).

(** The venue as seen by the coordinator: the outcome of each attempt. *)
Definition Venue : Type := nat -> ExecutionData -> VenueOutcome.

Definition maxRetries : nat := 3.
Definition retryDelay : Z := 5000.

Definition retryableErrors : list string :=
  [ "network"; "timeout"; "connection"; "temporary"; "rate limit";
    "server error"; "gateway"; "service unavailable" ].

(** [isRetryableError]. *)
Definition isRetryableError (message : string) : bool :=
  let errorMessage := toLowerCase message in
  existsb (fun retryableError => includes errorMessage retryableError)
          retryableErrors.

(** [errors.join(', ')]. *)
Fixpoint join (sep : string) (xs : list string) : string :=
  match xs with
  | [] => ""
  | [x] => x
  | x :: rest => (x ++ sep ++ join sep rest)%string
  end.

Definition is_long (action : string) : bool :=
  let a := toLowerCase action in String.eqb a "buy" || String.eqb a "long".

Definition is_short (action : string) : bool :=
  let a := toLowerCase action in String.eqb a "sell" || String.eqb a "short".

(** [!s || isNaN(Number(s))] on a string field. *)
Definition not_a_price (s : string) : bool :=
  String.eqb s "" || isNaN (jsNumber s).

(** [validateTradeParameters]: the list of its error texts. *)
Definition validateTradeParameters (signal : ProcessedSignal) : list string :=
  let entry := jsNumber (ps_entry signal) in
  let target := jsNumber (ps_target signal) in
  let stop := jsNumber (ps_stop signal) in
  ((if not_a_price (ps_entry signal) then ["Invalid entry price"] else [])
   ++ (if not_a_price (ps_target signal) then ["Invalid target price"] else [])
   ++ (if not_a_price (ps_stop signal) then ["Invalid stop price"] else [])
   ++ (if falsy (trade_amount signal) || (trade_amount signal <=? of_Z 0)
       then ["Invalid trade amount"] else [])
   ++ (if is_long (ps_action signal) then
         (if target <=? entry
          then ["Target must be higher than entry for buy orders"] else [])
         ++ (if stop >=? entry
             then ["Stop must be lower than entry for buy orders"] else [])
       else if is_short (ps_action signal) then
         (if target >=? entry
          then ["Target must be lower than entry for sell orders"] else [])
         ++ (if stop <=? entry
             then ["Stop must be higher than entry for sell orders"] else [])
       else []))%list.

Definition prepareExecutionData (signal : ProcessedSignal) : ExecutionData :=
  {| ed_symbol := ps_symbol signal;
     ed_action := ps_action signal;
     ed_entry_price := jsNumber (ps_entry signal);
     ed_target_price := jsNumber (ps_target signal);
     ed_stop_price := jsNumber (ps_stop signal);
     ed_trade_amount := trade_amount signal;
     quantity := trade_amount signal / jsNumber (ps_entry signal);
     ed_trade_id := ps_trade_id signal;
     ed_session_id := ps_session_id signal |}.

Definition is_execute_of (sid : string) (st : StepRow) : bool :=
  of_session sid st && String.eqb (step_type st) "EXECUTE".

(** [ExceptionHandler.handlePartialFill]: the stake of the latest EXECUTE
    step of the session becomes the filled amount. *)
Definition handlePartialFill (sid : string) (originalAmount filledAmount : num)
    (db : DB) : DB :=
  match max_step (is_execute_of sid) (session_steps db) with
  | None => db
  | Some latest =>
      with_steps
        (map (fun st =>
                if is_execute_of sid st && (step_number st =? latest)%Z
                then mkStep (st_session_id st) (step_number st) (node_name st)
                       (action st) (Some filledAmount) (stake_result st)
                       (trade_result_actual st) (step_type st)
                       (execution_status st)
                else st))
        db
  end.

(** [recordExecutionStep]. *)
Definition recordExecutionStep (sid : string) (execution : TradeExecution)
    (db : DB) : DB :=
  insert_step
    {| st_session_id := sid;
       step_number := next_step sid db;
       node_name := "EXECUTE";
       action := Some (match status execution with
                       | SUCCESS => "execute" | FAILED => "failed" end);
       stake_value := Some (of_Z 0);
       stake_result := None;
       trade_result_actual := None;
       step_type := "EXECUTE";
       execution_status := Some (status_string (status execution)) |}
    db.

(** [x || y] where [x] may be [null]. *)
Definition opt_num_or (x : option num) (d : num) : num :=
  match x with
  | Some v => if falsy v then d else v
  | None => d
  end.

(** The partial-fill test of [executeTrade]: for a successful execution
    with a quantity, the requested and the filled notional when they
    differ by more than 1 percent. *)
Definition partialFillOf (signal : ProcessedSignal) (execution : TradeExecution)
  : option (num * num) :=
  match status execution, actual_quantity execution with
  | SUCCESS, Some q =>
      if falsy q then None
      else
        let originalAmount := trade_amount signal in
        let filledAmount :=
          q * opt_num_or (actual_entry_price execution) (parseFloat (ps_entry signal)) in
        if abs (filledAmount - originalAmount) / originalAmount >? Fin (1 # 100)
        then Some (originalAmount, filledAmount)
        else None
  | _, _ => None
  end.

(** The body of the [try] block of one attempt: an execution and the new
    store, or the message of the error thrown.  Nothing is written to
    the store before a throw. *)
Definition attemptBody (venue : Venue) (signal : ProcessedSignal) (attempt : nat)
    (db : DB) : (TradeExecution * DB) + string :=
  match validateTradeParameters signal with
  | (_ :: _) as errors =>
      inr ("Invalid trade parameters: " ++ join ", " errors)%string
  | [] =>
      match venue attempt (prepareExecutionData signal) with
      | VenueThrows message => inr message
      | VenueReturns executionResult =>
          let db1 :=
            match partialFillOf signal executionResult with
            | Some (originalAmount, filledAmount) =>
                handlePartialFill (ps_session_id signal) originalAmount
                  filledAmount db
            | None => db
            end in
          inl (executionResult,
               recordExecutionStep (ps_session_id signal) executionResult db1)
      end
  end.

Record ExecutionRun : Type := mkRun {
  execution : TradeExecution;
  waits : list Z;          (* the delays slept between attempts, in ms *)
  attempts : nat;          (* the number of the last attempt made *)
  store : DB
}.

Definition failedExecution (signal : ProcessedSignal) (lastError : option string)
  : TradeExecution :=
  {| ex_trade_id := ps_trade_id signal;
     ex_session_id := ps_session_id signal;
     status := FAILED;
     ex_error :=
       Some (match lastError with
             | Some m => if String.eqb m "" then "Unknown error after all retries" else m
             | None => "Unknown error after all retries"
             end);
     platform_order_id := None;
     actual_entry_price := None;
     actual_quantity := None |}.

(** What follows the loop: the failed execution is recorded and returned. *)
Definition giveUp (signal : ProcessedSignal) (lastError : option string)
    (slept : list Z) (attempt : nat) (db : DB) : ExecutionRun :=
  let failed := failedExecution signal lastError in
  mkRun failed slept attempt (recordExecutionStep (ps_session_id signal) failed db).

(** The [for (attempt = 1; attempt <= maxRetries; attempt++)] loop;
    [remaining] counts the attempts still allowed. *)
Fixpoint attemptLoop (venue : Venue) (signal : ProcessedSignal)
    (remaining attempt : nat) (lastError : option string) (slept : list Z)
    (db : DB) : ExecutionRun :=
  match remaining with
  | O => giveUp signal lastError slept (attempt - 1) db
  | S remaining' =>
      match attemptBody venue signal attempt db with
      | inl (executionResult, db') => mkRun executionResult slept attempt db'
      | inr message =>
          if negb (isRetryableError message) || (attempt =? maxRetries)%nat
          then giveUp signal (Some message) slept attempt db
          else
            let delay := (retryDelay * 2 ^ (Z.of_nat attempt - 1))%Z in
            attemptLoop venue signal remaining' (S attempt) (Some message)
              (slept ++ [delay])%list db
      end
  end.

(** [TradingPlatformService.executeTrade]. *)
Definition executeTrade (venue : Venue) (signal : ProcessedSignal) (db : DB)
  : ExecutionRun :=
  attemptLoop venue signal maxRetries 1 None [] db.

(** The message thrown by an attempt, if it throws. *)
Definition attemptThrows (venue : Venue) (signal : ProcessedSignal) (attempt : nat)
  : option string :=
  match validateTradeParameters signal with
  | (_ :: _) as errors =>
      Some ("Invalid trade parameters: " ++ join ", " errors)%string
  | [] =>
      match venue attempt (prepareExecutionData signal) with
      | VenueThrows message => Some message
      | VenueReturns _ => None
      end
  end.

(** Modelled from the claim's words: the substrings that the
    specification lists as marking a transient error. *)
Definition claimedTransientMarks : list string :=
  [ "network"; "timeout"; "connection"; "rate-limit"; "rate limit";
    "server-error"; "server error"; "gateway"; "unavailable" ].

Definition claimedTransient (message : string) : bool :=
  let errorMessage := toLowerCase message in
  existsb (fun mark => includes errorMessage mark) claimedTransientMarks.

(** [checkTargetStopReached]: the result of a trade once the price has
    reached its target or stop; the profit or loss is computed from the
    [trade_amount] stored with the trade signal. *)
Definition checkTargetStopReached (tradeSignal : SignalRow) (currentPrice : num)
  : option Session.TradeResult :=
  let entry := entry_price tradeSignal in
  let target := target_price tradeSignal in
  let stop := stop_price tradeSignal in
  let amount := ts_trade_amount tradeSignal in
  let outcome (o : Session.Outcome) (exitPrice profitLoss : num) (reason : string) :=
    Some (Session.mkTradeResult (ts_trade_id tradeSignal) (ts_session_id tradeSignal)
            o exitPrice profitLoss reason) in
  if is_long (ts_action tradeSignal) then
    if currentPrice >=? target
    then outcome Session.Win target (amount * ((target - entry) / entry))
           "target_reached"
    else if currentPrice <=? stop
    then outcome Session.Loss stop (neg amount * ((entry - stop) / entry))
           "stop_reached"
    else None
  else
    if currentPrice <=? target
    then outcome Session.Win target (amount * ((entry - target) / entry))
           "target_reached"
    else if currentPrice >=? stop
    then outcome Session.Loss stop (neg amount * ((stop - entry) / entry))
           "stop_reached"
    else None.

(** [TradingPlatformService.recordResultStep]: the signed result goes
    to the [stake_result] column of a RESULT step. *)
Definition recordResultStep (sid : string) (result : Session.TradeResult)
    (db : DB) : DB :=
  insert_step
    {| st_session_id := sid;
       step_number := next_step sid db;
       node_name := Session.outcome_upper (Session.tr_result result);
       action := Some (Session.outcome_lower (Session.tr_result result));
       stake_value := Some (of_Z 0);
       stake_result := Some (Session.tr_profit_loss result);
       trade_result_actual := None;
       step_type := "RESULT";
       execution_status := Some "COMPLETED" |}
    db.

(** [monitorTradeResult], given the price that [getCurrentPrice]
    returns: the result step is recorded first, then the node is
    updated.  Its errors are caught and make it return [null]. *)
Definition monitorTradeResult (config : NodeJump.ExceptionHandlingConfig)
    (execution : TradeExecution) (currentPrice : num) (db : DB)
  : option Session.TradeResult * DB :=
  match status execution with
  | FAILED => (None, db)
  | SUCCESS =>
      match trade_signals db !! ex_trade_id execution with
      | None => (None, db)
      | Some tradeSignal =>
          match checkTargetStopReached tradeSignal currentPrice with
          | None => (None, db)
          | Some result =>
              let db1 := recordResultStep (ex_session_id execution) result db in
              (Some result,
               Session.updateDecisionTreeNode config (ex_session_id execution)
                 result db1)
          end
      end
  end.

(** ** Reference scenarios *)

Definition buySignal : ProcessedSignal :=
  mkProcessed "20250719-000042" "ses_1" "BTCUSDT" "buy"
    "100" "110" "95" (of_Z 1000).

(** A venue that fills 7.5 units at 100: a notional of 750 for the 1000
    requested. *)
Definition partialVenue : Venue :=
  fun _ data =>
    VenueReturns
      (mkExecution (ed_trade_id data) (ed_session_id data) SUCCESS None
         (Some "order_1") (Some (of_Z 100)) (Some (Fin (15 # 2)))).

Definition failingVenue (message : string) : Venue :=
  fun _ _ => VenueThrows message.

(** A store with the session and its first step, as the trade-signal
    webhook creates them. *)
Definition freshStore : DB :=
  Session.createNewSessionWebhook "ses_1" "Start" (of_Z 100000) emptyDB.

(** The same store with the trade signal saved, as the webhook leaves
    it before it calls [executeTrade]. *)
Definition signalledStore : DB :=
  with_signals
    (insert "20250719-000042"
       (mkSignalRow "ses_1" "20250719-000042" "BTCUSDT" "buy"
          (of_Z 100) (of_Z 110) (of_Z 95) (of_Z 1000) "Start"))
    freshStore.

End Execution.

(* ===================================================================== *)
(** * The overnight trade manager (lib/overnight-trade-manager.ts) *)
(* ===================================================================== *)

Module Overnight.

Import JsNum Store.
Local Open Scope js_scope.

Inductive TradeState : Type := active | closed | expired.

(** The in-memory entry of a trade.  It keeps neither the session nor the
    previous node of the trade. *)
Record TradeStatus : Type := mkTradeStatus {
  trade_id : string;
  status : TradeState;
  overnightCloseEnabled : bool;
  entry_time : Z;             (* milliseconds *)
  symbol : string;
  current_node : string
}.

(** A row of the [overnight_trades] table. *)
Record OvernightTrade : Type := mkOvernightTrade {
  ot_trade_id : string;
  ot_session_id : string;
  ot_symbol : string;
  ot_entry_price : num;
  ot_target_price : num;
  ot_stop_price : num;
  ot_trade_amount : num;
  ot_current_node : string;
  previous_node : option string;
  ot_entry_time : Z;
  overnight_close_enabled : bool;
  ot_status : TradeState;
  close_reason : option string
}.

(** The manager with the tables it can reach.  The table is kept by
    trade id: at most one row for a trade id is modelled. *)
Record World : Type := mkWorld {
  db : DB;
  overnight_trades : gmap string OvernightTrade;
  activeTrades : gmap string TradeStatus
}.

Definition emptyWorld : World := mkWorld emptyDB ∅ ∅.

(** What the script of a table declares, as far as an
    [INSERT ... ON CONFLICT] depends on it: the columns with a unique
    index of their own and the columns that are NOT NULL without a
    default. *)
Record TableScript : Type := mkScript {
  unique_columns : list string;
  required_columns : list string
}.

(** The script of [overnight_trades] (src/unnamed/part_011): the only
    unique index is the primary key [id]; [trade_id] has a plain index. *)
Definition overnight_trades_script : TableScript :=
  {| unique_columns := ["id"];
     required_columns :=
       [ "trade_id"; "session_id"; "symbol"; "entry_price"; "target_price";
         "stop_price"; "trade_amount"; "current_node"; "previous_node";
         "entry_time" ] |}.

(** Whether the database takes [INSERT ... ON CONFLICT (target)] with
    NULL given for the columns [nulls]: the target must have a unique
    index for the statement to be planned at all, and a required column
    takes no NULL. *)
Definition upsert_taken (script : TableScript) (target : string)
    (nulls : list string) : bool :=
  existsb (String.eqb target) (unique_columns script)
  && forallb (fun column =>
                negb (existsb (String.eqb column) (required_columns script)))
             nulls.

(** [registerTrade] with the database available.  The INSERT comes
    first: when the database refuses it, the method answers false from
    its [catch] and the in-memory map is not reached.  When the
    statement is taken it is an upsert of the row (on conflict the
    status and the entry time of the row stay), followed by a fresh
    in-memory entry.  [rowTime] and [entryTime] are the readings of the
    clock for the row and, later, for the entry. *)
Definition registerTrade (rowTime entryTime : Z)
    (tradeId sessionId sym : string)
    (entryPrice targetPrice stopPrice tradeAmount : num)
    (currentNode : string) (overnightCloseEnabled : bool)
    (previousNode : option string) (w : World) : bool * World :=
  let previous :=
    match previousNode with
    | Some p => if String.eqb p "" then None else Some p
    | None => None
    end in
  let nulls :=
    match previous with Some _ => [] | None => ["previous_node"] end in
  if upsert_taken overnight_trades_script "trade_id" nulls then
    let row :=
      match overnight_trades w !! tradeId with
      | Some old =>
          mkOvernightTrade tradeId sessionId sym entryPrice targetPrice stopPrice
            tradeAmount currentNode previous (ot_entry_time old)
            overnightCloseEnabled (ot_status old) (close_reason old)
      | None =>
          mkOvernightTrade tradeId sessionId sym entryPrice targetPrice stopPrice
            tradeAmount currentNode previous rowTime overnightCloseEnabled
            active None
      end in
    (true,
     mkWorld (db w)
       (<[tradeId := row]> (overnight_trades w))
       (<[tradeId := mkTradeStatus tradeId active overnightCloseEnabled
                      entryTime sym currentNode]> (activeTrades w)))
  else (false, w).

Definition is_active (t : TradeStatus) : bool :=
  match status t with active => true | _ => false end.

(** [getActiveTrades]. *)
Definition getActiveTrades (w : World) : list TradeStatus :=
  filter (fun t => is_active t = true) (snd <$> map_to_list (activeTrades w)).

(** [manualClose]. *)
Definition manualClose (tradeId reason : string) (w : World) : bool * World :=
  match activeTrades w !! tradeId with
  | None => (false, w)
  | Some trade =>
      (true,
       mkWorld (db w)
         (alter (fun row =>
                   mkOvernightTrade (ot_trade_id row) (ot_session_id row)
                     (ot_symbol row) (ot_entry_price row) (ot_target_price row)
                     (ot_stop_price row) (ot_trade_amount row)
                     (ot_current_node row) (previous_node row)
                     (ot_entry_time row) (overnight_close_enabled row)
                     closed (Some reason)) tradeId (overnight_trades w))
         (<[tradeId := mkTradeStatus (trade_id trade) closed
                        (overnightCloseEnabled trade) (entry_time trade)
                        (symbol trade) (current_node trade)]> (activeTrades w)))
  end.

Definition hoursOpen (now : Z) (trade : TradeStatus) : num :=
  of_Z (now - entry_time trade) / of_Z (1000 * 60 * 60).

(** One turn of the loop of [checkOvernightTrades]: a trade open for more
    than 16 hours is written to the log; nothing else is done. *)
Definition considerTrade (now : Z) (acc : World * list string) (trade : TradeStatus)
  : World * list string :=
  let '(w, log) := acc in
  if overnightCloseEnabled trade then
    if hoursOpen now trade >? of_Z 16
    then (w, (log ++ [trade_id trade])%list)
    else (w, log)
  else (w, log).

(** [checkOvernightTrades], run at the time [now]: the world it leaves
    and the trades it logged as "approaching overnight". *)
Definition checkOvernightTrades (now : Z) (w : World) : World * list string :=
  foldl (considerTrade now) (w, []) (getActiveTrades w).

Definition row_is_active (row : OvernightTrade) : bool :=
  match ot_status row with active => true | _ => false end.

(** [loadActiveTrades]: every row of the table with status 'active' is
    set in the in-memory map under its trade id; the entries of other
    ids stay. *)
Definition loadActiveTrades (w : World) : World :=
  let trades :=
    map_imap (fun tradeId row =>
                if row_is_active row
                then Some (mkTradeStatus tradeId (ot_status row)
                             (overnight_close_enabled row) (ot_entry_time row)
                             (ot_symbol row) (ot_current_node row))
                else None)
             (overnight_trades w) in
  mkWorld (db w) (overnight_trades w) (trades ∪ activeTrades w).

(** ** Reference scenario *)

Definition hour : Z := 1000 * 60 * 60.

(** A session that moved from "Start" to "0-1", and the row of its
    trade in the table: active, entered at time 0, overnight close
    enabled, previous node "Start". *)
Definition nightTable : World :=
  mkWorld
    (with_sessions
       (insert "ses_1"
          (mkSession "ses_1" "0-1" (of_Z 100000) (of_Z 0) false
             "Start → 0-1" ""))
       emptyDB)
    {[ "20250719-000042" :=
         mkOvernightTrade "20250719-000042" "ses_1" "BTCUSDT"
           (of_Z 45000) (of_Z 46000) (of_Z 44500) (of_Z 1000) "0-1"
           (Some "Start") 0 true active None ]}
    ∅.

(** The manager of a process that started on that table. *)
Definition nightWorld : World := loadActiveTrades nightTable.

End Overnight.

(* ===================================================================== *)
(** * Signal intake (lib/signal-processor.ts) *)
(* ===================================================================== *)

Module SignalIntake.

Import JsNum JsString Json.
Local Open Scope js_scope.

(** The JSON body of a signal.  The id is the value of the body as it
    is: the processor checks that it is truthy and never its type, and
    keeps the value itself in its [Set].  The other fields are strings,
    the empty string standing for a field that is missing or empty. *)
Record TradeSignal : Type := mkSignal {
  action : string;
  symbol : string;
  timeframe : string;
  time : string;
  entry : string;
  target : string;
  stop : string;
  id : JsValue;
  rr : string;
  risk : string;
  confidence_score : option string;
  signal_quality : option string
}.

(** Error and warning texts; templates keep their arguments. *)
Inductive SignalError : Type :=
| MissingRequiredField (field : string)
| InvalidAction (a : string)
| InvalidTimeframeFormat (t : string)
| PricesNotNumeric
| BuyTargetNotAboveEntry
| BuyStopNotBelowEntry
| SellTargetNotBelowEntry
| SellStopNotAboveEntry
| RiskRewardNotNumeric
| RiskRewardNotPositive
| SignalTooOld (ageHours : num)
| AlreadyProcessed (signalId : JsValue).

Inductive SignalWarning : Type :=
| ActionNormalized (from to : string)
| TimeframeNormalized (from to : string)
| LargePriceRange (priceRange : num)
| LowRiskReward (r : num)
| VeryHighRiskReward (r : num)
| RiskOutsideRange (r : num)
| SignalAge (ageHours : num)
| LowConfidence (c : num)
| LowQuality.

Record ValidationResult : Type := mkValidationResult {
  isValid : bool;
  errors : list SignalError;
  warnings : option (list SignalWarning)   (* absent on the early return *)
}.

(** The two arrays the validators push to. *)
Definition Report : Type := list SignalError * list SignalWarning.

Definition push_error (e : SignalError) (r : Report) : Report :=
  ((fst r ++ [e])%list, snd r).

Definition push_warning (w : SignalWarning) (r : Report) : Report :=
  (fst r, (snd r ++ [w])%list).

Definition requiredFields (signal : TradeSignal) : list (string * JsValue) :=
  [ ("action", JString (action signal)); ("symbol", JString (symbol signal));
    ("timeframe", JString (timeframe signal)); ("time", JString (time signal));
    ("entry", JString (entry signal)); ("target", JString (target signal));
    ("stop", JString (stop signal)); ("id", id signal);
    ("rr", JString (rr signal)); ("risk", JString (risk signal)) ].

(** [!signal[field] || signal[field] === ''] for each required field. *)
Definition missingFields (signal : TradeSignal) : list SignalError :=
  omap (fun '(name, v) =>
          if negb (truthy v) then Some (MissingRequiredField name) else None)
       (requiredFields signal).

Definition validActions : list string := ["buy"; "sell"; "long"; "short"].

Definition validateAction (a : string) (r : Report) : Report :=
  let normalizedAction := toLowerCase a in
  if negb (existsb (String.eqb normalizedAction) validActions)
  then push_error (InvalidAction a) r
  else if negb (String.eqb a normalizedAction)
  then push_warning (ActionNormalized a normalizedAction) r
  else r.

Definition timeframeMap : gmap string string :=
  list_to_map
    [ ("1", "1m"); ("5", "5m"); ("15", "15m"); ("30", "30m");
      ("60", "1h"); ("240", "4h"); ("1440", "1d"); ("10080", "1w") ].

(** The pattern [/^\d+[mhdw]$/]. *)
Fixpoint digits_then_unit (s : string) (seen : bool) : bool :=
  match s with
  | EmptyString => false
  | String c EmptyString =>
      seen && (Ascii.eqb c "m" || Ascii.eqb c "h" || Ascii.eqb c "d" || Ascii.eqb c "w")
  | String c r => is_digit c && digits_then_unit r true
  end.

Definition validateTimeframe (t : string) (r : Report) : Report :=
  match timeframeMap !! t with
  | Some normalizedTimeframe => push_warning (TimeframeNormalized t normalizedTimeframe) r
  | None =>
      if negb (digits_then_unit t false)
      then push_error (InvalidTimeframeFormat t) r
      else r
  end.

Definition is_buy (a : string) : bool :=
  let l := toLowerCase a in String.eqb l "buy" || String.eqb l "long".

Definition is_sell (a : string) : bool :=
  let l := toLowerCase a in String.eqb l "sell" || String.eqb l "short".

Definition validatePrices (signal : TradeSignal) (r : Report) : Report :=
  let e := parseFloat (entry signal) in
  let t := parseFloat (target signal) in
  let s := parseFloat (stop signal) in
  if isNaN e || isNaN t || isNaN s then push_error PricesNotNumeric r
  else
    let r1 :=
      if is_buy (action signal) then
        let r' := if t <=? e then push_error BuyTargetNotAboveEntry r else r in
        if s >=? e then push_error BuyStopNotBelowEntry r' else r'
      else if is_sell (action signal) then
        let r' := if t >=? e then push_error SellTargetNotBelowEntry r else r in
        if s <=? e then push_error SellStopNotAboveEntry r' else r'
      else r in
    let priceRange := abs (t - e) / e in
    if priceRange >? Fin (1 # 10)
    then push_warning (LargePriceRange priceRange) r1
    else r1.

Definition validateRiskReward (signal : TradeSignal) (r : Report) : Report :=
  let ratio := parseFloat (rr signal) in
  let rk := parseFloat (risk signal) in
  if isNaN ratio || isNaN rk then push_error RiskRewardNotNumeric r
  else
    let r1 :=
      if ratio <=? of_Z 0 then push_error RiskRewardNotPositive r
      else if ratio <? of_Z 1 then push_warning (LowRiskReward ratio) r
      else if ratio >? of_Z 10 then push_warning (VeryHighRiskReward ratio) r
      else r in
    if (rk <=? of_Z 0) || (rk >? of_Z 5)
    then push_warning (RiskOutsideRange rk) r1
    else r1.

Definition MAX_SIGNAL_AGE_HOURS : num := of_Z 24.
Definition MIN_CONFIDENCE_SCORE : num := Fin (7 # 10).

Section WithClock.

(** [new Date(text).getTime()], NaN for an invalid date; and the
    current time in milliseconds. *)
Variable parseDate : string -> num.
Variable now : num.

Definition validateSignalAge (signalTime : string) (r : Report) : Report :=
  let ageHours := (now - parseDate signalTime) / of_Z (1000 * 60 * 60) in
  if ageHours >? MAX_SIGNAL_AGE_HOURS then push_error (SignalTooOld ageHours) r
  else if ageHours >? of_Z 1 then push_warning (SignalAge ageHours) r
  else r.

(** [validateSignalQuality]: the duplicate check against the set of
    processed signal ids, to which a new id is added. *)
Definition validateSignalQuality (signal : TradeSignal)
    (processedSignals : list JsValue) (r : Report) : Report * list JsValue :=
  if set_has (id signal) processedSignals
  then (push_error (AlreadyProcessed (id signal)) r, processedSignals)
  else
    let processedSignals' := set_add (id signal) processedSignals in
    let r1 :=
      match confidence_score signal with
      | Some c =>
          let confidence := parseFloat c in
          if confidence <? MIN_CONFIDENCE_SCORE
          then push_warning (LowConfidence confidence) r else r
      | None => r
      end in
    let r2 :=
      match signal_quality signal with
      | Some q => if String.eqb q "low" then push_warning LowQuality r1 else r1
      | None => r1
      end in
    (r2, processedSignals').

(** [SignalProcessor.validateTradeSignal]. *)
Definition validateTradeSignal (signal : TradeSignal)
    (processedSignals : list JsValue) : ValidationResult * list JsValue :=
  match missingFields signal with
  | (_ :: _) as missing => (mkValidationResult false missing None, processedSignals)
  | [] =>
      let r1 := validateAction (action signal) ([], []) in
      let r2 := validateTimeframe (timeframe signal) r1 in
      let r3 := validatePrices signal r2 in
      let r4 := validateRiskReward signal r3 in
      let r5 := validateSignalAge (time signal) r4 in
      let '(r6, processedSignals') :=
        validateSignalQuality signal processedSignals r5 in
      (mkValidationResult
         (match fst r6 with [] => true | _ => false end)
         (fst r6) (Some (snd r6)),
       processedSignals')
  end.

End WithClock.

End SignalIntake.

(* ===================================================================== *)
(** * The trade-signal webhook (app/api/webhook/trade-signal/route.ts) *)
(* ===================================================================== *)

Module Webhook.

Import JsNum JsString Json DecisionTree Store BrokerCost Execution SignalIntake.
Local Open Scope js_scope.

(** What a request meets outside the program: the clock when the signal
    is validated and when the overnight manager writes its row and its
    entry, the account balance the venue reports, the session id drawn
    for a new session, the cost data and the venue's answers. *)
Record Env : Type := mkEnv {
  parseDate : string -> num;
  now : Z;
  registerRowTime : Z;
  registerEntryTime : Z;
  freshSessionId : string;
  accountBalance : num;
  brokerConfig : BrokerCostConfig;
  costDataAt : nat -> RealTimeCostData;
  venue : Venue
}.

(** The state the webhook works on: the tables, the overnight manager
    and the set of signal ids of the signal processor, which lives in
    the memory of the process. *)
Record System : Type := mkSystem {
  world : Overnight.World;
  processedSignals : list JsValue
}.

Record CostAdjustment : Type := mkCostAdjustment {
  adjustedAmount : num;
  ca_totalCosts : num;
  ca_expectedNetProfit : num
}.

Record ProcessedTradeSignal : Type := mkProcessedTradeSignal {
  p_session_id : string;
  p_trade_id : JsValue;
  p_symbol : string;
  p_action : string;
  p_entry : string;
  p_target : string;
  p_stop : string;
  p_trade_amount : num;
  p_current_node : string;
  p_initial_amount : num;
  node_stake_percentage : string;
  cost_adjustment : CostAdjustment
}.

Inductive HttpResponse : Type :=
| Http400 (errors : list SignalError) (warnings : list SignalWarning)
| Http500 (error : string)
| Http200 (processed : ProcessedTradeSignal) (execution : TradeExecution).

(** [findSessionByTradeId]: the id goes into the statement as a
    parameter. *)
Definition findSessionByTradeId (tradeId : JsValue) (db : DB) : option SessionRow :=
  match trade_signals db !! sqlText tradeId with
  | Some row => sessions db !! ts_session_id row
  | None => None
  end.

(** [updateSessionBalance]: the stored initial amount follows the balance
    when the two differ by more than 5 percent. *)
Definition updateSessionBalance (sid : string) (currentBalance : num) (db : DB) : DB :=
  match sessions db !! sid with
  | None => db
  | Some row =>
      let balanceDifference := abs (currentBalance - initial_amount row) in
      let percentageChange := (balanceDifference / initial_amount row) * of_Z 100 in
      if percentageChange >? of_Z 5 then
        with_sessions
          (alter (fun r =>
                    mkSession (s_session_id r) (current_node r) currentBalance
                      (final_total r) (is_completed r) (path_summary r)
                      (s_result r)) sid)
          db
      else db
  end.

(** [calculateValueWithCostAdjustment]. *)
Definition calculateValueWithCostAdjustment (env : Env) (percentage : string)
    (amount entryPrice targetPrice stopPrice : num) : CostAdjustment :=
  let nominalAmount := calculateValue percentage amount in
  match adjustStakeForNetProfit (brokerConfig env) (costDataAt env) nominalAmount
          entryPrice targetPrice stopPrice (amount * Fin (1 # 10)) with
  | Resolved result =>
      mkCostAdjustment (adjustedStake result) (adj_totalCosts result)
        (expectedNetProfit result)
  | Rejected _ => mkCostAdjustment nominalAmount (of_Z 0) nominalAmount
  end.

(** [saveTradeSignal]: an upsert on the trade id. *)
Definition saveTradeSignal (p : ProcessedTradeSignal) (db : DB) : DB :=
  with_signals
    (insert (sqlText (p_trade_id p))
       (mkSignalRow (p_session_id p) (sqlText (p_trade_id p)) (p_symbol p)
          (p_action p)
          (jsNumber (p_entry p)) (jsNumber (p_target p)) (jsNumber (p_stop p))
          (p_trade_amount p) (p_current_node p)))
    db.

(** [processTradeSignal] of the route. *)
Definition processTradeSignal (env : Env) (signal : TradeSignal) (db : DB)
  : (ProcessedTradeSignal + string) * DB :=
  let '(sessionId, currentNode, initialAmount, db1) :=
    match findSessionByTradeId (id signal) db with
    | Some existingSession =>
        (s_session_id existingSession, current_node existingSession,
         initial_amount existingSession,
         updateSessionBalance (s_session_id existingSession)
           (accountBalance env) db)
    | None =>
        (freshSessionId env, "Start"%string, accountBalance env,
         Session.createNewSessionWebhook (freshSessionId env) "Start"
           (accountBalance env) db)
    end in
  match decisionTree !! currentNode with
  | None => (inr ("Invalid decision tree node: " ++ currentNode)%string, db1)
  | Some node =>
      let costAdjustedResult :=
        calculateValueWithCostAdjustment env (value node) initialAmount
          (jsNumber (entry signal)) (jsNumber (target signal))
          (jsNumber (stop signal)) in
      let processedSignal :=
        {| p_session_id := sessionId;
           p_trade_id := id signal;
           p_symbol := symbol signal;
           p_action := action signal;
           p_entry := entry signal;
           p_target := target signal;
           p_stop := stop signal;
           p_trade_amount := adjustedAmount costAdjustedResult;
           p_current_node := currentNode;
           p_initial_amount := initialAmount;
           node_stake_percentage := value node;
           cost_adjustment := costAdjustedResult |} in
      (inl processedSignal, saveTradeSignal processedSignal db1)
  end.

(** The route hands the processed signal itself to [executeTrade],
    which uses the trade id as a parameter of its statements only: it
    is carried as the text the driver sends for it. *)
Definition toExecutionSignal (p : ProcessedTradeSignal) : ProcessedSignal :=
  mkProcessed (sqlText (p_trade_id p)) (p_session_id p) (p_symbol p) (p_action p)
    (p_entry p) (p_target p) (p_stop p) (p_trade_amount p).

Definition with_db (f : DB -> DB) (w : Overnight.World) : Overnight.World :=
  Overnight.mkWorld (f (Overnight.db w)) (Overnight.overnight_trades w)
    (Overnight.activeTrades w).

(** The [POST] handler.  The alert monitors, the [trade_costs] table and
    the result monitor that a timer starts one second later are outside
    the model.  The answer of [registerTrade] is not looked at.  (The
    in-memory map of the manager would be keyed by the id itself; the
    manager is handed the text of the id, which is the id when it is a
    string.) *)
Definition POST (env : Env) (signalData : TradeSignal) (sys : System)
  : HttpResponse * System :=
  let '(validationResult, processed') :=
    validateTradeSignal (parseDate env) (of_Z (now env)) signalData
      (processedSignals sys) in
  if negb (isValid validationResult) then
    (Http400 (errors validationResult) (default [] (warnings validationResult)),
     mkSystem (world sys) processed')
  else
    match processTradeSignal env signalData (Overnight.db (world sys)) with
    | (inr e, db1) =>
        (Http500 e, mkSystem (with_db (fun _ => db1) (world sys)) processed')
    | (inl processed, db1) =>
        let run := executeTrade (venue env) (toExecutionSignal processed) db1 in
        let w1 := with_db (fun _ => store run) (world sys) in
        match status (execution run) with
        | SUCCESS =>
            let '(_, w2) :=
              Overnight.registerTrade (registerRowTime env)
                (registerEntryTime env) (sqlText (p_trade_id processed))
                (p_session_id processed) (p_symbol processed)
                (jsNumber (p_entry processed)) (jsNumber (p_target processed))
                (jsNumber (p_stop processed)) (p_trade_amount processed)
                (p_current_node processed) true None w1 in
            (Http200 processed (execution run), mkSystem w2 processed')
        | FAILED =>
            (Http500
               ("Trade execution failed: "
                ++ default "null" (ex_error (execution run)))%string,
             mkSystem w1 processed')
        end
    end.

(** ** Reference scenario *)

Definition demoSignal : TradeSignal :=
  mkSignal "buy" "BTCUSDT" "15" "2025-07-19T09:00:00Z" "45000" "46000" "44500"
    (JString "20250719-000042") "2" "1" None None.

(** A venue that fills every order as requested. *)
Definition fillingVenue : Venue :=
  fun _ data =>
    VenueReturns
      (mkExecution (ed_trade_id data) (ed_session_id data) SUCCESS None
         (Some "order_1") (Some (ed_entry_price data)) (Some (quantity data))).

Definition demoEnv (sessionId : string) : Env :=
  {| parseDate := fun _ => of_Z 0;
     now := 60000;
     registerRowTime := 60500;
     registerEntryTime := 60501;
     freshSessionId := sessionId;
     accountBalance := of_Z 100000;
     brokerConfig := demo;
     costDataAt := demoCostData;
     venue := fillingVenue |}.

Definition emptySystem : System := mkSystem Overnight.emptyWorld [].

End Webhook.

(* ===================================================================== *)
(** * Walks through the decision graph *)
(* ===================================================================== *)

Module GraphWalk.

Import JsNum JsString DecisionTree.

(** [result === 'win' ? node.win : node.loss]: the edge an outcome
    takes, as the trade-result webhook and [updateDecisionTreeNode]
    read it from the node. *)
Definition edge (o : Session.Outcome) (node : DecisionNode) : option string :=
  match o with
  | Session.Win => win node
  | Session.Loss => loss node
  end.

(** The node reached from [node] by a sequence of outcomes, each taking
    the edge of the node it meets; a node that has no such edge is not
    left. *)
Fixpoint walk (node : string) (outcomes : list Session.Outcome) : string :=
  match outcomes with
  | [] => node
  | o :: rest =>
      match decisionTree !! node with
      | Some n =>
          match edge o n with
          | Some next => walk next rest
          | None => node
          end
      | None => node
      end
  end.

Fixpoint wins (outcomes : list Session.Outcome) : nat :=
  match outcomes with
  | [] => O
  | Session.Win :: rest => S (wins rest)
  | Session.Loss :: rest => wins rest
  end.

Fixpoint losses (outcomes : list Session.Outcome) : nat :=
  match outcomes with
  | [] => O
  | Session.Win :: rest => losses rest
  | Session.Loss :: rest => S (losses rest)
  end.

Definition digit (n : nat) : string :=
  String (ascii_of_nat (48 + n)) EmptyString.

(** The id of the node with [w] wins and [l] losses. *)
Definition node_of (w l : nat) : string :=
  match w, l with
  | O, O => "Start"
  | _, _ => digit w ++ "-" ++ digit l
  end.

Definition level_number (node : DecisionNode) : option nat :=
  match level node with
  | LevelNum n => Some n
  | LevelEnd => None
  end.

End GraphWalk.

(* ===================================================================== *)
(** * The trade-result webhook: validation of the callback
      (src/unnamed/part_005) *)
(* ===================================================================== *)

Module ResultCallback.

Import JsNum JsString Json.

(** [list.includes(v)] on an array of strings: only a string equal to
    one of them is included. *)
Definition includes_value (list : list string) (v : JsValue) : bool :=
  match v with
  | JString s => existsb (String.eqb s) list
  | _ => false
  end.

(** The parsed body as the validator reads it. *)
Record RawCallback : Type := mkRaw {
  r_trade_id : JsValue;
  r_session_id : JsValue;
  r_result : JsValue;
  r_exit_price : JsValue;
  r_profit_loss : JsValue;
  r_exit_reason : JsValue;
  r_exited_at : JsValue
}.

(** Error texts; templates keep their arguments. *)
Inductive CallbackError : Type :=
| MissingField (field : string)
| ResultNotWinOrLoss
| InvalidExitReason (v : JsValue)
| ExitPriceNotNumeric
| ProfitLossNotNumeric.

Definition requiredFields (callback : RawCallback) : list (string * JsValue) :=
  [ ("trade_id", r_trade_id callback); ("session_id", r_session_id callback);
    ("result", r_result callback); ("exit_price", r_exit_price callback);
    ("profit_loss", r_profit_loss callback);
    ("exit_reason", r_exit_reason callback);
    ("exited_at", r_exited_at callback) ].

Definition validExitReasons : list string :=
  [ "target_reached"; "stop_reached"; "manual_close"; "partial_fill" ].

Record CallbackValidation : Type := mkCallbackValidation {
  isValid : bool;
  errors : list CallbackError
}.

(** [validateTradeResultCallback]. *)
Definition validateTradeResultCallback (callback : RawCallback)
  : CallbackValidation :=
  let errors :=
    (omap (fun '(field, v) =>
             if negb (truthy v) then Some (MissingField field) else None)
          (requiredFields callback)
     ++ (if truthy (r_result callback)
            && negb (includes_value ["win"; "loss"] (r_result callback))
         then [ResultNotWinOrLoss] else [])
     ++ (if truthy (r_exit_reason callback)
            && negb (includes_value validExitReasons (r_exit_reason callback))
         then [InvalidExitReason (r_exit_reason callback)] else [])
     ++ (if truthy (r_exit_price callback)
            && isNaN (toNumber (r_exit_price callback))
         then [ExitPriceNotNumeric] else [])
     ++ (if truthy (r_profit_loss callback)
            && isNaN (toNumber (r_profit_loss callback))
         then [ProfitLossNotNumeric] else []))%list in
  mkCallbackValidation (match errors with [] => true | _ => false end) errors.

(** The body that [processTradeResult] receives as [callback], as the
    validator read it before. *)
Definition received (callback : Session.TradeResultCallback) : RawCallback :=
  {| r_trade_id := JString (Session.trade_id callback);
     r_session_id := JString (Session.cb_session_id callback);
     r_result := JString (Session.outcome_lower (Session.result callback));
     r_exit_price := JNumber (Session.exit_price callback);
     r_profit_loss := Session.profit_loss callback;
     r_exit_reason := JString (Session.exit_reason callback);
     r_exited_at := JString (Session.exited_at callback) |}.

End ResultCallback.

(* ===================================================================== *)
(** * Notions used to state properties of the session state machine *)
(* ===================================================================== *)

Module SessionNotions.

Import JsNum JsString Json DecisionTree NodeJump Store Session.

(** A handler that leaves the store as it finds it. *)
Definition handler_inert (handler : Handler) : Prop :=
  forall sid cur next v db, snd (handler sid cur next v db) = db.

(** The steps of a session, in insertion order. *)
Definition steps_of (sid : string) (db : DB) : list StepRow :=
  List.filter (of_session sid) (session_steps db).

(** The next node and the store after a committed callback, as
    [processTradeResult] computes them. *)
Definition nextNodeOf (o : Outcome) (node : DecisionNode) : string :=
  match o with
  | Win => str_or (win node) "End"
  | Loss => str_or (loss node) "End"
  end.

(** The store after the UPDATE of the session alone, with the total
    the column took. *)
Definition updated (cb : TradeResultCallback) (total : num) (row : SessionRow)
    (node : DecisionNode) (db : DB) : DB :=
  let next := nextNodeOf (result cb) node in
  updateSession (cb_session_id cb) next total
    (String.eqb next "End" || final node) db.

(** The store after a committed callback, whose result is the number
    [actualPnL]. *)
Definition committed (cb : TradeResultCallback) (actualPnL : num)
    (row : SessionRow) (node : DecisionNode) (db : DB) : DB :=
  let sid := cb_session_id cb in
  let next := nextNodeOf (result cb) node in
  let db1 := updated cb (final_total row + actualPnL)%js row node db in
  updatePathSummary sid
    (if String.eqb (path_summary row) ""
     then current_node row ++ arrow ++ next
     else path_summary row ++ arrow ++ next)
    (insert_step (resultStep cb actualPnL db1) db1).

(** The nodes a session can stand at when it starts at "Start" and its
    outcomes arrive through the trade-result webhook as the code is. *)
Definition webhookReachable : list string :=
  [ "Start"; "0-1"; "0-2"; "0-3"; "0-4"; "0-5"; "LOST"; "End" ].

(** The step numbers of a session, in insertion order. *)
Definition step_numbers (sid : string) (db : DB) : list Z :=
  map step_number (steps_of sid db).

(** Strictly increasing. *)
Fixpoint increasing (numbers : list Z) : Prop :=
  match numbers with
  | [] => True
  | n :: rest => Forall (fun m => (n < m)%Z) rest /\ increasing rest
  end.

(** A step without its stake. *)
Definition forget_stake (st : StepRow) : StepRow :=
  mkStep (st_session_id st) (step_number st) (node_name st) (action st)
    None (stake_result st) (trade_result_actual st) (step_type st)
    (execution_status st).

End SessionNotions.

(* ===================================================================== *)
(** * The built-in venues of the execution coordinator
      (src/lib/trading-platform-service.ts) *)
(* ===================================================================== *)

Module Platform.

Import JsNum JsString Store Execution.
Local Open Scope js_scope.

(** [config.platform]. *)
Inductive PlatformName : Type := binance | mt4 | mt5 | demo.

(** [executeBinanceTrade]; [now] is the text of [Date.now()]. *)
Definition executeBinanceTrade (now : string) (data : ExecutionData)
  : TradeExecution :=
  {| ex_trade_id := ed_trade_id data;
     ex_session_id := ed_session_id data;
     status := SUCCESS;
     ex_error := None;
     platform_order_id := Some ("binance_" ++ now)%string;
     actual_entry_price := Some (ed_entry_price data);
     actual_quantity := Some (quantity data) |}.

(** [executeMTTrade]. *)
Definition executeMTTrade (now : string) (data : ExecutionData)
  : TradeExecution :=
  {| ex_trade_id := ed_trade_id data;
     ex_session_id := ed_session_id data;
     status := SUCCESS;
     ex_error := None;
     platform_order_id := Some ("mt_" ++ now)%string;
     actual_entry_price := Some (ed_entry_price data);
     actual_quantity := Some (quantity data) |}.

(** [executeDemoTrade]; [random] is the value of [Math.random()]. *)
Definition executeDemoTrade (random : num) (now : string) (data : ExecutionData)
  : TradeExecution :=
  let isSuccess := random >? Fin (5 # 100) in
  if isSuccess then
    {| ex_trade_id := ed_trade_id data;
       ex_session_id := ed_session_id data;
       status := SUCCESS;
       ex_error := None;
       platform_order_id := Some ("demo_" ++ now)%string;
       actual_entry_price := Some (ed_entry_price data);
       actual_quantity := Some (quantity data) |}
  else
    {| ex_trade_id := ed_trade_id data;
       ex_session_id := ed_session_id data;
       status := FAILED;
       ex_error := Some "Demo trade failed (simulated)";
       platform_order_id := None;
       actual_entry_price := None;
       actual_quantity := None |}.

(** [executeTradeWithTimeout]: the platform is selected and its answer
    returned; the health monitor it informs keeps no state of the
    store. *)
Definition executeTradeWithTimeout (platform : PlatformName) (random : num)
    (now : string) (executionData : ExecutionData) : TradeExecution :=
  match platform with
  | binance => executeBinanceTrade now executionData
  | mt4 | mt5 => executeMTTrade now executionData
  | demo => executeDemoTrade random now executionData
  end.

(** The venue that [executeTrade] meets with a built-in platform: the
    random draw and the clock of each attempt are given. *)
Definition platformVenue (platform : PlatformName) (random : nat -> num)
    (now : nat -> string) : Venue :=
  fun attempt executionData =>
    VenueReturns
      (executeTradeWithTimeout platform (random attempt) (now attempt)
         executionData).

End Platform.

(* ===================================================================== *)
(** * The overnight manager: lookup, start-up and the route
      (src/lib/overnight-trade-manager.ts, src/unnamed/part_007) *)
(* ===================================================================== *)

Module OvernightRoute.

Import JsNum Store Overnight.

(** [getTradeStatus]. *)
Definition getTradeStatus (tradeId : string) (w : World) : option TradeStatus :=
  activeTrades w !! tradeId.

(** A new process: the in-memory map is empty, the tables are as they
    were, and the module loads the active trades. *)
Definition restart (w : World) : World :=
  loadActiveTrades (mkWorld (db w) (overnight_trades w) ∅).

(** The answers of the route, by status code. *)
Inductive RouteStatus : Type := Ok200 | BadRequest400 | NotFound404.

(** [POST] of the route; [trade_id] is empty when the body has none,
    [overnight_close_enabled] is [None] when the body's value is not a
    boolean. *)
Definition POST (action trade_id : string) (overnight_close_enabled : option bool)
    (w : World) : RouteStatus * World :=
  if String.eqb trade_id "" then (BadRequest400, w)
  else if String.eqb action "close" then
    let '(closeResult, w') := manualClose trade_id "manual_close" w in
    if closeResult then (Ok200, w') else (NotFound404, w')
  else if String.eqb action "update_settings" then
    match overnight_close_enabled with
    | None => (BadRequest400, w)
    | Some enabled =>
        (Ok200,
         mkWorld (db w)
           (alter (fun row =>
                     mkOvernightTrade (ot_trade_id row) (ot_session_id row)
                       (ot_symbol row) (ot_entry_price row) (ot_target_price row)
                       (ot_stop_price row) (ot_trade_amount row)
                       (ot_current_node row) (previous_node row)
                       (ot_entry_time row) enabled (ot_status row)
                       (close_reason row)) trade_id (overnight_trades w))
           (alter (fun tradeStatus =>
                     mkTradeStatus (Overnight.trade_id tradeStatus)
                       (status tradeStatus) enabled (entry_time tradeStatus)
                       (symbol tradeStatus) (current_node tradeStatus))
                  trade_id (activeTrades w)))
    end
  else (BadRequest400, w).

(** [DELETE] of the route: the row is deleted from the table. *)
Definition DELETE (tradeId : string) (w : World) : RouteStatus * World :=
  if String.eqb tradeId "" then (BadRequest400, w)
  else
    match overnight_trades w !! tradeId with
    | None => (NotFound404, w)
    | Some _ =>
        (Ok200, mkWorld (db w) (delete tradeId (overnight_trades w)) (activeTrades w))
    end.

(** The calls that reach the manager while a process runs. *)
Inductive Call : Type :=
| CallRegister (rowTime entryTime : Z) (tradeId sessionId sym : string)
    (entryPrice targetPrice stopPrice tradeAmount : num) (currentNode : string)
    (overnightCloseEnabled : bool) (previousNode : option string)
| CallManualClose (tradeId reason : string)
| CallCheck (now : Z)
| CallLoad
| CallPOST (action trade_id : string) (overnight_close_enabled : option bool)
| CallDELETE (tradeId : string).

Definition call (c : Call) (w : World) : World :=
  match c with
  | CallRegister rowTime entryTime tradeId sessionId sym e t s a node enabled
      previous =>
      snd (registerTrade rowTime entryTime tradeId sessionId sym e t s a node
             enabled previous w)
  | CallManualClose tradeId reason => snd (manualClose tradeId reason w)
  | CallCheck now => fst (checkOvernightTrades now w)
  | CallLoad => loadActiveTrades w
  | CallPOST action trade_id enabled => snd (POST action trade_id enabled w)
  | CallDELETE tradeId => snd (DELETE tradeId w)
  end.

Definition calls (cs : list Call) (w : World) : World :=
  foldl (fun w c => call c w) w cs.

End OvernightRoute.

(* ===================================================================== *)
(** * Broker costs: the cost cache and the trade conditions
      (lib/broker-cost-service.ts, in src/unnamed/part_003) *)
(* ===================================================================== *)

Module CostConditions.

Import JsNum BrokerCost.
Local Open Scope js_scope.

(** [defaultBrokerConfigs]. *)
Definition defaultBrokerConfigs : list BrokerCostConfig := [demo; binance; mt5].

Definition CACHE_DURATION : Z := 30 * 1000.

(** The cost cache: the data of a symbol with the time it was built. *)
Definition CostCache : Type := gmap string (RealTimeCostData * Z).

(** [getRealTimeCostData], run at the time [now]; [r1] and [r2] are the
    random draws a fetch would make.  The fetch of the class as it
    stands does not throw. *)
Definition getRealTimeCostData (config : BrokerCostConfig) (now : Z)
    (r1 r2 : num) (symbol : string) (costCache : CostCache)
  : RealTimeCostData * CostCache :=
  let fetch :=
    let costData := freshCostData config symbol r1 r2 in
    (costData, <[symbol := (costData, now)]> costCache) in
  match costCache !! symbol with
  | Some (cached, timestamp) =>
      if (now - timestamp <? CACHE_DURATION)%Z then (cached, costCache)
      else fetch
  | None => fetch
  end.

Inductive ConditionWarning : Type :=
| ElevatedSpread (spread : num).

Inductive ConditionError : Type :=
| SpreadTooHigh (spread limit : num)
| SpreadToSLTooHigh (spreadToSL limit : num).

Record ConditionReport : Type := mkConditionReport {
  isValid : bool;
  warnings : list ConditionWarning;
  errors : list ConditionError
}.

(** [validateTradeConditions], given the cost data its call to
    [getRealTimeCostData] returned. *)
Definition validateTradeConditions (config : BrokerCostConfig)
    (costData : RealTimeCostData) : ConditionReport :=
  let spreadErrors :=
    if currentSpread costData >? maxAllowedSpread config
    then [SpreadTooHigh (currentSpread costData) (maxAllowedSpread config)]
    else [] in
  let warnings :=
    if currentSpread costData >? maxAllowedSpread config then []
    else if currentSpread costData >? defaultSpread config * dec 15 10
    then [ElevatedSpread (currentSpread costData)]
    else [] in
  let errors :=
    (spreadErrors
     ++ (if spreadToSL costData >? maxSpreadToSL config
         then [SpreadToSLTooHigh (spreadToSL costData) (maxSpreadToSL config)]
         else []))%list in
  mkConditionReport (match errors with [] => true | _ => false end)
    warnings errors.

End CostConditions.

(* ===================================================================== *)
(** * The local session cache of the exception handler
      (src/lib/exception-handler.ts) *)
(* ===================================================================== *)

Module SessionCache.

Import JsNum Store NodeJump.

Record CachedSessionData : Type := mkCached {
  sessionId : string;
  signal : SignalIntake.TradeSignal;
  currentNode : string;
  initialAmount : num;
  timestamp : Z;
  retryCount : Z
}.

(** Message texts; templates keep their arguments. *)
Inductive CacheMessage : Type :=
| RetryNumber (count limit : Z)
| MaxRetriesExceeded.

Record CacheReply : Type := mkCacheReply {
  success : bool;
  cached : bool;
  message : CacheMessage
}.

(** [handleDatabaseFailure], called at the time [now]. *)
Definition handleDatabaseFailure (config : ExceptionHandlingConfig) (now : Z)
    (sessionData : CachedSessionData)
    (cachedSessions : gmap string CachedSessionData)
  : CacheReply * gmap string CachedSessionData :=
  let currentCache :=
    match cachedSessions !! sessionId sessionData with
    | Some existingCache =>
        mkCached (sessionId existingCache) (signal existingCache)
          (currentNode existingCache) (initialAmount existingCache) now
          (retryCount existingCache + 1)
    | None =>
        mkCached (sessionId sessionData) (signal sessionData)
          (currentNode sessionData) (initialAmount sessionData) now 1
    end in
  (mkCacheReply false true
     (if (retryCount currentCache <=? maxRetryCount config)%Z
      then RetryNumber (retryCount currentCache) (maxRetryCount config)
      else MaxRetriesExceeded),
   <[sessionId sessionData := currentCache]> cachedSessions).

Record CacheStatus : Type := mkCacheStatus {
  total : nat;
  expired : nat;
  retryCounts : gmap string Z
}.

Definition is_expired (config : ExceptionHandlingConfig) (currentTime : Z)
    (cachedData : CachedSessionData) : bool :=
  (currentTime - timestamp cachedData >? cacheTimeoutMs config)%Z.

(** [getCachedSessionsStatus], called at the time [currentTime]. *)
Definition getCachedSessionsStatus (config : ExceptionHandlingConfig)
    (currentTime : Z) (cachedSessions : gmap string CachedSessionData)
  : CacheStatus :=
  {| total := size cachedSessions;
     expired :=
       length (List.filter (fun entry => is_expired config currentTime (snd entry))
                 (map_to_list cachedSessions));
     retryCounts := retryCount <$> cachedSessions |}.

(** A sequence of database failures, each with its time. *)
Definition handleFailures (config : ExceptionHandlingConfig)
    (failures : list (Z * CachedSessionData))
    (cachedSessions : gmap string CachedSessionData)
  : gmap string CachedSessionData :=
  foldl (fun cache failure =>
           snd (handleDatabaseFailure config (fst failure) (snd failure) cache))
        cachedSessions failures.

Inductive SyncDetail : Type :=
| DetailExpired (sessionId : string)
| DetailCreated (sessionId : string)
| DetailUpdated (sessionId : string)
| DetailFailed (sessionId : string).

Record SyncResults : Type := mkSyncResults {
  sync_success : bool;
  synced : nat;
  failed : nat;
  details : list SyncDetail
}.

(** One turn of the loop of [synchronizeCachedSessions].  [write] is
    what the database does with the statement that creates or updates
    the session of a cached entry: the new store, or [None] when the
    statement throws.  An expired entry is deleted here; the source
    deletes it after the loop, which leaves the same cache. *)
Definition syncEntry (config : ExceptionHandlingConfig) (currentTime : Z)
    (write : CachedSessionData -> DB -> option DB)
    (acc : SyncResults * gmap string CachedSessionData * DB)
    (entry : string * CachedSessionData)
  : SyncResults * gmap string CachedSessionData * DB :=
  let '(results, cachedSessions, db) := acc in
  let '(sid, cachedData) := entry in
  if is_expired config currentTime cachedData then
    (mkSyncResults (sync_success results) (synced results) (failed results)
       (details results ++ [DetailExpired sid]),
     delete sid cachedSessions, db)
  else
    match write cachedData db with
    | Some db' =>
        (mkSyncResults (sync_success results) (S (synced results)) (failed results)
           (details results
            ++ [match sessions db !! sid with
                | None => DetailCreated sid
                | Some _ => DetailUpdated sid
                end]),
         delete sid cachedSessions, db')
    | None =>
        (mkSyncResults (sync_success results) (synced results) (S (failed results))
           (details results ++ [DetailFailed sid]),
         cachedSessions, db)
    end.

(** [synchronizeCachedSessions] with the database available. *)
Definition synchronizeCachedSessions (config : ExceptionHandlingConfig)
    (currentTime : Z) (write : CachedSessionData -> DB -> option DB)
    (cachedSessions : gmap string CachedSessionData) (db : DB)
  : SyncResults * gmap string CachedSessionData * DB :=
  foldl (syncEntry config currentTime write)
    (mkSyncResults true 0 0 [], cachedSessions, db)
    (map_to_list cachedSessions).

End SessionCache.

(* ===================================================================== *)
(** * Notions used to state properties of the trade-signal webhook *)
(* ===================================================================== *)

Module WebhookNotions.

Import Webhook.

(** The same surroundings with another venue. *)
Definition with_venue (v : Execution.Venue) (env : Env) : Env :=
  mkEnv (parseDate env) (now env) (registerRowTime env) (registerEntryTime env)
    (freshSessionId env) (accountBalance env) (brokerConfig env)
    (costDataAt env) v.

End WebhookNotions.

(* ===================================================================== *)
(** * The alert service (src/lib/alert-service.ts) *)
(* ===================================================================== *)

Module Alerts.

Import JsNum JsString DecisionTree.
Local Open Scope js_scope.

Record AlertConfig : Type := mkAlertConfig {
  signalDelayThreshold : num;        (* seconds *)
  platformTimeoutThreshold : num;    (* seconds *)
  stakeCalculationThreshold : num    (* percentage *)
}.

(** The thresholds the constructor sets. *)
Definition defaultAlertConfig : AlertConfig :=
  {| signalDelayThreshold := of_Z 30;
     platformTimeoutThreshold := of_Z 60;
     stakeCalculationThreshold := of_Z 10 |}.

Inductive AlertType : Type :=
| SIGNAL_DELAY | PLATFORM_UNRESPONSIVE | STAKE_ABNORMAL | SYSTEM_ERROR.

Inductive Severity : Type := LOW | MEDIUM | HIGH | CRITICAL.

Inductive Health : Type := HEALTHY | DEGRADED | DOWN.

(** The numbers an alert carries in its details. *)
Inductive AlertDetails : Type :=
| DelayDetails (delay_seconds threshold : num)
| HealthDetails (status : Health) (response_time : option num)
| StakeDetails (calculated_stake expected_stake deviation_percentage threshold : num).

(** An alert of the queue; its id and its time stamps are left out. *)
Record Alert : Type := mkAlert {
  alert_type : AlertType;
  severity : Severity;
  details : AlertDetails;
  acknowledged : bool
}.

Record AlertService : Type := mkAlertService {
  alertQueue : list Alert;
  lastSignalTime : option num;
  platformHealthStatus : Health;
  stakeCalculationHistory : list num
}.

Definition newAlertService : AlertService := mkAlertService [] None HEALTHY [].

(** [createAlert]: the alert joins the queue (the [alerts] table and the
    notifications are outside the model). *)
Definition createAlert (alert_type : AlertType) (severity : Severity)
    (details : AlertDetails) (s : AlertService) : AlertService :=
  mkAlertService (alertQueue s ++ [mkAlert alert_type severity details false])
    (lastSignalTime s) (platformHealthStatus s) (stakeCalculationHistory s).

(** [monitorSignalDelay], at the time [now] (milliseconds). *)
Definition monitorSignalDelay (config : AlertConfig) (now signalTime : num)
    (s : AlertService) : AlertService :=
  let s1 :=
    mkAlertService (alertQueue s) (Some signalTime) (platformHealthStatus s)
      (stakeCalculationHistory s) in
  let delaySeconds := (now - signalTime) / of_Z 1000 in
  if delaySeconds >? signalDelayThreshold config
  then createAlert SIGNAL_DELAY HIGH
         (DelayDetails delaySeconds (signalDelayThreshold config)) s1
  else s1.

Definition with_health (h : Health) (s : AlertService) : AlertService :=
  mkAlertService (alertQueue s) (lastSignalTime s) h (stakeCalculationHistory s).

(** [monitorPlatformHealth]. *)
Definition monitorPlatformHealth (config : AlertConfig) (isResponsive : bool)
    (responseTime : option num) (s : AlertService) : AlertService :=
  if negb isResponsive then
    createAlert PLATFORM_UNRESPONSIVE CRITICAL (HealthDetails DOWN responseTime)
      (with_health DOWN s)
  else
    match responseTime with
    | Some t =>
        if negb (falsy t) && (t >? platformTimeoutThreshold config * of_Z 1000)
        then createAlert PLATFORM_UNRESPONSIVE MEDIUM
               (HealthDetails DEGRADED responseTime) (with_health DEGRADED s)
        else with_health HEALTHY s
    | None => with_health HEALTHY s
    end.

(** The deviation [monitorStakeCalculation] computes, in percent. *)
Definition deviationPercentage (stakePercentage expectedPercentage : num) : num :=
  let deviation := abs (stakePercentage - expectedPercentage) in
  (deviation / expectedPercentage) * of_Z 100.

(** [monitorStakeCalculation]. *)
Definition monitorStakeCalculation (config : AlertConfig)
    (stakePercentage expectedPercentage : num) (s : AlertService) : AlertService :=
  let deviationPercentage := deviationPercentage stakePercentage expectedPercentage in
  let pushed := (stakeCalculationHistory s ++ [deviationPercentage])%list in
  let history := if (10 <? length pushed)%nat then tail pushed else pushed in
  let s1 :=
    mkAlertService (alertQueue s) (lastSignalTime s) (platformHealthStatus s)
      history in
  if deviationPercentage >? stakeCalculationThreshold config
  then createAlert STAKE_ABNORMAL MEDIUM
         (StakeDetails stakePercentage expectedPercentage deviationPercentage
            (stakeCalculationThreshold config)) s1
  else s1.

Definition deviationOf (check : num * num) : num :=
  deviationPercentage (fst check) (snd check).

(** A run of stake checks, each with its calculated and its expected
    percentage. *)
Definition monitorStakeCalculations (config : AlertConfig)
    (checks : list (num * num)) (s : AlertService) : AlertService :=
  foldl (fun s check => monitorStakeCalculation config (fst check) (snd check) s)
        s checks.

(** The stake check of the trade-signal webhook
    (src/app/api/webhook/trade-signal/route.ts): the percentage of the
    processed signal against the percentage of its node. *)
Definition webhookStakeMonitor (config : AlertConfig)
    (processed : Webhook.ProcessedTradeSignal) (s : AlertService) : AlertService :=
  match decisionTree !! Webhook.p_current_node processed with
  | Some node =>
      let expectedStake := parseFloat (replace_first "%" (value node)) in
      let actualStake :=
        parseFloat (replace_first "%" (Webhook.node_stake_percentage processed)) in
      monitorStakeCalculation config actualStake expectedStake s
  | None => s
  end.

Inductive Trend : Type := STABLE | INCREASING | DECREASING.

(** [xs.slice(-n)]: the last [n] elements. *)
Definition lastN {A : Type} (n : nat) (xs : list A) : list A :=
  skipn (length xs - n) xs.

(** [xs.reduce((a, b) => a + b, 0) / xs.length]. *)
Definition average (xs : list num) : num :=
  fold_left add xs (of_Z 0) / of_Z (Z.of_nat (length xs)).

(** [getStakeCalculationTrend]. *)
Definition getStakeCalculationTrend (s : AlertService) : Trend :=
  let history := stakeCalculationHistory s in
  if (length history <? 3)%nat then STABLE
  else
    let recent := lastN 3 history in
    let avg := average recent in
    (* slice(-6, -3) *)
    let previous := firstn (length (lastN 6 history) - 3) (lastN 6 history) in
    match previous with
    | [] => STABLE
    | _ =>
        let prevAvg := average previous in
        if avg >? prevAvg * Fin (11 # 10) then INCREASING
        else if avg <? prevAvg * Fin (9 # 10) then DECREASING
        else STABLE
    end.

End Alerts.

(* ===================================================================== *)
(** * The JavaScript primitives on sample inputs *)
(* ===================================================================== *)

Module JsFacts.

Import JsNum JsString.

Example parseFloat_samples :
  parseFloat "3.31" = Fin (331 # 100)
  /\ parseFloat "0.65" = Fin (13 # 20)
  /\ parseFloat "  -2.5e1x" = Fin (-25)
  /\ parseFloat "45000abc" = Fin 45000
  /\ parseFloat ".5" = Fin (1 # 2)
  /\ parseFloat "abc" = NaN
  /\ parseFloat "" = NaN
  /\ parseFloat "-Infinity" = NInf.
Proof. repeat split; reflexivity. Qed.

Example jsNumber_samples :
  jsNumber "45000" = Fin 45000
  /\ jsNumber " 1.5 " = Fin (3 # 2)
  /\ jsNumber "" = Fin 0
  /\ jsNumber "45000abc" = NaN
  /\ jsNumber "abc" = NaN.
Proof. repeat split; reflexivity. Qed.

Example parseInt_samples :
  parseInt "10" = Fin 10
  /\ parseInt "05" = Fin 5
  /\ parseInt "" = NaN
  /\ parseInt "12px" = Fin 12.
Proof. repeat split; reflexivity. Qed.

Example round_samples :
  round (Fin (5 # 2)) = Fin 3
  /\ round (Fin (-5 # 2)) = Fin (-2)
  /\ round (Fin (649999 # 1000)) = Fin 650
  /\ round NaN = NaN
  /\ round PInf = PInf.
Proof. repeat split; reflexivity. Qed.

Example division_samples :
  (Fin 1 / Fin 0)%js = PInf
  /\ (Fin (-1) / Fin 0)%js = NInf
  /\ (Fin 0 / Fin 0)%js = NaN
  /\ (PInf * Fin 0)%js = NaN
  /\ (NaN <=? Fin 1)%js = false
  /\ (Fin 1 <=? NaN)%js = false.
Proof. repeat split; reflexivity. Qed.

Example string_samples :
  replace_first "-" "--5%" = "-5%"
  /\ strip_non_digits "1-0" = "10"
  /\ strip_non_digits "Start" = ""
  /\ toLowerCase "Network Error" = "network error"
  /\ includes "request timeout (30s)" "timeout" = true
  /\ includes "unavailable" "service unavailable" = false.
Proof. repeat split; reflexivity. Qed.

End JsFacts.

(* ===================================================================== *)
(** * Properties of [calculateValue] *)
(* ===================================================================== *)

Module DecisionTreeFacts.

Import JsNum JsString DecisionTree.

Lemma numeral_char_is_not (c d : ascii) :
  numeral_char d = true ->
  numeral_char c = false ->
  Ascii.eqb d c = false.
Proof.
  intros Hd Hc. destruct (Ascii.eqb_spec d c) as [->|]; [|reflexivity].
  rewrite Hd in Hc. discriminate.
Qed.

Lemma append_String (c : ascii) (s t : string) :
  String c s ++ t = String c (s ++ t).
Proof. reflexivity. Qed.

Lemma append_empty_l (s : string) : "" ++ s = s.
Proof. reflexivity. Qed.

Lemma append_empty_r (s : string) : s ++ "" = s.
Proof.
  induction s as [|c s IH]; [reflexivity|].
  rewrite append_String, IH. reflexivity.
Qed.

Lemma replace_first_skips (c : ascii) (body rest : string) :
  numeral_char c = false ->
  all_chars numeral_char body = true ->
  replace_first c (body ++ rest) = body ++ replace_first c rest.
Proof.
  intros Hc. induction body as [|d body IH]; intros H.
  - reflexivity.
  - simpl in H. apply andb_prop in H as [Hd Hb].
    rewrite !append_String. simpl.
    rewrite (numeral_char_is_not c d Hd Hc), IH by assumption. reflexivity.
Qed.

Lemma clean_stakePercentage (sg : Sign) (body : string) :
  all_chars numeral_char body = true ->
  replace_first "-" (replace_first "+" (replace_first "%" (stakePercentage sg body)))
  = body.
Proof.
  intros H.
  assert (Hpct : replace_first "%" (body ++ "%") = body).
  { rewrite replace_first_skips by (reflexivity || assumption).
    simpl. apply append_empty_r. }
  assert (Hno : forall c, numeral_char c = false -> replace_first c body = body).
  { intros c Hc. rewrite <- (append_empty_r body) at 1.
    rewrite replace_first_skips by assumption. simpl. apply append_empty_r. }
  unfold stakePercentage.
  destruct sg; unfold sign_string; rewrite ?append_String, append_empty_l.
  - rewrite Hpct, !Hno by reflexivity. reflexivity.
  - simpl. rewrite Hpct. simpl. apply Hno. reflexivity.
  - simpl. rewrite Hpct. simpl. rewrite Hno by reflexivity. reflexivity.
Qed.

Lemma read_digits_spec (s : string) :
  forall (acc : Z) (n : nat) (v : Z) (k : nat) (r : string),
    read_digits s acc n = (v, k, r) ->
    (0 <= acc)%Z ->
    (0 <= v)%Z /\ (n <= k)%nat
    /\ (all_chars numeral_char s = true -> all_chars numeral_char r = true).
Proof.
  induction s as [|c s IH]; simpl; intros acc n v k r E Hacc.
  - inversion E; subst. auto.
  - destruct (is_digit c) eqn:Hc.
    + assert (Hd : (0 <= digit_val c)%Z) by (unfold digit_val; lia).
      destruct (IH _ _ _ _ _ E ltac:(lia)) as (Hv & Hk & Hall).
      repeat split; auto; try lia.
      intros Ha. apply andb_prop in Ha as [_ Ha]. auto.
    + inversion E; subst. auto.
Qed.

Lemma read_digits_counts (c : ascii) (s : string) (v : Z) (k : nat) (r : string) :
  is_digit c = true ->
  read_digits (String c s) 0 0 = (v, k, r) ->
  (0 < k)%nat.
Proof.
  simpl. intros -> E.
  destruct (read_digits_spec _ _ _ _ _ _ E) as (_ & Hk & _);
    [unfold digit_val; lia | lia].
Qed.

Lemma read_fraction_spec (s : string) (v : Z) (k : nat) (r : string) :
  read_fraction s = (v, k, r) ->
  (0 <= v)%Z
  /\ (all_chars numeral_char s = true -> all_chars numeral_char r = true).
Proof.
  destruct s as [|c s]; cbn [read_fraction].
  - intros E; inversion E; subst; auto with zarith.
  - destruct (Ascii.eqb c ".").
    + intros E. destruct (read_digits_spec _ _ _ _ _ _ E (Z.le_refl 0)) as (Hv & _ & Ha).
      split; [exact Hv|]. cbn [all_chars]. intros H.
      apply andb_prop in H as [_ H]. auto.
    + intros E; inversion E; subst; auto with zarith.
Qed.

Lemma read_exponent_numeral (s : string) :
  all_chars numeral_char s = true -> read_exponent s = 0%Z.
Proof.
  destruct s as [|c s]; simpl; [reflexivity|].
  intros H. apply andb_prop in H as [Hc _].
  rewrite (numeral_char_is_not "e" c Hc), (numeral_char_is_not "E" c Hc)
    by reflexivity.
  reflexivity.
Qed.

Lemma numeral_head (body : string) :
  is_numeral body = true ->
  skip_ws body = body /\ read_sign body = (false, body)
  /\ startsWith body "Infinity" = false.
Proof.
  unfold is_numeral. destruct body as [|c r]; [discriminate|].
  intros H. apply andb_prop in H as [H _].
  cbn [all_chars] in H. apply andb_prop in H as [Hc _].
  assert (Hne : forall d, numeral_char d = false -> Ascii.eqb c d = false).
  { intros d Hd. destruct (Ascii.eqb_spec c d) as [->|]; [|reflexivity].
    rewrite Hc in Hd. discriminate. }
  repeat split.
  - cbn [skip_ws].
    replace (is_space c) with false; [reflexivity|].
    symmetry. revert Hc. clear.
    destruct c as [[] [] [] [] [] [] [] []]; vm_compute; congruence.
  - cbn [read_sign]. rewrite !Hne by reflexivity. reflexivity.
  - cbn [startsWith]. rewrite Ascii.eqb_sym, Hne by reflexivity. reflexivity.
Qed.

(** On a numeral without sign, [parseFloat] yields a finite value that is
    not negative. *)
Lemma parseFloat_numeral (body : string) :
  is_numeral body = true ->
  exists q : Q, parseFloat body = Fin q /\ (0 <= q)%Q.
Proof.
  intros Hnum. destruct (numeral_head body Hnum) as (Hws & Hsg & Hinf).
  unfold parseFloat. rewrite Hws, Hsg, Hinf.
  unfold is_numeral in Hnum. apply andb_prop in Hnum as [Hall Hstart].
  destruct (read_digits body 0 0) as [[ip ni] s2] eqn:E1.
  destruct (read_digits_spec _ _ _ _ _ _ E1 (Z.le_refl 0)) as (Hip & _ & Hall2).
  specialize (Hall2 Hall).
  destruct (read_fraction s2) as [[fp nf] s3] eqn:E2.
  destruct (read_fraction_spec _ _ _ _ E2) as (Hfp & Hall3).
  specialize (Hall3 Hall2).
  assert (Hcount : (ni + nf <> 0)%nat).
  { destruct body as [|c r]; [discriminate|].
    cbn [starts_numeral] in Hstart.
    destruct (is_digit c) eqn:Hc.
    - pose proof (read_digits_counts _ _ _ _ _ Hc E1). lia.
    - cbn [orb] in Hstart. apply andb_prop in Hstart as [Hdot Hdig].
      cbn [read_digits] in E1. rewrite Hc in E1. inversion E1; subst ip ni s2.
      cbn [read_fraction] in E2. rewrite Hdot in E2.
      destruct r as [|d r]; [discriminate|].
      pose proof (read_digits_counts _ _ _ _ _ Hdig E2). lia. }
  apply Nat.eqb_neq in Hcount. rewrite Hcount.
  rewrite (read_exponent_numeral s3 Hall3).
  eexists. split; [reflexivity|].
  rewrite Qred_correct. simpl Qpower. rewrite Qmult_1_r.
  assert (H10 : (0 < 10 ^ Z.of_nat nf)%Z) by (apply Z.pow_pos_nonneg; lia).
  assert (Hq : (0 <= inject_Z fp / inject_Z (10 ^ Z.of_nat nf))%Q).
  { apply Qle_shift_div_l.
    - change 0%Q with (inject_Z 0). rewrite <- Zlt_Qlt. exact H10.
    - rewrite Qmult_0_l. change 0%Q with (inject_Z 0). rewrite <- Zle_Qle. exact Hfp. }
  assert (Hi : (0 <= inject_Z ip)%Q).
  { change 0%Q with (inject_Z 0). rewrite <- Zle_Qle. exact Hip. }
  lra.
Qed.

Lemma round_nonneg (q : Q) : (0 <= q)%Q -> nonneg_whole (round (Fin q)).
Proof.
  intros Hq. exists (Qfloor (q + (1 # 2))). split; [|reflexivity].
  change 0%Z with (Qfloor 0). apply Qfloor_resp_le. lra.
Qed.

Lemma decisionTree_entry (cur : string) (node : DecisionNode) :
  decisionTree !! cur = Some node -> In (cur, node) decisionTreeEntries.
Proof.
  intros H. apply list_elem_of_In.
  apply (elem_of_list_to_map_2 (M := gmap string)). exact H.
Qed.

(** Every property of graph nodes that a boolean check establishes on the
    table holds of every node that a lookup returns. *)
Lemma decisionTree_forall (check : string * DecisionNode -> bool) :
  forallb check decisionTreeEntries = true ->
  forall cur node, decisionTree !! cur = Some node -> check (cur, node) = true.
Proof.
  intros Hall cur node H.
  rewrite forallb_forall in Hall. apply Hall, decisionTree_entry, H.
Qed.

(** Every value of the graph is a stake percentage: an optional sign, a
    decimal numeral and a percent sign. *)
Lemma decisionTree_values_wellformed (cur : string) (node : DecisionNode) :
  decisionTree !! cur = Some node ->
  exists sg body,
    value node = stakePercentage sg body /\ is_numeral body = true.
Proof.
  intros H.
  pose proof (decisionTree_forall
    (fun '(_, n) =>
       let '(sg, body) := stake_parts (value n) in
       String.eqb (value n) (stakePercentage sg body) && is_numeral body)
    ltac:(vm_compute; reflexivity) cur node H) as Hc.
  cbv beta iota in Hc. destruct (stake_parts (value node)) as [sg body].
  apply andb_prop in Hc as [Hv Hn]. apply String.eqb_eq in Hv.
  exists sg, body. auto.
Qed.

Lemma calculateValue_stakePercentage (sg : Sign) (body : string) (amount : num) :
  is_numeral body = true ->
  calculateValue (stakePercentage sg body) amount
  = round ((parseFloat body / of_Z 100) * amount)%js.
Proof.
  intros Hnum. unfold calculateValue. rewrite clean_stakePercentage; [reflexivity|].
  unfold is_numeral in Hnum. apply andb_prop in Hnum. tauto.
Qed.

Lemma calculateValue_nonneg_whole (sg : Sign) (body : string) (a : Q) :
  is_numeral body = true ->
  (0 <= a)%Q ->
  nonneg_whole (calculateValue (stakePercentage sg body) (Fin a)).
Proof.
  intros Hnum Ha. rewrite calculateValue_stakePercentage by exact Hnum.
  destruct (parseFloat_numeral body Hnum) as (q & -> & Hq).
  cbn [div mul of_Z]. change (Qeq_bool (inject_Z 100) 0) with false.
  cbv iota. apply round_nonneg.
  rewrite !Qred_correct.
  apply Qmult_le_0_compat; [|exact Ha].
  apply Qle_shift_div_l; [reflexivity | lra].
Qed.

(** C10. For every stake-percentage string (optional sign, decimal
    numeral, percent sign) and every finite amount that is not negative,
    [calculateValue] parses the numeral with '%', '+' and '-' removed and
    returns [Math.round((percentage / 100) * amount)], a whole number
    that is not negative; the sign is discarded, so the terminal loss
    value "-3.31%" gives the same amount as "+3.31%".  Every value of
    the decision graph is such a string, so the stake of every node is
    a whole number that is not negative. *)
Theorem calculateValue_discards_sign (sg : Sign) (body : string) (a : Q) :
  is_numeral body = true ->
  (0 <= a)%Q ->
  calculateValue (stakePercentage sg body) (Fin a)
    = round ((parseFloat body / of_Z 100) * Fin a)%js
  /\ nonneg_whole (calculateValue (stakePercentage sg body) (Fin a))
  /\ calculateValue (stakePercentage Minus body) (Fin a)
     = calculateValue (stakePercentage Plus body) (Fin a)
  /\ calculateValue "-3.31%" (Fin a) = calculateValue "+3.31%" (Fin a)
  /\ (forall cur node,
        decisionTree !! cur = Some node ->
        nonneg_whole (calculateValue (value node) (Fin a))).
Proof.
  intros Hnum Ha. repeat split.
  - apply calculateValue_stakePercentage, Hnum.
  - apply calculateValue_nonneg_whole; assumption.
  - rewrite !calculateValue_stakePercentage by exact Hnum. reflexivity.
  - intros cur node H.
    destruct (decisionTree_values_wellformed cur node H) as (sg' & body' & -> & Hb).
    apply calculateValue_nonneg_whole; assumption.
Qed.

Lemma calculateValue_discards_sign_witness :
  calculateValue (stakePercentage Minus "3.31") (Fin 100000)
    = round ((parseFloat "3.31" / of_Z 100) * Fin 100000)%js
  /\ nonneg_whole (calculateValue (stakePercentage Minus "3.31") (Fin 100000))
  /\ calculateValue (stakePercentage Minus "3.31") (Fin 100000)
     = calculateValue (stakePercentage Plus "3.31") (Fin 100000)
  /\ calculateValue "-3.31%" (Fin 100000) = calculateValue "+3.31%" (Fin 100000)
  /\ (forall cur node,
        decisionTree !! cur = Some node ->
        nonneg_whole (calculateValue (value node) (Fin 100000))).
Proof.
  apply (calculateValue_discards_sign Minus "3.31" 100000).
  - reflexivity.
  - unfold Qle. simpl. lia.
Defined.

(** The values the graph yields on a 100000 account. *)
Example calculateValue_LOST : calculateValue "-3.31%" (of_Z 100000) = of_Z 3310.
Proof. reflexivity. Qed.

Example calculateValue_Start : calculateValue "0.65%" (of_Z 100000) = of_Z 650.
Proof. reflexivity. Qed.

(** [replace] with a string pattern removes one occurrence only: a second
    sign survives and the result is negative. *)
Example calculateValue_double_sign :
  calculateValue "--5%" (of_Z 100000) = of_Z (-5000).
Proof. reflexivity. Qed.

End DecisionTreeFacts.

(* ===================================================================== *)
(** * The node-jump validators against the edge table *)
(* ===================================================================== *)

Module NodeJumpFacts.

Import JsNum JsString DecisionTree NodeJump.

(** The level of a node id is its digits read as one number: "1-0" is at
    level 10, "0-1" at level 1, and names without digits at level 1. *)
Example nodeLevel_samples :
  nodeLevel "Start" = of_Z 1 /\ nodeLevel "1-0" = of_Z 10
  /\ nodeLevel "0-1" = of_Z 1 /\ nodeLevel "WIN" = of_Z 1.
Proof. repeat split; reflexivity. Qed.

(** The webhook validator refuses every win edge that leads to a
    non-terminal node. *)
Lemma webhook_validator_rejects_inner_wins (cur next : string) (node : DecisionNode) :
  decisionTree !! cur = Some node ->
  win node = Some next ->
  is_terminal next = false ->
  isValid (validateNodeJump cur next) = false
  /\ requiresRollback (validateNodeJump cur next) = true.
Proof.
  intros Hnode Hwin Hterm.
  pose proof (DecisionTreeFacts.decisionTree_forall
    (fun '(c, n) =>
       match win n with
       | Some w =>
           is_terminal w
           || (negb (isValid (validateNodeJump c w))
               && requiresRollback (validateNodeJump c w))
       | None => true
       end) ltac:(vm_compute; reflexivity) cur node Hnode) as H.
  cbv beta iota in H. rewrite Hwin, Hterm in H. cbn [orb] in H.
  apply andb_prop in H as [H1 H2]. apply negb_true_iff in H1. auto.
Qed.

(** It accepts every loss edge. *)
Lemma webhook_validator_accepts_losses (cur next : string) (node : DecisionNode) :
  decisionTree !! cur = Some node ->
  loss node = Some next ->
  requiresRollback (validateNodeJump cur next) = false.
Proof.
  intros Hnode Hloss.
  pose proof (DecisionTreeFacts.decisionTree_forall
    (fun '(c, n) =>
       match loss n with
       | Some l => negb (requiresRollback (validateNodeJump c l))
       | None => true
       end) ltac:(vm_compute; reflexivity) cur node Hnode) as H.
  cbv beta iota in H. rewrite Hloss in H. apply negb_true_iff in H. exact H.
Qed.

(** The validator of the exception handler, whose table speaks of
    "Level n" names, refuses every edge of the graph. *)
Lemma handler_validator_rejects_every_edge (cur next : string) :
  is_edge cur next = true ->
  isValid (handlerValidateNodeJump defaultHandlerConfig cur next) = false.
Proof.
  unfold is_edge. destruct (decisionTree !! cur) as [node|] eqn:Hnode; [|discriminate].
  intros Hedge.
  pose proof (DecisionTreeFacts.decisionTree_forall
    (fun '(c, n) =>
       let rejected o :=
         match o with
         | Some x => negb (isValid (handlerValidateNodeJump defaultHandlerConfig c x))
         | None => true
         end in
       rejected (win n) && rejected (loss n))
    ltac:(vm_compute; reflexivity) cur node Hnode) as H.
  cbv beta iota zeta in H. apply andb_prop in H as [Hw Hl].
  apply orb_prop in Hedge as [E|E]; apply bool_decide_eq_true in E.
  - rewrite E in Hw. apply negb_true_iff in Hw. exact Hw.
  - rewrite E in Hl. apply negb_true_iff in Hl. exact Hl.
Qed.

(** C1 (the code departs from the claim).  Start -> "1-0" is the win edge
    of the start node, yet both validators refuse it and ask for a
    rollback; Start -> "LOST" is no edge, yet the webhook validator lets
    it pass.  Validation is by level arithmetic on the digits of the node
    names (webhook) and by a table of "Level n" names (exception
    handler), not by the edge table. *)
Theorem validateNodeJump_ignores_edge_table :
  is_terminal "Start" = false
  /\ is_edge "Start" "1-0" = true
  /\ isValid (validateNodeJump "Start" "1-0") = false
  /\ requiresRollback (validateNodeJump "Start" "1-0") = true
  /\ isValid (handlerValidateNodeJump defaultHandlerConfig "Start" "1-0") = false
  /\ is_edge "Start" "LOST" = false
  /\ isValid (validateNodeJump "Start" "LOST") = true.
Proof. vm_compute. repeat split; reflexivity. Qed.

End NodeJumpFacts.

(* ===================================================================== *)
(** * The session state machine *)
(* ===================================================================== *)

Module SessionFacts.

Import JsNum JsString Json DecisionTree NodeJump Store Session SessionNotions.

(** ** Completion *)

(** The webhook marks a session completed from the [final] flag of the
    node it leaves, not of the node it enters: a move along an edge into
    WIN or LOST leaves the session open. *)
Lemma webhook_enters_terminal_uncompleted
    (handler : Handler) (cb : TradeResultCallback) (db : DB)
    (row : SessionRow) (node : DecisionNode) (next : string) (actualPnL : num) :
  sessions db !! cb_session_id cb = Some row ->
  is_completed row = false ->
  decisionTree !! current_node row = Some node ->
  match result cb with Win => win node | Loss => loss node end = Some next ->
  is_terminal next = true ->
  profit_loss cb = JNumber actualPnL ->
  let '(resp, db') := processTradeResult handler cb db in
  success resp = true
  /\ (current_node <$> sessions db' !! cb_session_id cb) = Some next
  /\ (is_completed <$> sessions db' !! cb_session_id cb) = Some false.
Proof.
  intros Hrow Hopen Hnode Hedge Hterm Hnumber.
  pose proof (DecisionTreeFacts.decisionTree_forall
    (fun '(c, n) =>
       let ok o :=
         match o with
         | Some x =>
             negb (is_terminal x)
             || (negb (requiresRollback (validateNodeJump c x))
                 && negb (String.eqb x "End") && negb (String.eqb x "")
                 && negb (final n))
         | None => true
         end in
       ok (win n) && ok (loss n))
    ltac:(vm_compute; reflexivity) _ node Hnode) as H.
  cbv beta iota zeta in H. apply andb_prop in H as [Hw Hl].
  assert (Hchk : requiresRollback (validateNodeJump (current_node row) next) = false
                 /\ String.eqb next "End" = false /\ String.eqb next "" = false
                 /\ final node = false).
  { destruct (result cb); [rewrite Hedge in Hw | rewrite Hedge in Hl];
      rewrite Hterm in *; cbn [negb orb] in *;
      repeat match goal with
             | H : _ && _ = true |- _ => apply andb_prop in H as [? ?]
             | H : negb _ = true |- _ => apply negb_true_iff in H
             end; auto. }
  destruct Hchk as (Hv & Hend & Hempty & Hfinal).
  assert (Hnext : match result cb with
                  | Win => str_or (win node) "End"
                  | Loss => str_or (loss node) "End"
                  end = next).
  { destruct (result cb); rewrite Hedge; unfold str_or; rewrite Hempty; reflexivity. }
  unfold processTradeResult. rewrite Hrow, Hopen, Hnode. cbv zeta.
  rewrite Hnext, Hv, Hend, Hfinal. cbn [orb].
  unfold recordResultStep. rewrite Hnumber. cbn [plus toNumber finalTotalColumn].
  unfold updatePathSummary, updateSession, insert_step,
    with_sessions, with_steps. cbn [sessions success].
  rewrite !lookup_alter_eq, Hrow. cbn. auto.
Qed.

(** C5 (the code departs from the claim).  A session created at "Start"
    loses five times and stands at "0-5".  Its sixth loss moves it along
    the loss edge to the terminal node LOST, but that same update stores
    [is_completed = false].  The session is not frozen: the next outcome
    is accepted, moves it on to "End" and changes its total, and only
    then is it marked completed. *)
Theorem terminal_move_leaves_session_open :
  let lossCb (tradeId : string) :=
    mkCallback tradeId "ses_1" Loss (of_Z 44500) (JNumber (of_Z (-100)))
      "stop_reached" "2025-07-19T09:30:00Z" in
  let winCb (tradeId : string) :=
    mkCallback tradeId "ses_1" Win (of_Z 46000) (JNumber (of_Z 500))
      "target_reached" "2025-07-19T10:30:00Z" in
  let created := createNewSession "ses_1" "BTCUSDT" "Start" (of_Z 100000) emptyDB in
  let db5 :=
    processAll handlerUndefined [lossCb "t1"; lossCb "t2"; lossCb "t3"; lossCb "t4"; lossCb "t5"]
      created in
  let r6 := processTradeResult handlerUndefined (lossCb "t6") db5 in
  let r7 := processTradeResult handlerUndefined (winCb "t7") (snd r6) in
  sessions db5 !! "ses_1"
    = Some (mkSession "ses_1" "0-5" (of_Z 100000) (of_Z 99500) false
              "Start → 0-1 → 0-2 → 0-3 → 0-4 → 0-5" "")
  /\ (loss <$> decisionTree !! "0-5") = Some (Some "LOST")
  /\ is_terminal "LOST" = true
  /\ success (fst r6) = true
  /\ sessions (snd r6) !! "ses_1"
     = Some (mkSession "ses_1" "LOST" (of_Z 100000) (of_Z 99400) false
               "Start → 0-1 → 0-2 → 0-3 → 0-4 → 0-5 → LOST" "")
  /\ success (fst r7) = true
  /\ sessions (snd r7) !! "ses_1"
     = Some (mkSession "ses_1" "End" (of_Z 100000) (of_Z 99900) true
               "Start → 0-1 → 0-2 → 0-3 → 0-4 → 0-5 → LOST → End" "").
Proof. vm_compute. repeat split; reflexivity. Qed.

(** The sibling path of the trading-platform service tests the node it
    enters: with node-jump validation switched off, the move into a
    terminal node marks the session completed in the same call. *)
Lemma platform_path_completes_on_terminal
    (config : ExceptionHandlingConfig) (sid : string) (res : TradeResult)
    (db : DB) (row : SessionRow) (node : DecisionNode) (next : string) :
  nodeJumpValidationEnabled config = false ->
  sessions db !! sid = Some row ->
  decisionTree !! current_node row = Some node ->
  match tr_result res with Win => win node | Loss => loss node end = Some next ->
  is_terminal next = true ->
  let db' := updateDecisionTreeNode config sid res db in
  (current_node <$> sessions db' !! sid) = Some next
  /\ (is_completed <$> sessions db' !! sid) = Some true.
Proof.
  intros Hoff Hrow Hnode Hedge Hterm.
  assert (Hne : String.eqb next "" = false).
  { destruct (String.eqb_spec next ""); [subst; discriminate | reflexivity]. }
  unfold is_terminal in Hterm.
  destruct (decisionTree !! next) as [nextData|] eqn:Hnext; [|discriminate].
  unfold updateDecisionTreeNode. rewrite Hrow, Hnode, Hedge, Hne.
  unfold handlerValidateNodeJump. rewrite Hoff. cbn [negb isValid].
  rewrite Hnext, Hterm.
  unfold completeSession, with_sessions. cbn.
  rewrite !lookup_alter_eq, Hrow. cbn. auto.
Qed.

(** With the default configuration that path never advances: the
    exception handler's validator refuses the edge and the session is
    rolled back to "Start". *)
Lemma platform_path_rolls_back_every_edge
    (sid : string) (res : TradeResult) (db : DB)
    (row : SessionRow) (node : DecisionNode) (next : string) :
  sessions db !! sid = Some row ->
  decisionTree !! current_node row = Some node ->
  match tr_result res with Win => win node | Loss => loss node end = Some next ->
  updateDecisionTreeNode defaultHandlerConfig sid res db
  = executeRollback sid "Start" db.
Proof.
  intros Hrow Hnode Hedge.
  pose proof (DecisionTreeFacts.decisionTree_forall
    (fun '(c, n) =>
       let ok o :=
         match o with
         | Some x =>
             negb (String.eqb x "")
             && negb (isValid (handlerValidateNodeJump defaultHandlerConfig c x))
             && String.eqb
                  (str_or (rollbackToNode
                             (handlerValidateNodeJump defaultHandlerConfig c x)) c)
                  "Start"
         | None => true
         end in
       ok (win n) && ok (loss n))
    ltac:(vm_compute; reflexivity) _ node Hnode) as H.
  cbv beta iota zeta in H. apply andb_prop in H as [Hw Hl].
  assert (Hchk : String.eqb next "" = false
                 /\ isValid (handlerValidateNodeJump defaultHandlerConfig
                               (current_node row) next) = false
                 /\ str_or (rollbackToNode
                              (handlerValidateNodeJump defaultHandlerConfig
                                 (current_node row) next)) (current_node row)
                    = "Start").
  { destruct (tr_result res); [rewrite Hedge in Hw | rewrite Hedge in Hl];
      repeat match goal with
             | H : _ && _ = true |- _ => apply andb_prop in H as [? ?]
             | H : negb _ = true |- _ => apply negb_true_iff in H
             | H : String.eqb _ "Start" = true |- _ => apply String.eqb_eq in H
             end; auto. }
  destruct Hchk as (Hne & Hv & Hrb).
  unfold updateDecisionTreeNode. rewrite Hrow, Hnode, Hedge, Hne, Hv. cbn [negb].
  rewrite Hrb. reflexivity.
Qed.

(** ** The running total *)

Lemma recordedResults_insert_step (sid : string) (st : StepRow) (db : DB) :
  recordedResults sid (insert_step st db)
  = (recordedResults sid db
     ++ (if of_session sid st && String.eqb (step_type st) "RESULT"
         then option_list (trade_result_actual st) else []))%list.
Proof.
  unfold recordedResults, insert_step, with_steps. cbn [session_steps].
  rewrite omap_app. f_equal. cbn.
  destruct (of_session sid st && String.eqb (step_type st) "RESULT"); [|reflexivity].
  destruct (trade_result_actual st); reflexivity.
Qed.

Lemma recordedResults_resultStep (sid : string) (cb : TradeResultCallback)
    (actualPnL : num) (db : DB) :
  recordedResults sid (insert_step (resultStep cb actualPnL db) db)
  = (recordedResults sid db
     ++ (if String.eqb (cb_session_id cb) sid then [actualPnL] else []))%list.
Proof.
  rewrite recordedResults_insert_step.
  unfold of_session, resultStep. cbn [st_session_id step_type trade_result_actual].
  destruct (String.eqb (cb_session_id cb) sid); reflexivity.
Qed.

Lemma recordedResults_updateSession sid s n t c db :
  recordedResults sid (updateSession s n t c db) = recordedResults sid db.
Proof. reflexivity. Qed.

Lemma recordedResults_updatePathSummary sid s p db :
  recordedResults sid (updatePathSummary s p db) = recordedResults sid db.
Proof. reflexivity. Qed.

Lemma sessions_insert_step st db :
  sessions (insert_step st db) = sessions db.
Proof. reflexivity. Qed.

Lemma sessions_updateSession s n t c db :
  sessions (updateSession s n t c db)
  = alter (fun row =>
             mkSession (s_session_id row) n (initial_amount row) t c
               (path_summary row) (s_result row)) s (sessions db).
Proof. reflexivity. Qed.

Lemma sessions_updatePathSummary s p db :
  sessions (updatePathSummary s p db)
  = alter (fun row =>
             mkSession (s_session_id row) (current_node row) (initial_amount row)
               (final_total row) (is_completed row) p (s_result row)) s
      (sessions db).
Proof. reflexivity. Qed.

Lemma js_sum_snoc (base x : num) (xs : list num) :
  js_sum base (xs ++ [x]) = (js_sum base xs + x)%js.
Proof. unfold js_sum. rewrite fold_left_app. reflexivity. Qed.

(** The three ways a callback ends.  It fails before the webhook has
    written anything; or the UPDATE of the session is taken and the
    step is never inserted, because the result is not a number; or the
    result is a number and the callback is committed.  [db0] is the
    store the handler of an invalid jump returned, or the store itself
    when the jump was valid. *)
Lemma processTradeResult_shape (handler : Handler) (cb : TradeResultCallback)
    (db : DB) :
  (success (fst (processTradeResult handler cb db)) = false
   /\ (snd (processTradeResult handler cb db) = db
       \/ exists cur next v,
            snd (processTradeResult handler cb db)
            = snd (handler (cb_session_id cb) cur next v db)))
  \/ (exists row node db0,
        sessions db !! cb_session_id cb = Some row
        /\ is_completed row = false
        /\ decisionTree !! current_node row = Some node
        /\ ((requiresRollback
               (validateNodeJump (current_node row) (nextNodeOf (result cb) node))
             = false /\ db0 = db)
            \/ handler (cb_session_id cb) (current_node row)
                 (nextNodeOf (result cb) node)
                 (validateNodeJump (current_node row)
                    (nextNodeOf (result cb) node)) db
               = (HandlerReturned false, db0))
        /\ ((exists total message,
               numberOf (profit_loss cb) = None
               /\ finalTotalColumn (plus (final_total row) (profit_loss cb))
                  = Some total
               /\ processTradeResult handler cb db
                  = (failed (Thrown message), updated cb total row node db0))
            \/ (exists actualPnL action,
                  profit_loss cb = JNumber actualPnL
                  /\ processTradeResult handler cb db
                     = (mkResponse true
                          (Some (mkData (cb_session_id cb)
                                   (nextNodeOf (result cb) node)
                                   (JNumber (final_total row + actualPnL)%js)
                                   (String.eqb (nextNodeOf (result cb) node) "End"
                                    || final node) action))
                          None,
                        committed cb actualPnL row node db0)))).
Proof.
  unfold processTradeResult.
  destruct (sessions db !! cb_session_id cb) as [row|] eqn:Hrow; [|left; auto].
  destruct (is_completed row) eqn:Hopen; [left; auto|].
  destruct (decisionTree !! current_node row) as [node|] eqn:Hnode; [|left; auto].
  cbv zeta. fold (nextNodeOf (result cb) node).
  destruct (requiresRollback
              (validateNodeJump (current_node row) (nextNodeOf (result cb) node)))
    eqn:Hv.
  - destruct (handler (cb_session_id cb) (current_node row)
                (nextNodeOf (result cb) node)
                (validateNodeJump (current_node row) (nextNodeOf (result cb) node))
                db) as [[msg|[|]] db0] eqn:Eh.
    + left. split; [reflexivity|]. right. do 3 eexists. rewrite Eh. reflexivity.
    + left. split; [reflexivity|]. right. do 3 eexists. rewrite Eh. reflexivity.
    + unfold recordResultStep.
      destruct (profit_loss cb) as [| |b|n|s|text param] eqn:Hp;
        cbn [plus toNumber toText finalTotalColumn numberOf];
        try (destruct (of_Z <$> sqlInteger _) as [total|] eqn:Ht;
             [|left; split; [reflexivity|]; right; do 3 eexists;
               rewrite Eh; reflexivity]);
        right; exists row, node, db0;
        (split; [reflexivity|]); (split; [exact Hopen|]); (split; [exact Hnode|]);
        (split; [right; exact Eh|]);
        try (left; do 2 eexists; split; [reflexivity|];
             split; [first [exact Ht | reflexivity]|]; reflexivity).
      right. exists n. eexists. split; reflexivity.
  - unfold recordResultStep.
    destruct (profit_loss cb) as [| |b|n|s|text param] eqn:Hp;
      cbn [plus toNumber toText finalTotalColumn numberOf];
      try (destruct (of_Z <$> sqlInteger _) as [total|] eqn:Ht;
           [|left; split; [reflexivity|]; left; reflexivity]);
      right; exists row, node, db;
      (split; [reflexivity|]); (split; [exact Hopen|]); (split; [exact Hnode|]);
      (split; [left; split; [exact Hv|reflexivity]|]);
      try (left; do 2 eexists; split; [reflexivity|];
           split; [first [exact Ht | reflexivity]|]; reflexivity).
    right. exists n. eexists. split; reflexivity.
Qed.

Lemma ledger_updated (cb : TradeResultCallback) (total : num) (row : SessionRow)
    (node : DecisionNode) (db : DB) (sid : string) :
  cb_session_id cb <> sid ->
  ledger sid (updated cb total row node db) = ledger sid db.
Proof.
  intros Hne. unfold ledger, updated.
  rewrite recordedResults_updateSession, sessions_updateSession.
  rewrite lookup_alter_ne by exact Hne. reflexivity.
Qed.

Lemma ledger_committed (cb : TradeResultCallback) (actualPnL : num)
    (row : SessionRow) (node : DecisionNode) (db0 db : DB) (sid : string) :
  ledger sid db0 = ledger sid db ->
  sessions db !! cb_session_id cb = Some row ->
  ledger sid (committed cb actualPnL row node db0)
  = if String.eqb (cb_session_id cb) sid
    then ((fun t => t + actualPnL)%js <$> fst (ledger sid db),
          (snd (ledger sid db) ++ [actualPnL])%list)
    else ledger sid db.
Proof.
  intros Hl Hrow. unfold committed, updated. unfold ledger at 1.
  rewrite recordedResults_updatePathSummary, recordedResults_resultStep,
    recordedResults_updateSession.
  rewrite sessions_updatePathSummary, sessions_insert_step, sessions_updateSession.
  unfold ledger in Hl. injection Hl as Ht Hr.
  destruct (String.eqb_spec (cb_session_id cb) sid) as [E|E].
  - rewrite E in *. rewrite !lookup_alter_eq.
    rewrite Hrow in Ht. cbn [fst snd ledger]. rewrite Hr, Hrow. f_equal.
    destruct (sessions db0 !! sid) as [row0|]; [|discriminate].
    reflexivity.
  - rewrite !lookup_alter_ne by exact E.
    rewrite app_nil_r. unfold ledger. rewrite Ht, Hr. reflexivity.
Qed.

(** What one callback whose result is a number does to the ledger of a
    session: an accepted outcome of that session adds its result to the
    total and to the recorded results; anything else leaves both
    alone. *)
Lemma processTradeResult_ledger
    (handler : Handler) (cb : TradeResultCallback) (db : DB) (sid : string)
    (actualPnL : num) :
  handler_keeps_ledger handler ->
  profit_loss cb = JNumber actualPnL ->
  ledger sid (snd (processTradeResult handler cb db))
  = if success (fst (processTradeResult handler cb db))
       && String.eqb (cb_session_id cb) sid
    then ((fun t => t + actualPnL)%js <$> fst (ledger sid db),
          (snd (ledger sid db) ++ [actualPnL])%list)
    else ledger sid db.
Proof.
  intros Hkeep Hnumber.
  destruct (processTradeResult_shape handler cb db)
    as [[Hf Hs] | (row & node & db0 & Hrow & _ & _ & Hdb0 & Hend)].
  - rewrite Hf. cbn [andb].
    destruct Hs as [-> | (cur & next & v & ->)]; [reflexivity|apply Hkeep].
  - assert (Hl : ledger sid db0 = ledger sid db).
    { destruct Hdb0 as [[_ ->] | Eh]; [reflexivity|].
      pose proof (Hkeep (cb_session_id cb) (current_node row)
                    (nextNodeOf (result cb) node)
                    (validateNodeJump (current_node row)
                       (nextNodeOf (result cb) node)) db sid) as H.
      rewrite Eh in H. exact H. }
    destruct Hend as [(total & message & Hnone & _) | (p & action & Hp & ->)].
    + rewrite Hnumber in Hnone. discriminate.
    + rewrite Hnumber in Hp. injection Hp as <-.
      cbn [fst snd success andb]. apply ledger_committed; assumption.
Qed.

Lemma processAll_ledger (handler : Handler) (sid : string)
    (callbacks : list TradeResultCallback) :
  handler_keeps_ledger handler ->
  Forall (fun cb => is_Some (numberOf (profit_loss cb))) callbacks ->
  forall db,
    ledger sid (processAll handler callbacks db)
    = ((fun t => js_sum t (acceptedResults handler sid callbacks db))
         <$> fst (ledger sid db),
       (snd (ledger sid db) ++ acceptedResults handler sid callbacks db)%list).
Proof.
  intros Hkeep Hnumbers.
  induction Hnumbers as [|cb rest Hcb _ IH]; intros db.
  - cbn [processAll acceptedResults]. rewrite app_nil_r. unfold ledger.
    cbn [fst snd]. destruct (sessions db !! sid); reflexivity.
  - cbn [processAll acceptedResults]. rewrite IH.
    destruct (profit_loss cb) as [| |b|actualPnL|s|text param] eqn:Hp;
      try (destruct Hcb as [x Hx]; discriminate Hx).
    rewrite (processTradeResult_ledger handler cb db sid actualPnL Hkeep Hp).
    destruct (processTradeResult handler cb db) as [resp db'] eqn:E.
    cbn [fst snd numberOf option_list].
    destruct (success resp && String.eqb (cb_session_id cb) sid).
    + cbn [fst snd]. rewrite <- app_assoc.
      destruct (fst (ledger sid db)); reflexivity.
    + reflexivity.
Qed.

(** A session that stands in the store with the total [t0] and no
    recorded result: after any sequence of callbacks whose results are
    numbers, its total is [t0] plus the recorded results. *)
Lemma ledger_after_callbacks (handler : Handler) (sid : string)
    (callbacks : list TradeResultCallback) (db1 : DB) (t0 : num) :
  handler_keeps_ledger handler ->
  Forall (fun cb => is_Some (numberOf (profit_loss cb))) callbacks ->
  ledger sid db1 = (Some t0, []) ->
  (final_total <$> sessions (processAll handler callbacks db1) !! sid)
    = Some (js_sum t0 (recordedResults sid (processAll handler callbacks db1)))
  /\ recordedResults sid (processAll handler callbacks db1)
     = acceptedResults handler sid callbacks db1.
Proof.
  intros Hkeep Hnumbers H1.
  pose proof (processAll_ledger handler sid callbacks Hkeep Hnumbers db1) as H.
  rewrite H1 in H. cbn [fst snd fmap option_fmap option_map app] in H.
  unfold ledger in H. injection H as Ht Hr.
  rewrite Ht, Hr. auto.
Qed.

Lemma ledger_createNewSession (sid symbol node : string) (initialAmount : num)
    (db0 : DB) :
  sessions db0 !! sid = None ->
  recordedResults sid db0 = [] ->
  ledger sid (createNewSession sid symbol node initialAmount db0)
  = (Some initialAmount, []).
Proof.
  intros Hnew Hnone. unfold ledger, createNewSession. rewrite Hnew.
  unfold with_sessions. cbn [sessions].
  rewrite lookup_insert_eq.
  change (recordedResults sid (mkDB _ (session_steps db0) _))
    with (recordedResults sid db0).
  rewrite Hnone. reflexivity.
Qed.

Lemma ledger_createNewSessionWebhook (sid node : string) (initialAmount : num)
    (db0 : DB) :
  sessions db0 !! sid = None ->
  recordedResults sid db0 = [] ->
  ledger sid (createNewSessionWebhook sid node initialAmount db0)
  = (Some (of_Z 0), []).
Proof.
  intros Hnew Hnone. unfold ledger, createNewSessionWebhook. rewrite Hnew.
  rewrite recordedResults_insert_step. cbn [step_type].
  change (String.eqb "DECISION" "RESULT") with false. rewrite andb_false_r, app_nil_r.
  unfold insert_step, with_steps, with_sessions. cbn [sessions].
  rewrite lookup_insert_eq.
  change (recordedResults sid (mkDB _ (session_steps db0) _))
    with (recordedResults sid db0).
  rewrite Hnone. reflexivity.
Qed.

(** What holds when every result is a number and every statement is
    taken.  A session created by the signal processor starts with
    [final_total] equal to its initial amount, a session created by the
    trade-signal webhook with [final_total] 0.  After any sequence of
    such callbacks the [final_total] of the session is that starting
    total plus the signed results recorded in its path history, added
    in order, and the recorded results are exactly the results of its
    accepted outcomes. *)
Lemma number_results_keep_the_total_in_step
    (handler : Handler) (db0 : DB) (sid symbol : string) (initialAmount : num)
    (callbacks : list TradeResultCallback) :
  handler_keeps_ledger handler ->
  Forall (fun cb => is_Some (numberOf (profit_loss cb))) callbacks ->
  sessions db0 !! sid = None ->
  recordedResults sid db0 = [] ->
  let total (db : DB) := final_total <$> sessions db !! sid in
  let byProcessor := createNewSession sid symbol "Start" initialAmount db0 in
  let byWebhook := createNewSessionWebhook sid "Start" initialAmount db0 in
  (total (processAll handler callbacks byProcessor)
     = Some (js_sum initialAmount
               (recordedResults sid (processAll handler callbacks byProcessor)))
   /\ recordedResults sid (processAll handler callbacks byProcessor)
      = acceptedResults handler sid callbacks byProcessor)
  /\ (total (processAll handler callbacks byWebhook)
        = Some (js_sum (of_Z 0)
                  (recordedResults sid (processAll handler callbacks byWebhook)))
      /\ recordedResults sid (processAll handler callbacks byWebhook)
         = acceptedResults handler sid callbacks byWebhook).
Proof.
  intros Hkeep Hnumbers Hnew Hnone total byProcessor byWebhook. split.
  - apply ledger_after_callbacks; [exact Hkeep|exact Hnumbers|].
    apply ledger_createNewSession; assumption.
  - apply ledger_after_callbacks; [exact Hkeep|exact Hnumbers|].
    apply ledger_createNewSessionWebhook; assumption.
Qed.

(** The totals of three number callbacks: two losses of 730 are
    accepted, the win between them is refused by the node-jump
    validator. *)
Example running_totals_of_both_creations :
  let callbacks :=
    [ mkCallback "t1" "ses_1" Loss (of_Z 44500) (JNumber (of_Z (-730)))
        "stop_reached" "d1";
      mkCallback "t2" "ses_1" Win (of_Z 46000) (JNumber (of_Z 650))
        "target_reached" "d2";
      mkCallback "t3" "ses_1" Loss (of_Z 44500) (JNumber (of_Z (-730)))
        "stop_reached" "d3" ] in
  let total (db : DB) := final_total <$> sessions db !! "ses_1" in
  total (processAll handlerUndefined callbacks
           (createNewSession "ses_1" "BTCUSDT" "Start" (of_Z 100000) emptyDB))
    = Some (of_Z 98540)
  /\ total (processAll handlerUndefined callbacks
              (createNewSessionWebhook "ses_1" "Start" (of_Z 100000) emptyDB))
     = Some (of_Z (-1460)).
Proof. vm_compute. split; reflexivity. Qed.

(** The session row that [SignalProcessor.createNewSession] inserts
    starts with [final_total] at the initial amount, where the
    trade-signal webhook inserts 0: after one accepted loss of 730 the
    total of such a session is 99270, not the sum of its recorded
    results. *)
Example processor_session_starts_at_initial_amount :
  let lossCb :=
    mkCallback "t1" "ses_1" Loss (of_Z 44500) (JNumber (of_Z (-730)))
      "stop_reached" "d1" in
  let db :=
    processAll handlerUndefined [lossCb]
      (createNewSession "ses_1" "BTCUSDT" "Start" (of_Z 100000) emptyDB) in
  recordedResults "ses_1" db = [of_Z (-730)]
  /\ (final_total <$> sessions db !! "ses_1") = Some (of_Z 99270)
  /\ js_sum (of_Z 0) (recordedResults "ses_1" db) = of_Z (-730).
Proof. vm_compute. repeat split; reflexivity. Qed.

(** C6 (the code departs from the claim).  The result of a callback is
    added to the total and written to the session before the step that
    records it is built, and building the step fails when the result is
    not a number.  For an open session and an outcome whose edge the
    node-jump validator lets through: when [profit_loss] is not a
    number - a string that [Number] converts, which the validator of
    the route accepts, or a boolean - and the database takes the new
    total, the webhook answers with a failure, yet the session has
    moved along the edge and its [final_total] has been overwritten,
    while no step has been added: the recorded results of the session
    are those it had. *)
Theorem total_changes_without_recorded_result
    (handler : Handler) (cb : TradeResultCallback) (db : DB)
    (row : SessionRow) (node : DecisionNode) (total : num) :
  sessions db !! cb_session_id cb = Some row ->
  is_completed row = false ->
  decisionTree !! current_node row = Some node ->
  requiresRollback
    (validateNodeJump (current_node row) (nextNodeOf (result cb) node)) = false ->
  numberOf (profit_loss cb) = None ->
  finalTotalColumn (plus (final_total row) (profit_loss cb)) = Some total ->
  let answer := fst (processTradeResult handler cb db) in
  let db' := snd (processTradeResult handler cb db) in
  success answer = false
  /\ (exists message, error answer = Some (Thrown message))
  /\ sessions db' !! cb_session_id cb
     = Some (mkSession (s_session_id row) (nextNodeOf (result cb) node)
               (initial_amount row) total
               (String.eqb (nextNodeOf (result cb) node) "End" || final node)
               (path_summary row) (s_result row))
  /\ session_steps db' = session_steps db
  /\ recordedResults (cb_session_id cb) db'
     = recordedResults (cb_session_id cb) db.
Proof.
  intros Hrow Hopen Hnode Hv Hnone Htotal. cbv zeta.
  assert (Hrun : exists message,
    processTradeResult handler cb db
    = (failed (Thrown message), updated cb total row node db)).
  { unfold processTradeResult. rewrite Hrow, Hopen, Hnode. cbv zeta.
    fold (nextNodeOf (result cb) node). rewrite Hv, Htotal.
    unfold recordResultStep.
    destruct (profit_loss cb); try discriminate Hnone; eexists; reflexivity. }
  destruct Hrun as [message ->]. cbn [fst snd failed success error].
  split; [reflexivity|]. split; [exists message; reflexivity|].
  unfold updated. rewrite sessions_updateSession, recordedResults_updateSession.
  rewrite lookup_alter_eq, Hrow. auto.
Qed.

Lemma total_changes_without_recorded_result_witness :
  let db := createNewSessionWebhook "ses_1" "Start" (of_Z 100000) emptyDB in
  let cb :=
    mkCallback "20250719-000042" "ses_1" Loss (of_Z 44500) (JString "5")
      "stop_reached" "2025-07-19T09:30:00Z" in
  let answer := fst (processTradeResult handlerUndefined cb db) in
  let db' := snd (processTradeResult handlerUndefined cb db) in
  ResultCallback.isValid
    (ResultCallback.validateTradeResultCallback (ResultCallback.received cb))
  = true
  /\ success answer = false
  /\ (exists message, error answer = Some (Thrown message))
  /\ sessions db' !! "ses_1"
     = Some (mkSession "ses_1" "0-1" (of_Z 100000) (of_Z 5) false "Start" "")
  /\ session_steps db' = session_steps db
  /\ recordedResults "ses_1" db' = recordedResults "ses_1" db.
Proof.
  split; [vm_compute; reflexivity|].
  apply (total_changes_without_recorded_result handlerUndefined
           (mkCallback "20250719-000042" "ses_1" Loss (of_Z 44500) (JString "5")
              "stop_reached" "2025-07-19T09:30:00Z")
           (createNewSessionWebhook "ses_1" "Start" (of_Z 100000) emptyDB)
           (mkSession "ses_1" "Start" (of_Z 100000) (of_Z 0) false "Start" "")
           (inner "0.65%" 1 "1-0" "0-1") (of_Z 5)).
  - vm_compute. reflexivity.
  - reflexivity.
  - vm_compute. reflexivity.
  - vm_compute. reflexivity.
  - reflexivity.
  - vm_compute. reflexivity.
Defined.

(** The failing input in full.  A session that the trade-signal webhook
    created stands at "Start" with a total of 0 and no recorded result.
    The callback carries its result as the string "5": the validator
    of the route accepts it, [0 + "5"] is the text "05", which the
    column reads as 5.  The answer is the failure of
    [actualPnL.toFixed]; the session stands at "0-1" with a total of 5,
    and the sum of its recorded results is still 0.  A second delivery
    of the same callback moves the session again. *)
Example string_result_is_stored_but_not_recorded :
  let db := createNewSessionWebhook "ses_1" "Start" (of_Z 100000) emptyDB in
  let cb :=
    mkCallback "20250719-000042" "ses_1" Loss (of_Z 44500) (JString "5")
      "stop_reached" "2025-07-19T09:30:00Z" in
  let first := processTradeResult handlerUndefined cb db in
  let second := processTradeResult handlerUndefined cb (snd first) in
  plus (of_Z 0) (JString "5") = JString "05"
  /\ fst first = failed (Thrown "actualPnL.toFixed is not a function")
  /\ sessions (snd first) !! "ses_1"
     = Some (mkSession "ses_1" "0-1" (of_Z 100000) (of_Z 5) false "Start" "")
  /\ recordedResults "ses_1" (snd first) = []
  /\ js_sum (of_Z 0) (recordedResults "ses_1" (snd first)) = of_Z 0
  /\ sessions (snd second) !! "ses_1"
     = Some (mkSession "ses_1" "0-2" (of_Z 100000) (of_Z 55) false "Start" "")
  /\ recordedResults "ses_1" (snd second) = [].
Proof. vm_compute. repeat split; reflexivity. Qed.

(** The same with the JSON value [true], which the validator accepts as
    well ([Number(true)] is 1): the total grows by 1 and nothing is
    recorded.  A string that does not extend the digits of the total
    to an integer, such as "-730", makes the database refuse the
    UPDATE: then nothing changes, and the result is lost. *)
Example other_results_that_are_not_numbers :
  let db := createNewSessionWebhook "ses_1" "Start" (of_Z 100000) emptyDB in
  let cb (v : JsValue) :=
    mkCallback "20250719-000042" "ses_1" Loss (of_Z 44500) v
      "stop_reached" "2025-07-19T09:30:00Z" in
  ResultCallback.isValid
    (ResultCallback.validateTradeResultCallback (ResultCallback.received (cb (JBool true))))
  = true
  /\ fst (processTradeResult handlerUndefined (cb (JBool true)) db)
     = failed (Thrown "actualPnL.toFixed is not a function")
  /\ (final_total <$> sessions (snd (processTradeResult handlerUndefined
                                       (cb (JBool true)) db)) !! "ses_1")
     = Some (of_Z 1)
  /\ ResultCallback.isValid
       (ResultCallback.validateTradeResultCallback
          (ResultCallback.received (cb (JString "-730"))))
     = true
  /\ processTradeResult handlerUndefined (cb (JString "-730")) db
     = (failed (InvalidIntegerInput "0-730"), db).
Proof. vm_compute. repeat split; reflexivity. Qed.


End SessionFacts.

(* ===================================================================== *)
(** * The stake solver *)
(* ===================================================================== *)

Module BrokerCostFacts.

Import JsNum BrokerCost.

(** ** Order facts on numbers *)


(** [Math.min(a, b)] is NaN or at most [b]. *)
Lemma min_le_r (a b : num) :
  min a b = NaN \/ (min a b <=? b)%js = true.
Proof.
  destruct a as [x| | |], b as [y| | |]; cbn; auto.
  - destruct (Qle_bool x y) eqn:E; right; cbn; [exact E|].
    apply Qle_bool_iff, Qle_refl.
  - right. apply Qle_bool_iff, Qle_refl.
Qed.



Section Solver.

Variable config : BrokerCostConfig.
Variable costDataAt : nat -> RealTimeCostData.
Variables targetNetProfit entryPrice targetPrice stopPrice maxRiskAmount : num.








End Solver.



(** The converged stake is the 29878.41 of the reference scenario. *)
Example converged_stake_near_29878 :
  (Fin 29878 <? adjustedStake convergedAnswer)%js = true
  /\ (adjustedStake convergedAnswer <? Fin 29879)%js = true.
Proof. vm_compute. split; reflexivity. Qed.


(** In the scenario of the documentation (a target of 650 on a 100000
    account, cap 10000) the first adjustment overshoots the cap; the
    stake returned is the risk-adjusted 1000, a tenth of the cap, whose
    net profit is far from the target although the answer reports the
    target as expected net profit. *)
Example capped_solve_returns_tenth_of_cap :
  cappedSolve = Resolved (mkAdjustment (of_Z 1000) (of_Z 650) (dec 53 10))
  /\ withinTolerance demo (demoCostData 1) (of_Z 1000)
       (of_Z 45000) (of_Z 46000) (of_Z 650) = false
  /\ actualNet demo (demoCostData 1) (of_Z 1000) (of_Z 45000) (of_Z 46000)
     = dec 1523 90.
Proof. vm_compute. repeat split; reflexivity. Qed.

(** ** Division by zero *)






End BrokerCostFacts.

(* ===================================================================== *)
(** * Order execution: retries and partial fills *)
(* ===================================================================== *)

Module ExecutionFacts.

Import JsNum JsString Store Execution.

Lemma attemptBody_throws (venue : Venue) (signal : ProcessedSignal) (k : nat)
    (db : DB) (message : string) :
  attemptBody venue signal k db = inr message ->
  attemptThrows venue signal k = Some message.
Proof.
  unfold attemptBody, attemptThrows.
  destruct (validateTradeParameters signal); [|intros H; injection H as <-; reflexivity].
  destruct (venue k _); [intros H; injection H as <-; reflexivity | discriminate].
Qed.

Lemma attemptBody_returns (venue : Venue) (signal : ProcessedSignal) (k : nat)
    (db db' : DB) (e : TradeExecution) :
  attemptBody venue signal k db = inl (e, db') ->
  attemptThrows venue signal k = None
  /\ venue k (prepareExecutionData signal) = VenueReturns e
  /\ db' = recordExecutionStep (ps_session_id signal) e
             (match partialFillOf signal e with
              | Some (originalAmount, filledAmount) =>
                  handlePartialFill (ps_session_id signal) originalAmount
                    filledAmount db
              | None => db
              end).
Proof.
  unfold attemptBody, attemptThrows.
  destruct (validateTradeParameters signal); [|discriminate].
  destruct (venue k _); [discriminate|].
  intros H. injection H as <- <-. auto.
Qed.

(** A signal whose target is not above its entry fails the parameter
    check on every attempt; the error is not retryable. *)
Example invalid_parameters_are_not_retried :
  let signal :=
    mkProcessed "20250719-000043" "ses_1" "BTCUSDT" "buy" "100" "100" "95"
      (of_Z 1000) in
  let r := executeTrade partialVenue signal freshStore in
  attemptThrows partialVenue signal 1
  = Some "Invalid trade parameters: Target must be higher than entry for buy orders"
  /\ attempts r = 1%nat
  /\ waits r = []
  /\ status (execution r) = FAILED.
Proof. vm_compute. repeat split; reflexivity. Qed.

(** C9 (amended).  [executeTrade] makes at most three attempts.  It
    sleeps 5000 ms after a first and 10000 ms after a second failed
    attempt and never longer: the third failure ends the loop.  An
    attempt is followed by another one only if it threw an error whose
    lower-cased message contains one of [retryableErrors] (network,
    timeout, connection, temporary, rate limit, server error, gateway,
    service unavailable); any other thrown error, and the third one
    whatever it is, ends the run with status FAILED and the message of
    that last error; an answer of the venue is returned as it is. *)
Theorem executeTrade_retry_policy
    (venue : Venue) (signal : ProcessedSignal) (db : DB) :
  let r := executeTrade venue signal db in
  (1 <= attempts r <= 3)%nat
  /\ waits r = take (attempts r - 1) [5000; 10000]%Z
  /\ (forall k, (1 <= k < attempts r)%nat ->
        exists m, attemptThrows venue signal k = Some m
                  /\ isRetryableError m = true)
  /\ match attemptThrows venue signal (attempts r) with
     | Some m =>
         (isRetryableError m = false \/ attempts r = 3%nat)
         /\ status (execution r) = FAILED
         /\ ex_error (execution r)
            = Some (if String.eqb m "" then "Unknown error after all retries" else m)
     | None =>
         venue (attempts r) (prepareExecutionData signal)
         = VenueReturns (execution r)
     end.
Proof.
  unfold executeTrade, maxRetries. cbn [attemptLoop].
  destruct (attemptBody venue signal 1 db) as [[e1 db1]|m1] eqn:E1.
  { apply attemptBody_returns in E1 as (T1 & V1 & _). cbn.
    rewrite T1. repeat split; auto; intros k Hk; lia. }
  apply attemptBody_throws in E1.
  destruct (isRetryableError m1) eqn:R1; cbn [negb orb Nat.eqb].
  2:{ cbn. rewrite E1. repeat split; auto; intros k Hk; lia. }
  destruct (attemptBody venue signal 2 db) as [[e2 db2]|m2] eqn:E2.
  { apply attemptBody_returns in E2 as (T2 & V2 & _). cbn.
    rewrite T2. repeat split; auto.
    intros k Hk. assert (k = 1%nat) as -> by lia. eauto. }
  apply attemptBody_throws in E2.
  destruct (isRetryableError m2) eqn:R2; cbn [negb orb Nat.eqb].
  2:{ cbn. rewrite E2. repeat split; auto.
      intros k Hk. assert (k = 1%nat) as -> by lia. eauto. }
  assert (Hprev : forall k, (1 <= k < 3)%nat ->
            exists m, attemptThrows venue signal k = Some m
                      /\ isRetryableError m = true).
  { intros k Hk. assert (k = 1 \/ k = 2)%nat as [-> | ->] by lia; eauto. }
  destruct (attemptBody venue signal 3 db) as [[e3 db3]|m3] eqn:E3.
  { apply attemptBody_returns in E3 as (T3 & V3 & _). cbn.
    rewrite T3. repeat split; auto. }
  apply attemptBody_throws in E3.
  rewrite orb_true_r. cbn. rewrite E3. repeat split; auto.
Qed.

(** The claim as first stated fails.  Three network failures are slept
    through with 5000 and 10000 ms, and no wait of 20000 ms exists; a
    "temporary" failure is retried although it carries none of the
    substrings the claim lists, and a failure that only says
    "unavailable" is not retried although the claim lists it. *)
Lemma retry_policy_differs_from_claim :
  waits (executeTrade (failingVenue "Network error") buySignal freshStore)
    = [5000; 10000]%Z
  /\ ~ In 20000%Z
       (waits (executeTrade (failingVenue "Network error") buySignal freshStore))
  /\ claimedTransient "Temporary glitch" = false
  /\ attempts (executeTrade (failingVenue "Temporary glitch") buySignal freshStore)
     = 3%nat
  /\ claimedTransient "Resource unavailable" = true
  /\ attempts (executeTrade (failingVenue "Resource unavailable") buySignal freshStore)
     = 1%nat.
Proof.
  repeat split; try (vm_compute; reflexivity).
  vm_compute. intros [H|[H|[]]]; discriminate H.
Qed.

(** ** Partial fills *)

(** The step an execution records is appended after the partial-fill
    handler has run, and it records a stake of 0. *)
Lemma executed_step_has_zero_stake
    (venue : Venue) (signal : ProcessedSignal) (db : DB) (e : TradeExecution) :
  validateTradeParameters signal = [] ->
  venue 1%nat (prepareExecutionData signal) = VenueReturns e ->
  let r := executeTrade venue signal db in
  execution r = e
  /\ exists n,
       last (session_steps (store r))
       = Some (mkStep (ps_session_id signal) n "EXECUTE"
                 (Some (match status e with
                        | SUCCESS => "execute" | FAILED => "failed" end))
                 (Some (of_Z 0)) None None "EXECUTE"
                 (Some (status_string (status e)))).
Proof.
  intros Hvalid Hvenue. unfold executeTrade, maxRetries. cbn [attemptLoop].
  unfold attemptBody. rewrite Hvalid, Hvenue. cbn [execution store].
  split; [reflexivity|].
  unfold recordExecutionStep, insert_step, with_steps. cbn [session_steps].
  eexists. apply last_snoc.
Qed.

Lemma partialFillOf_success (signal : ProcessedSignal) (e : TradeExecution)
    (amounts : num * num) :
  partialFillOf signal e = Some amounts -> status e = SUCCESS.
Proof.
  unfold partialFillOf. destruct (status e); [reflexivity|].
  destruct (actual_quantity e); discriminate.
Qed.

Lemma handlePartialFill_keeps_rows (sid : string) (originalAmount filledAmount : num)
    (db : DB) :
  length (session_steps (handlePartialFill sid originalAmount filledAmount db))
  = length (session_steps db)
  /\ trade_signals (handlePartialFill sid originalAmount filledAmount db)
     = trade_signals db.
Proof.
  unfold handlePartialFill.
  destruct (max_step _ _); [|split; reflexivity].
  unfold with_steps. cbn [session_steps trade_signals].
  rewrite length_map. split; reflexivity.
Qed.

(** C8 (the code departs from the claim).  Whenever the venue fills an
    order with a notional that differs from the requested one by more
    than 1 percent, the execution reports SUCCESS, but the step recorded
    for that execution carries a stake of 0, not the filled amount: the
    partial-fill update runs before that step exists, on the steps the
    session already had.  The trade signal stored for the later
    profit-and-loss computation keeps the requested amount:
    [executeTrade] does not write to that table. *)
Theorem partial_fill_not_recorded_on_its_step
    (venue : Venue) (signal : ProcessedSignal) (db : DB) (e : TradeExecution)
    (originalAmount filledAmount : num) :
  validateTradeParameters signal = [] ->
  venue 1%nat (prepareExecutionData signal) = VenueReturns e ->
  partialFillOf signal e = Some (originalAmount, filledAmount) ->
  let sid := ps_session_id signal in
  let updated := handlePartialFill sid originalAmount filledAmount db in
  let r := executeTrade venue signal db in
  execution r = e
  /\ status (execution r) = SUCCESS
  /\ session_steps (store r)
     = (session_steps updated
        ++ [mkStep sid (next_step sid updated) "EXECUTE" (Some "execute")
              (Some (of_Z 0)) None None "EXECUTE" (Some "SUCCESS")])%list
  /\ length (session_steps updated) = length (session_steps db)
  /\ trade_signals (store r) = trade_signals db.
Proof.
  intros Hvalid Hvenue Hfill sid updated r.
  pose proof (partialFillOf_success _ _ _ Hfill) as Hok.
  destruct (handlePartialFill_keeps_rows sid originalAmount filledAmount db)
    as [Hlen Hsig].
  unfold r, executeTrade, maxRetries. cbn [attemptLoop].
  unfold attemptBody. rewrite Hvalid, Hvenue, Hfill. cbn [execution store].
  fold sid. fold updated.
  repeat split; auto.
  unfold recordExecutionStep, insert_step, with_steps. cbn [session_steps].
  rewrite Hok. reflexivity.
Qed.

Lemma partial_fill_not_recorded_on_its_step_witness :
  let r := executeTrade partialVenue buySignal freshStore in
  execution r
  = mkExecution "20250719-000042" "ses_1" SUCCESS None (Some "order_1")
      (Some (of_Z 100)) (Some (Fin (15 # 2)))
  /\ status (execution r) = SUCCESS
  /\ session_steps (store r)
     = (session_steps (handlePartialFill "ses_1" (of_Z 1000) (of_Z 750) freshStore)
        ++ [mkStep "ses_1"
              (next_step "ses_1"
                 (handlePartialFill "ses_1" (of_Z 1000) (of_Z 750) freshStore))
              "EXECUTE" (Some "execute") (Some (of_Z 0)) None None "EXECUTE"
              (Some "SUCCESS")])%list
  /\ length (session_steps (handlePartialFill "ses_1" (of_Z 1000) (of_Z 750) freshStore))
     = length (session_steps freshStore)
  /\ trade_signals (store r) = trade_signals freshStore.
Proof.
  apply (partial_fill_not_recorded_on_its_step partialVenue buySignal freshStore
           (mkExecution "20250719-000042" "ses_1" SUCCESS None (Some "order_1")
              (Some (of_Z 100)) (Some (Fin (15 # 2))))
           (of_Z 1000) (of_Z 750)).
  - reflexivity.
  - reflexivity.
  - vm_compute. reflexivity.
Defined.

(** The venue fills 750 of the 1000 requested on a session that has only
    its start step: the steps afterwards are the start step and the
    EXECUTE step with stake 0; no step carries 750. *)
Example partial_fill_on_fresh_session :
  let r := executeTrade partialVenue buySignal freshStore in
  partialFillOf buySignal (execution r) = Some (of_Z 1000, of_Z 750)
  /\ map (fun st => (step_number st, step_type st, stake_value st))
       (session_steps (store r))
     = [ (1%Z, "DECISION", Some (of_Z 650));
         (2%Z, "EXECUTE", Some (of_Z 0)) ]
  /\ Forall (fun st => stake_value st <> Some (of_Z 750)) (session_steps (store r)).
Proof.
  vm_compute. repeat split; try reflexivity.
  repeat constructor; discriminate.
Qed.

(** With an earlier EXECUTE step in the session, the filled amount lands
    on that earlier step. *)
Example partial_fill_overwrites_previous_step :
  let earlier := store (executeTrade partialVenue buySignal freshStore) in
  let r := executeTrade partialVenue buySignal earlier in
  map (fun st => (step_number st, step_type st, stake_value st))
      (session_steps (store r))
  = [ (1%Z, "DECISION", Some (of_Z 650));
      (2%Z, "EXECUTE", Some (of_Z 750));
      (3%Z, "EXECUTE", Some (of_Z 0)) ].
Proof. vm_compute. reflexivity. Qed.

(** The result monitor after that partial fill, with the price at the
    target of 110: the profit is 10 percent of the requested 1000, not
    of the 750 filled.  The result step is recorded, and then the
    exception handler's validator refuses the edge Start -> "1-0": the
    session is rolled back to "Start" and its total stays 0 although a
    result of 100 stands in its steps. *)
Example monitor_uses_requested_amount :
  let r := executeTrade partialVenue buySignal signalledStore in
  let m := monitorTradeResult NodeJump.defaultHandlerConfig (execution r)
             (of_Z 110) (store r) in
  (Session.tr_profit_loss <$> fst m) = Some (of_Z 100)
  /\ map (fun st => (step_number st, step_type st, action st, stake_value st,
                      stake_result st))
       (session_steps (snd m))
     = [ (1%Z, "DECISION", Some "start", Some (of_Z 650), None);
         (2%Z, "EXECUTE", Some "execute", Some (of_Z 0), None);
         (3%Z, "RESULT", Some "win", Some (of_Z 0), Some (of_Z 100));
         (4%Z, "DECISION", Some "ROLLBACK", Some (of_Z 0), None) ]
  /\ sessions (snd m) !! "ses_1"
     = Some (mkSession "ses_1" "Start" (of_Z 100000) (of_Z 0) false "Start" "").
Proof. vm_compute. repeat split; reflexivity. Qed.

End ExecutionFacts.

(* ===================================================================== *)
(** * The overnight scan *)
(* ===================================================================== *)

Module OvernightFacts.

Import JsNum Store Overnight.

Lemma considerTrade_keeps_world (now : Z) (acc : World * list string)
    (trade : TradeStatus) :
  fst (considerTrade now acc trade) = fst acc.
Proof.
  destruct acc as [w log]. unfold considerTrade.
  destruct (overnightCloseEnabled trade); [|reflexivity].
  destruct (_ >? _)%js; reflexivity.
Qed.

Lemma scan_keeps_world (now : Z) (trades : list TradeStatus) :
  forall acc, fst (foldl (considerTrade now) acc trades) = fst acc.
Proof.
  induction trades as [|t trades IH]; intros acc; cbn [foldl]; [reflexivity|].
  rewrite IH. apply considerTrade_keeps_world.
Qed.

(** C2 (the code departs from the claim).  Whatever the time of the scan,
    [checkOvernightTrades] leaves the manager, the [overnight_trades]
    table and the sessions as they were: every registration that was
    active and overnight-close-enabled is still active afterwards, no
    trade is closed and no session is rolled back.  The scan only logs
    the trades open for more than 16 hours. *)
Theorem overnight_scan_closes_nothing (now : Z) (w : World) :
  let w' := fst (checkOvernightTrades now w) in
  w' = w
  /\ getActiveTrades w' = getActiveTrades w
  /\ sessions (db w') = sessions (db w).
Proof.
  assert (H : fst (checkOvernightTrades now w) = w).
  { unfold checkOvernightTrades. apply (scan_keeps_world now _ (w, [])). }
  cbv zeta. rewrite H. auto.
Qed.

(** [registerTrade] with the table as its script creates it: the
    script declares no unique index on [trade_id], so the database
    refuses the [INSERT ... ON CONFLICT (trade_id)]; the method answers
    false from its [catch] and neither the table nor the in-memory map
    is changed. *)
Lemma registerTrade_refused (rowTime entryTime : Z)
    (tradeId sessionId sym : string)
    (entryPrice targetPrice stopPrice tradeAmount : num)
    (currentNode : string) (enabled : bool) (previousNode : option string)
    (w : World) :
  upsert_taken overnight_trades_script "trade_id" [] = false
  /\ registerTrade rowTime entryTime tradeId sessionId sym entryPrice
       targetPrice stopPrice tradeAmount currentNode enabled previousNode w
     = (false, w).
Proof.
  split; [reflexivity|].
  unfold registerTrade.
  destruct (match previousNode with
            | Some p => if String.eqb p "" then None else Some p
            | None => None
            end); reflexivity.
Qed.

(** A trade with overnight close enabled that the manager loaded from
    its active row, scanned 27 hours after its entry: it is logged, it
    stays active, and its session stays at "0-1" instead of going back
    to the previous node "Start". *)
Example overnight_scan_after_27_hours :
  let '(w', log) := checkOvernightTrades (27 * hour) nightWorld in
  log = ["20250719-000042"]
  /\ getActiveTrades w'
     = [mkTradeStatus "20250719-000042" active true 0 "BTCUSDT" "0-1"]
  /\ (ot_status <$> overnight_trades w' !! "20250719-000042") = Some active
  /\ (previous_node <$> overnight_trades w' !! "20250719-000042")
     = Some (Some "Start")
  /\ (Store.current_node <$> sessions (db w') !! "ses_1") = Some "0-1".
Proof. vm_compute. repeat split; reflexivity. Qed.

End OvernightFacts.
(* ===================================================================== *)
(** * Duplicate trade signals *)
(* ===================================================================== *)

Module WebhookFacts.

Import JsNum JsString Json Store Execution SignalIntake Webhook.

Lemma push_error_nonempty (e : SignalError) (r : Report) :
  fst (push_error e r) <> [] /\ In e (fst (push_error e r)).
Proof.
  unfold push_error. cbn [fst]. split.
  - destruct (fst r); discriminate.
  - apply in_or_app. right. left. reflexivity.
Qed.

(** A signal with missing fields is refused with one error for each,
    and its id is not remembered. *)
Example missing_fields_are_listed :
  let signal :=
    mkSignal "buy" "" "15" "2025-07-19T09:00:00Z" "45000" "46000" ""
      (JString "id-1") "2" "1" None None in
  validateTradeSignal (fun _ => of_Z 0) (of_Z 60000) signal []
  = (mkValidationResult false
       [MissingRequiredField "symbol"; MissingRequiredField "stop"] None, []).
Proof. reflexivity. Qed.

(** ** The set of processed ids *)

(** A value that is not an array or an object is the same value as
    itself. *)
Lemma same_value_zero_refl (v : JsValue) :
  is_compound v = false -> same_value_zero v v = true.
Proof.
  destruct v as [| |b|n|s|text param]; cbn; try reflexivity; try discriminate.
  - intros _. destruct b; reflexivity.
  - intros _. destruct n as [q| | |]; cbn; try reflexivity.
    rewrite orb_false_r. apply Qeq_bool_iff. reflexivity.
  - intros _. apply String.eqb_refl.
Qed.

(** An array or an object is never found in the set. *)
Lemma set_has_compound (v : JsValue) (seen : list JsValue) :
  is_compound v = true -> set_has v seen = false.
Proof.
  intros Hv. destruct v; try discriminate.
  unfold set_has. induction seen as [|x seen IH]; [reflexivity|].
  cbn [existsb same_value_zero]. exact IH.
Qed.

Lemma set_has_app (v : JsValue) (s1 s2 : list JsValue) :
  set_has v (s1 ++ s2) = set_has v s1 || set_has v s2.
Proof. unfold set_has. apply existsb_app. Qed.

(** After [add], [has] finds a value that is not an array or an
    object. *)
Lemma set_has_add (v : JsValue) (seen : list JsValue) :
  is_compound v = false -> set_has v (set_add v seen) = true.
Proof.
  intros Hv. unfold set_add. destruct (set_has v seen) eqn:E; [exact E|].
  rewrite set_has_app. cbn [set_has existsb].
  rewrite same_value_zero_refl by exact Hv. rewrite orb_true_r. reflexivity.
Qed.

Lemma elem_of_set_add (v : JsValue) (seen : list JsValue) :
  set_has v seen = false -> v ∈ set_add v seen.
Proof.
  intros E. unfold set_add. rewrite E. apply elem_of_app. right.
  apply list_elem_of_singleton. reflexivity.
Qed.

(** A signal whose id is found in the set of processed ids fails
    validation with the duplicate error, and the set stays as it is. *)
Lemma validateTradeSignal_duplicate (parse : string -> num) (clock : num)
    (signal : TradeSignal) (seen : list JsValue) :
  missingFields signal = [] ->
  set_has (id signal) seen = true ->
  exists errs warns,
    validateTradeSignal parse clock signal seen
    = (mkValidationResult false errs (Some warns), seen)
    /\ In (AlreadyProcessed (id signal)) errs.
Proof.
  intros Hfields Hseen. unfold validateTradeSignal. rewrite Hfields.
  unfold validateSignalQuality. rewrite Hseen.
  match goal with
  | |- context [push_error ?e ?r] =>
      destruct (push_error_nonempty e r) as [Hne Hin];
      destruct (push_error e r) as [errs warns] eqn:E
  end.
  cbn [fst snd] in *. exists errs, warns. split; [|exact Hin].
  destruct errs; [contradiction | reflexivity].
Qed.

(** The set after a validation: a signal with a missing field leaves
    it alone, any other signal has its id added. *)
Lemma validateTradeSignal_set (parse : string -> num) (clock : num)
    (signal : TradeSignal) (seen : list JsValue) :
  snd (validateTradeSignal parse clock signal seen)
  = match missingFields signal with
    | [] => set_add (id signal) seen
    | _ => seen
    end.
Proof.
  unfold validateTradeSignal.
  destruct (missingFields signal); [|reflexivity].
  unfold validateSignalQuality, set_add.
  destruct (set_has (id signal) seen); reflexivity.
Qed.

(** After a signal with all its fields went through validation, its id
    is in the set, and [has] finds it unless it is an array or an
    object. *)
Lemma validateTradeSignal_remembers (parse : string -> num) (clock : num)
    (signal : TradeSignal) (seen : list JsValue) :
  missingFields signal = [] ->
  (is_compound (id signal) = false ->
   set_has (id signal) (snd (validateTradeSignal parse clock signal seen)) = true)
  /\ (set_has (id signal) seen = true
      \/ id signal ∈ snd (validateTradeSignal parse clock signal seen)).
Proof.
  intros Hfields. rewrite validateTradeSignal_set, Hfields. split.
  - apply set_has_add.
  - destruct (set_has (id signal) seen) eqn:E; [left; reflexivity|].
    right. apply elem_of_set_add, E.
Qed.

Lemma POST_processedSignals (env : Env) (signal : TradeSignal) (sys : System) :
  processedSignals (snd (POST env signal sys))
  = snd (validateTradeSignal (parseDate env) (of_Z (now env)) signal
           (processedSignals sys)).
Proof.
  unfold POST.
  destruct (validateTradeSignal _ _ _ _) as [v seen']. cbn [snd].
  destruct (negb (isValid v)); [reflexivity|].
  destruct (processTradeSignal _ _ _) as [[p|e] db1]; [|reflexivity].
  destruct (status _); [|reflexivity].
  rewrite (proj2 (OvernightFacts.registerTrade_refused _ _ _ _ _ _ _ _ _ _ _ _ _)). reflexivity.
Qed.

(** A delivery whose id is found in the set is answered 400 and changes
    nothing; when it has all its fields, its errors name the
    duplicate. *)
Lemma POST_duplicate (env : Env) (signal : TradeSignal) (sys : System) :
  set_has (id signal) (processedSignals sys) = true ->
  exists errs warns,
    POST env signal sys = (Http400 errs warns, sys)
    /\ (missingFields signal = [] -> In (AlreadyProcessed (id signal)) errs).
Proof.
  intros Hseen. destruct (missingFields signal) as [|m ms] eqn:Hfields.
  - destruct (validateTradeSignal_duplicate (parseDate env) (of_Z (now env))
                signal _ Hfields Hseen) as (errs & warns & Hv & Hin).
    exists errs, warns. split; [|intros _; exact Hin].
    unfold POST. rewrite Hv. cbn. destruct sys; reflexivity.
  - exists (m :: ms), []. split; [|discriminate].
    unfold POST, validateTradeSignal. rewrite Hfields. cbn.
    destruct sys; reflexivity.
Qed.

(** ** What an accepted first delivery creates *)

Lemma handlePartialFill_sessions sid o f db :
  sessions (handlePartialFill sid o f db) = sessions db.
Proof. unfold handlePartialFill. destruct (max_step _ _); reflexivity. Qed.

Lemma attemptLoop_sessions (v : Venue) (signal : ProcessedSignal) (remaining : nat) :
  forall attempt lastError slept db,
    sessions (store (attemptLoop v signal remaining attempt lastError slept db))
    = sessions db.
Proof.
  induction remaining as [|remaining IH]; intros attempt lastError slept db;
    cbn [attemptLoop]; [reflexivity|].
  destruct (attemptBody v signal attempt db) as [[e db']|m] eqn:E.
  - apply ExecutionFacts.attemptBody_returns in E as (_ & _ & ->).
    cbn [store]. destruct (partialFillOf signal e) as [[o f]|]; [|reflexivity].
    unfold recordExecutionStep, insert_step, with_steps. cbn [sessions].
    apply handlePartialFill_sessions.
  - destruct (negb (isRetryableError m) || (attempt =? maxRetries)%nat);
      [reflexivity | apply IH].
Qed.

Lemma executeTrade_sessions (v : Venue) (signal : ProcessedSignal) (db : DB) :
  sessions (store (executeTrade v signal db)) = sessions db.
Proof. apply attemptLoop_sessions. Qed.

(** The processing of a signal for a trade id without session: the
    session is created at "Start" and the signal is stored for it. *)
Lemma processTradeSignal_new (env : Env) (signal : TradeSignal) (db : DB) :
  findSessionByTradeId (id signal) db = None ->
  exists p,
    processTradeSignal env signal db
    = (inl p,
       saveTradeSignal p
         (Session.createNewSessionWebhook (freshSessionId env) "Start"
            (accountBalance env) db))
    /\ p_session_id p = freshSessionId env
    /\ p_trade_id p = id signal
    /\ p_symbol p = symbol signal
    /\ p_current_node p = "Start"
    /\ node_stake_percentage p = "0.65%".
Proof.
  intros Hnone. unfold processTradeSignal. rewrite Hnone.
  change (DecisionTree.decisionTree !! "Start")
    with (Some (DecisionTree.inner "0.65%" 1 "1-0" "0-1")).
  cbv iota beta.
  set (cost := calculateValueWithCostAdjustment env _ _ _ _ _). clearbody cost.
  eexists. split; [reflexivity|]. cbn. auto.
Qed.

(** The processing of a signal for a trade id that has a session at a
    node of the graph: the session is continued, no step is added. *)
Lemma processTradeSignal_continues (env : Env) (signal : TradeSignal) (db : DB)
    (existing : SessionRow) (node : DecisionTree.DecisionNode) :
  findSessionByTradeId (id signal) db = Some existing ->
  DecisionTree.decisionTree !! Store.current_node existing = Some node ->
  exists p,
    processTradeSignal env signal db
    = (inl p,
       saveTradeSignal p
         (updateSessionBalance (s_session_id existing) (accountBalance env) db))
    /\ p_session_id p = s_session_id existing
    /\ p_trade_id p = id signal
    /\ p_current_node p = Store.current_node existing.
Proof.
  intros Hfind Hnode. unfold processTradeSignal. rewrite Hfind, Hnode.
  set (cost := calculateValueWithCostAdjustment env _ _ _ _ _). clearbody cost.
  eexists. split; [reflexivity|]. cbn. auto.
Qed.

(** What a delivery answered with 200 went through. *)
Lemma POST_accepted (env : Env) (signal : TradeSignal) (sys sys1 : System)
    (p : ProcessedTradeSignal) (e : TradeExecution) :
  POST env signal sys = (Http200 p e, sys1) ->
  exists db1,
    processTradeSignal env signal (Overnight.db (world sys)) = (inl p, db1)
    /\ e = execution (executeTrade (venue env) (toExecutionSignal p) db1)
    /\ status e = SUCCESS
    /\ sys1
       = mkSystem
           (with_db (fun _ => store (executeTrade (venue env)
                                       (toExecutionSignal p) db1))
              (world sys))
           (snd (validateTradeSignal (parseDate env) (of_Z (now env)) signal
                   (processedSignals sys))).
Proof.
  unfold POST. destruct (validateTradeSignal _ _ _ _) as [v seen'].
  destruct (negb (isValid v)); [discriminate|].
  destruct (processTradeSignal env signal (Overnight.db (world sys)))
    as [[p0|err] db1]; [|discriminate].
  destruct (status (execution (executeTrade (venue env) (toExecutionSignal p0) db1)))
    eqn:Hstatus; [|discriminate].
  rewrite (proj2 (OvernightFacts.registerTrade_refused _ _ _ _ _ _ _ _ _ _ _ _ _)). intros H. injection H as <- <- <-.
  exists db1. auto.
Qed.

(** An accepted delivery for a trade id without session creates exactly
    one session row: the new session at "Start". *)
Lemma accepted_delivery_creates_one_session
    (env : Env) (signal : TradeSignal) (sys sys1 : System)
    (p : ProcessedTradeSignal) (e : TradeExecution) :
  POST env signal sys = (Http200 p e, sys1) ->
  findSessionByTradeId (id signal) (Overnight.db (world sys)) = None ->
  sessions (Overnight.db (world sys)) !! freshSessionId env = None ->
  sessions (Overnight.db (world sys1))
  = <[freshSessionId env :=
        mkSession (freshSessionId env) "Start" (accountBalance env) (of_Z 0)
          false "Start" ""]> (sessions (Overnight.db (world sys))).
Proof.
  intros H Hnone Hfresh.
  apply POST_accepted in H as (db1 & Hproc & _ & _ & ->).
  destruct (processTradeSignal_new env signal _ Hnone) as (p' & Hp & _).
  rewrite Hp in Hproc. injection Hproc as -> <-.
  cbn [world Overnight.db with_db]. rewrite executeTrade_sessions.
  unfold saveTradeSignal, with_signals. cbn [sessions].
  unfold Session.createNewSessionWebhook. rewrite Hfresh. reflexivity.
Qed.

Lemma POST_replay (env1 env2 : Env) (signal1 signal2 : TradeSignal) (sys : System) :
  missingFields signal1 = [] ->
  is_compound (id signal1) = false ->
  id signal2 = id signal1 ->
  exists errs warns,
    POST env2 signal2 (snd (POST env1 signal1 sys))
    = (Http400 errs warns, snd (POST env1 signal1 sys))
    /\ (missingFields signal2 = [] -> In (AlreadyProcessed (id signal1)) errs).
Proof.
  intros Hfields Hprimitive Hid. rewrite <- Hid. apply POST_duplicate.
  rewrite POST_processedSignals, Hid.
  apply validateTradeSignal_remembers; assumption.
Qed.

(** What the duplicate check achieves.  Within one running process,
    once a trade signal with all its fields has been delivered under an
    id that is a string, a number or a boolean, a further delivery with
    the same id - whatever its other fields, the clock, the venue and
    the balance are by then - is answered with a 400 rejection, which
    carries the error "Signal ID ... has already been processed" when
    that delivery has all its fields, and it changes nothing.  When the
    first delivery was accepted for a trade id that had no session, the
    two deliveries together leave exactly one new session. *)
Lemma replay_in_one_process_is_rejected
    (env1 env2 : Env) (signal1 signal2 : TradeSignal) (sys : System) :
  missingFields signal1 = [] ->
  is_compound (id signal1) = false ->
  id signal2 = id signal1 ->
  let first := POST env1 signal1 sys in
  let second := POST env2 signal2 (snd first) in
  (exists errs warns,
      fst second = Http400 errs warns
      /\ (missingFields signal2 = [] -> In (AlreadyProcessed (id signal1)) errs))
  /\ snd second = snd first
  /\ (forall p e,
        fst first = Http200 p e ->
        findSessionByTradeId (id signal1) (Overnight.db (world sys)) = None ->
        sessions (Overnight.db (world sys)) !! freshSessionId env1 = None ->
        sessions (Overnight.db (world (snd second)))
        = <[freshSessionId env1 :=
              mkSession (freshSessionId env1) "Start" (accountBalance env1)
                (of_Z 0) false "Start" ""]>
            (sessions (Overnight.db (world sys)))).
Proof.
  intros Hfields Hprimitive Hid first second.
  destruct (POST_replay env1 env2 signal1 signal2 sys Hfields Hprimitive Hid)
    as (errs & warns & H & Hin).
  fold first in H. fold second in H.
  assert (Hsnd : snd second = snd first) by (rewrite H; reflexivity).
  split; [exists errs, warns; rewrite H; auto|].
  split; [exact Hsnd|].
  intros p e Hfirst Hnone Hfresh. rewrite Hsnd.
  apply (accepted_delivery_creates_one_session env1 signal1 sys (snd first) p e);
    [|exact Hnone|exact Hfresh].
  rewrite <- Hfirst. unfold first. apply surjective_pairing.
Qed.

(** The replay in the reference scenario: the first delivery is executed,
    the second is refused, and one session with its two steps remains. *)
Example replay_leaves_one_session :
  let first := POST (demoEnv "ses_A") demoSignal emptySystem in
  let second := POST (demoEnv "ses_B") demoSignal (snd first) in
  (exists p e, fst first = Http200 p e)
  /\ fst second
     = Http400 [AlreadyProcessed (JString "20250719-000042")]
         [TimeframeNormalized "15" "15m"]
  /\ size (sessions (Overnight.db (world (snd second)))) = 1%nat
  /\ length (session_steps (Overnight.db (world (snd second)))) = 2%nat.
Proof.
  cbv zeta. split; [eexists; eexists; vm_compute; reflexivity|].
  split; [vm_compute; reflexivity|].
  split; vm_compute; reflexivity.
Qed.

End WebhookFacts.

(* ===================================================================== *)
(** * The decision graph counts wins and losses *)
(* ===================================================================== *)

Module GraphWalkFacts.

Import JsNum JsString DecisionTree NodeJump GraphWalk.
Import Session(Outcome, Win, Loss).

(** The table, read at the node of [w] wins and [l] losses. *)
Lemma step_table (w l : nat) :
  (w <= 4)%nat -> (l <= 5)%nat ->
  exists n,
    decisionTree !! node_of w l = Some n
    /\ win n = Some (if (w =? 4)%nat then "WIN" else node_of (S w) l)
    /\ loss n = Some (if (l =? 5)%nat then "LOST" else node_of w (S l)).
Proof.
  intros Hw Hl.
  pose (check := fun '(w, l) =>
    match decisionTree !! node_of w l with
    | Some n =>
        bool_decide (win n = Some (if (w =? 4)%nat then "WIN" else node_of (S w) l))
        && bool_decide (loss n = Some (if (l =? 5)%nat then "LOST" else node_of w (S l)))
    | None => false
    end).
  assert (Hall : forallb check (list_prod (seq 0 5) (seq 0 6)) = true)
    by (vm_compute; reflexivity).
  rewrite forallb_forall in Hall.
  specialize (Hall (w, l)). unfold check in Hall.
  destruct (decisionTree !! node_of w l) as [n|].
  - exists n. split; [reflexivity|].
    assert (H : In (w, l) (list_prod (seq 0 5) (seq 0 6))).
    { apply in_prod; apply in_seq; lia. }
    apply Hall in H. apply andb_prop in H as [H1 H2].
    apply bool_decide_eq_true in H1. apply bool_decide_eq_true in H2. auto.
  - assert (H : In (w, l) (list_prod (seq 0 5) (seq 0 6))).
    { apply in_prod; apply in_seq; lia. }
    apply Hall in H. discriminate.
Qed.

Lemma terminal_has_no_edge (node : string) (n : DecisionNode) :
  decisionTree !! node = Some n ->
  final n = true ->
  win n = None /\ loss n = None.
Proof.
  intros H Hf.
  pose proof (DecisionTreeFacts.decisionTree_forall
    (fun '(_, n) =>
       negb (final n)
       || (match win n with None => true | Some _ => false end
           && match loss n with None => true | Some _ => false end))
    ltac:(vm_compute; reflexivity) node n H) as Hc.
  cbv beta iota in Hc. rewrite Hf in Hc. cbn [negb orb] in Hc.
  apply andb_prop in Hc as [H1 H2].
  destruct (win n); [discriminate|]. destruct (loss n); [discriminate|]. auto.
Qed.

(** A terminal node is never left. *)
Lemma walk_terminal (node : string) (outcomes : list Outcome) :
  is_terminal node = true -> walk node outcomes = node.
Proof.
  unfold is_terminal. destruct outcomes as [|o rest]; [reflexivity|].
  cbn [walk]. destruct (decisionTree !! node) as [n|] eqn:H; [|reflexivity].
  intros Hf. destruct (terminal_has_no_edge node n H Hf) as [Hw Hl].
  destruct o; cbn [edge]; rewrite ?Hw, ?Hl; reflexivity.
Qed.

Lemma walk_counts (outcomes : list Outcome) :
  forall w l,
    (w + wins outcomes <= 4)%nat ->
    (l + losses outcomes <= 5)%nat ->
    walk (node_of w l) outcomes = node_of (w + wins outcomes) (l + losses outcomes)
    /\ ((w + wins outcomes = 4)%nat ->
        walk (node_of w l) (outcomes ++ [Win]) = "WIN")
    /\ ((l + losses outcomes = 5)%nat ->
        walk (node_of w l) (outcomes ++ [Loss]) = "LOST").
Proof.
  induction outcomes as [|o rest IH]; intros w l Hw Hl.
  - cbn [wins losses] in *. rewrite !Nat.add_0_r in *.
    destruct (step_table w l Hw Hl) as (n & Hn & Hwin & Hloss).
    split; [reflexivity|]. cbn [app walk]. rewrite Hn. cbn [edge].
    split; intros E.
    + rewrite Hwin. apply Nat.eqb_eq in E. rewrite E. reflexivity.
    + rewrite Hloss. apply Nat.eqb_eq in E. rewrite E. reflexivity.
  - destruct (step_table w l ltac:(lia) ltac:(lia)) as (n & Hn & Hwin & Hloss).
    destruct o; cbn [wins losses] in *.
    + assert (E : (w =? 4)%nat = false) by (apply Nat.eqb_neq; lia).
      rewrite E in Hwin.
      destruct (IH (S w) l ltac:(lia) ltac:(lia)) as (H1 & H2 & H3).
      cbn [app walk]. rewrite Hn. cbn [edge]. rewrite Hwin.
      rewrite <- !Nat.add_succ_comm. repeat split; auto.
    + assert (E : (l =? 5)%nat = false) by (apply Nat.eqb_neq; lia).
      rewrite E in Hloss.
      destruct (IH w (S l) ltac:(lia) ltac:(lia)) as (H1 & H2 & H3).
      cbn [app walk]. rewrite Hn. cbn [edge]. rewrite Hloss.
      rewrite <- !Nat.add_succ_comm. repeat split; auto.
Qed.

(** Every edge of a node at level [k] leads to a terminal node or to a
    node at level [k + 1], and levels end at 10. *)
Lemma edges_raise_level (node : string) (n : DecisionNode) (o : Outcome) :
  decisionTree !! node = Some n ->
  final n = false ->
  exists k next,
    level_number n = Some k /\ (1 <= k <= 10)%nat
    /\ edge o n = Some next
    /\ (is_terminal next = true
        \/ exists n', decisionTree !! next = Some n' /\ final n' = false
                      /\ level_number n' = Some (S k)).
Proof.
  intros H Hf.
  pose (target_ok := fun (k : nat) (t : option string) =>
    match t with
    | None => false
    | Some next =>
        is_terminal next
        || match decisionTree !! next with
           | Some n' => negb (final n') && bool_decide (level_number n' = Some (S k))
           | None => false
           end
    end).
  pose proof (DecisionTreeFacts.decisionTree_forall
    (fun '(_, n) =>
       final n
       || match level_number n with
          | Some k =>
              (1 <=? k)%nat && (k <=? 10)%nat && target_ok k (win n)
              && target_ok k (loss n)
          | None => false
          end)
    ltac:(vm_compute; reflexivity) node n H) as Hc.
  cbv beta iota in Hc. rewrite Hf in Hc. cbn [orb] in Hc.
  destruct (level_number n) as [k|]; [|discriminate].
  repeat (apply andb_prop in Hc as [Hc ?]).
  assert (Ht : target_ok k (edge o n) = true) by (destruct o; assumption).
  unfold target_ok in Ht. destruct (edge o n) as [next|]; [|discriminate].
  exists k, next. split; [reflexivity|].
  split; [split; [apply Nat.leb_le | apply Nat.leb_le]; assumption|].
  split; [reflexivity|].
  apply orb_prop in Ht as [Ht|Ht]; [left; exact Ht|right].
  destruct (decisionTree !! next) as [n'|]; [|discriminate].
  apply andb_prop in Ht as [Hopen Hlevel]. apply negb_true_iff in Hopen.
  apply bool_decide_eq_true in Hlevel. eauto.
Qed.

Lemma walk_ends (d : nat) :
  forall node n k outcomes,
    decisionTree !! node = Some n ->
    final n = false ->
    level_number n = Some k ->
    (k + d = 11)%nat ->
    (d <= length outcomes)%nat ->
    is_terminal (walk node outcomes) = true.
Proof.
  induction d as [|d IH]; intros node n k outcomes Hn Hf Hk Hd Hlen.
  - destruct (edges_raise_level node n Win Hn Hf) as (k' & _ & Hk' & Hb & _).
    rewrite Hk in Hk'. injection Hk' as <-. lia.
  - destruct outcomes as [|o rest]; [cbn in Hlen; lia|].
    destruct (edges_raise_level node n o Hn Hf) as (k' & next & Hk' & Hb & He & Hnext).
    rewrite Hk in Hk'. injection Hk' as <-.
    cbn [walk]. rewrite Hn, He.
    destruct Hnext as [Ht | (n' & Hn' & Hf' & Hk')].
    + rewrite (walk_terminal next rest Ht). exact Ht.
    + apply (IH next n' (S k) rest Hn' Hf' Hk'); [lia | cbn in Hlen; lia].
Qed.

(** X1.  The decision graph counts wins and losses.  From "Start", a
    sequence of outcomes with at most 4 wins and at most 5 losses leads
    to the node named by its numbers of wins and losses; the fifth win
    then leads to WIN and the sixth loss to LOST.  Every sequence of 10
    outcomes or more ends in a terminal node, and a terminal node is
    never left. *)
Theorem graph_counts_wins_and_losses :
  (forall outcomes,
      (wins outcomes <= 4)%nat ->
      (losses outcomes <= 5)%nat ->
      walk "Start" outcomes = node_of (wins outcomes) (losses outcomes)
      /\ (wins outcomes = 4%nat -> walk "Start" (outcomes ++ [Win]) = "WIN")
      /\ (losses outcomes = 5%nat -> walk "Start" (outcomes ++ [Loss]) = "LOST"))
  /\ (forall outcomes,
        (10 <= length outcomes)%nat ->
        is_terminal (walk "Start" outcomes) = true)
  /\ (forall node outcomes,
        is_terminal node = true -> walk node outcomes = node).
Proof.
  split; [|split].
  - intros outcomes Hw Hl. exact (walk_counts outcomes 0 0 Hw Hl).
  - intros outcomes Hlen.
    apply (walk_ends 10 "Start" (inner "0.65%" 1 "1-0" "0-1") 1 outcomes);
      try reflexivity; exact Hlen.
  - intros node outcomes. apply walk_terminal.
Qed.

(** Four wins and two losses in some order, then the fifth win. *)
Example walk_to_win :
  walk "Start" [Win; Loss; Win; Win; Loss; Win] = "4-2"
  /\ walk "Start" [Win; Loss; Win; Win; Loss; Win; Win] = "WIN"
  /\ walk "Start" [Loss; Loss; Loss; Loss; Loss; Loss; Win] = "LOST".
Proof. repeat split; reflexivity. Qed.

End GraphWalkFacts.

(* ===================================================================== *)
(** * Stakes grow with the amount and stay below it *)
(* ===================================================================== *)

Module StakeFacts.

Import JsNum JsString DecisionTree.

Lemma calculateValue_floor (sg : Sign) (body : string) (q a : Q) :
  is_numeral body = true ->
  parseFloat body = Fin q ->
  calculateValue (stakePercentage sg body) (Fin a)
  = of_Z (Qfloor (Qred (Qred (q / inject_Z 100) * a) + (1 # 2))).
Proof.
  intros Hnum Hq.
  rewrite (DecisionTreeFacts.calculateValue_stakePercentage sg body (Fin a) Hnum).
  rewrite Hq. reflexivity.
Qed.

Lemma of_Z_leb (x y : Z) : (x <= y)%Z -> (of_Z x <=? of_Z y)%js = true.
Proof. intros H. cbn. apply Qle_bool_iff. rewrite <- Zle_Qle. exact H. Qed.

Lemma stake_monotone (sg : Sign) (body : string) (a b : Q) :
  is_numeral body = true ->
  (0 <= a)%Q -> (a <= b)%Q ->
  (calculateValue (stakePercentage sg body) (Fin a)
   <=? calculateValue (stakePercentage sg body) (Fin b))%js = true.
Proof.
  intros Hnum Ha Hab.
  destruct (DecisionTreeFacts.parseFloat_numeral body Hnum) as (q & Hq & Hq0).
  rewrite !(calculateValue_floor sg body q _ Hnum Hq).
  apply of_Z_leb, Qfloor_resp_le. rewrite !Qred_correct.
  apply Qplus_le_l. rewrite !(Qmult_comm (q / inject_Z 100)).
  apply Qmult_le_compat_r; [exact Hab|].
  apply Qle_shift_div_l; [reflexivity | lra].
Qed.

(** No value of the graph is above 4 percent. *)
Lemma graph_values_below_4 (cur : string) (node : DecisionNode) :
  decisionTree !! cur = Some node ->
  exists sg body q,
    value node = stakePercentage sg body /\ is_numeral body = true
    /\ parseFloat body = Fin q /\ (0 <= q <= 4)%Q.
Proof.
  intros H.
  pose proof (DecisionTreeFacts.decisionTree_forall
    (fun '(_, n) =>
       let '(sg, body) := stake_parts (value n) in
       String.eqb (value n) (stakePercentage sg body) && is_numeral body
       && (parseFloat body <=? Fin 4)%js)
    ltac:(vm_compute; reflexivity) cur node H) as Hc.
  cbv beta iota in Hc. destruct (stake_parts (value node)) as [sg body].
  apply andb_prop in Hc as [Hc Hle]. apply andb_prop in Hc as [Hv Hn].
  apply String.eqb_eq in Hv.
  destruct (DecisionTreeFacts.parseFloat_numeral body Hn) as (q & Hq & Hq0).
  exists sg, body, q. rewrite Hq in Hle. cbn in Hle. apply Qle_bool_iff in Hle.
  repeat split; auto.
Qed.

Lemma stake_below_amount (cur : string) (node : DecisionNode) (a : Q) :
  decisionTree !! cur = Some node ->
  (0 <= a)%Q ->
  (calculateValue (value node) (Fin a) <=? Fin a)%js = true.
Proof.
  intros H Ha.
  destruct (graph_values_below_4 cur node H) as (sg & body & q & -> & Hn & Hq & Hq0 & Hq4).
  rewrite (calculateValue_floor sg body q a Hn Hq).
  cbn [leb of_Z]. apply Qle_bool_iff.
  set (x := (Qred (Qred (q / inject_Z 100) * a) + (1 # 2))%Q).
  assert (Hx : (x <= (4 # 100) * a + (1 # 2))%Q).
  { unfold x. rewrite !Qred_correct. apply Qplus_le_l.
    apply Qmult_le_compat_r; [|exact Ha].
    apply Qle_shift_div_r; [reflexivity|].
    change (inject_Z 100) with 100%Q. lra. }
  pose proof (Qfloor_le x) as Hfl.
  destruct (Qlt_le_dec a 1) as [Hsmall | Hbig].
  - assert (Hlt : (inject_Z (Qfloor x) < inject_Z 1)%Q).
    { eapply Qle_lt_trans; [exact Hfl|]. change (inject_Z 1) with 1%Q. lra. }
    rewrite <- Zlt_Qlt in Hlt.
    assert (Hz : (inject_Z (Qfloor x) <= inject_Z 0)%Q) by (rewrite <- Zle_Qle; lia).
    change (inject_Z 0) with 0%Q in Hz. lra.
  - lra.
Qed.

(** X2.  The stake grows with the amount and never exceeds it.  For
    every stake percentage (optional sign, numeral, percent sign) and
    amounts 0 <= a <= b, the stake computed on [a] is at most the stake
    computed on [b]; and for every node of the decision graph the stake
    computed on [a] is at most [a]. *)
Theorem stake_grows_with_amount_and_stays_below (sg : Sign) (body : string) (a b : Q) :
  is_numeral body = true ->
  (0 <= a)%Q ->
  (a <= b)%Q ->
  (calculateValue (stakePercentage sg body) (Fin a)
   <=? calculateValue (stakePercentage sg body) (Fin b))%js = true
  /\ (forall cur node,
        decisionTree !! cur = Some node ->
        (calculateValue (value node) (Fin a) <=? Fin a)%js = true
        /\ (calculateValue (value node) (Fin a)
            <=? calculateValue (value node) (Fin b))%js = true).
Proof.
  intros Hnum Ha Hab. split; [apply stake_monotone; assumption|].
  intros cur node H. split; [apply (stake_below_amount cur node a H Ha)|].
  destruct (DecisionTreeFacts.decisionTree_values_wellformed cur node H)
    as (sg' & body' & -> & Hn).
  apply stake_monotone; assumption.
Qed.

Lemma stake_grows_with_amount_and_stays_below_witness :
  (calculateValue (stakePercentage NoSign "0.65") (Fin 100000)
   <=? calculateValue (stakePercentage NoSign "0.65") (Fin 105000))%js = true
  /\ (forall cur node,
        decisionTree !! cur = Some node ->
        (calculateValue (value node) (Fin 100000) <=? Fin 100000)%js = true
        /\ (calculateValue (value node) (Fin 100000)
            <=? calculateValue (value node) (Fin 105000))%js = true).
Proof.
  apply (stake_grows_with_amount_and_stays_below NoSign "0.65" 100000 105000).
  - reflexivity.
  - unfold Qle. simpl. lia.
  - unfold Qle. simpl. lia.
Defined.

End StakeFacts.

(* ===================================================================== *)
(** * What the trade-result webhook accepts *)
(* ===================================================================== *)

Module ResultCallbackFacts.

Import JsNum JsString Json ResultCallback.

Lemma includes_value_spec (list : list string) (v : JsValue) :
  includes_value list v = true ->
  exists s, v = JString s /\ In s list.
Proof.
  destruct v as [| | b | n | s | text param]; try discriminate. cbn.
  intros H. apply existsb_exists in H as (x & Hin & Hx).
  apply String.eqb_eq in Hx. subst x. eauto.
Qed.

Lemma zero_number_is_not_truthy (q : Q) :
  (q == 0)%Q -> truthy (JNumber (Fin q)) = false.
Proof.
  intros Hq. cbn. apply negb_false_iff, Qeq_bool_iff. exact Hq.
Qed.

(** X3.  What [validateTradeResultCallback] accepts.  An accepted
    callback has a truthy value in each of its seven required fields
    (so no empty string, no number 0), the result "win" or "loss", one
    of the four exit reasons, and an exit price and a profit/loss that
    [Number] does not turn into NaN.  A callback that reports a profit
    or loss of exactly 0 (a break-even trade), or an exit price of 0, is
    therefore refused, with the error that the field is missing. *)
Theorem callback_validation_requires_truthy_fields (callback : RawCallback) :
  (isValid (validateTradeResultCallback callback) = true ->
     Forall (fun field => truthy (snd field) = true) (requiredFields callback)
     /\ (r_result callback = JString "win" \/ r_result callback = JString "loss")
     /\ (exists reason,
            r_exit_reason callback = JString reason /\ In reason validExitReasons)
     /\ isNaN (toNumber (r_exit_price callback)) = false
     /\ isNaN (toNumber (r_profit_loss callback)) = false)
  /\ (forall q,
        r_profit_loss callback = JNumber (Fin q) -> (q == 0)%Q ->
        isValid (validateTradeResultCallback callback) = false
        /\ In (MissingField "profit_loss")
             (errors (validateTradeResultCallback callback)))
  /\ (forall q,
        r_exit_price callback = JNumber (Fin q) -> (q == 0)%Q ->
        isValid (validateTradeResultCallback callback) = false
        /\ In (MissingField "exit_price")
             (errors (validateTradeResultCallback callback))).
Proof.
  assert (Hin : forall (e : CallbackError),
             In e (errors (validateTradeResultCallback callback)) ->
             isValid (validateTradeResultCallback callback) = false).
  { intros e H. unfold validateTradeResultCallback in *. cbn [errors isValid] in *.
    destruct (_ ++ _)%list; [contradiction | reflexivity]. }
  assert (Hmissing : forall field v,
             In (field, v) (requiredFields callback) ->
             truthy v = false ->
             In (MissingField field) (errors (validateTradeResultCallback callback))).
  { intros field v Hf Hv. unfold validateTradeResultCallback. cbn [errors].
    apply in_or_app. left. apply (proj1 (list_elem_of_In _ _)).
    apply list_elem_of_omap. exists (field, v).
    split; [apply list_elem_of_In; exact Hf|].
    cbn. rewrite Hv. reflexivity. }
  split; [|split].
  - intros Hvalid.
    assert (Htruthy : Forall (fun field => truthy (snd field) = true)
                        (requiredFields callback)).
    { apply Forall_forall. intros [field v] Hf. cbn [snd].
      destruct (truthy v) eqn:Hv; [reflexivity|].
      rewrite (Hin _ (Hmissing field v (proj1 (list_elem_of_In _ _) Hf) Hv)) in Hvalid.
      discriminate. }
    split; [exact Htruthy|].
    assert (Hall : forall field v,
               In (field, v) (requiredFields callback) -> truthy v = true).
    { intros field v Hf. rewrite Forall_forall in Htruthy.
      exact (Htruthy (field, v) (proj2 (list_elem_of_In _ _) Hf)). }
    pose proof (Hall "result" _ ltac:(cbn; tauto)) as Hres.
    pose proof (Hall "exit_reason" _ ltac:(cbn; tauto)) as Hreason.
    pose proof (Hall "exit_price" _ ltac:(cbn; tauto)) as Hprice.
    pose proof (Hall "profit_loss" _ ltac:(cbn; tauto)) as Hprofit.
    unfold validateTradeResultCallback in Hvalid. cbn [isValid] in Hvalid.
    rewrite Hres, Hreason, Hprice, Hprofit in Hvalid. cbn [andb] in Hvalid.
    match type of Hvalid with
    | match ?l with _ => _ end = true =>
        destruct l eqn:E; [clear Hvalid | discriminate Hvalid]
    end.
    apply app_eq_nil in E as [_ E]. apply app_eq_nil in E as [Er E].
    apply app_eq_nil in E as [Ee E]. apply app_eq_nil in E as [Ep El].
    destruct (includes_value ["win"; "loss"] (r_result callback)) eqn:Hr;
      [|discriminate Er].
    destruct (includes_value validExitReasons (r_exit_reason callback)) eqn:He;
      [|discriminate Ee].
    destruct (isNaN (toNumber (r_exit_price callback))) eqn:Hp; [discriminate Ep|].
    destruct (isNaN (toNumber (r_profit_loss callback))) eqn:Hl; [discriminate El|].
    split.
    + apply includes_value_spec in Hr as (s & -> & [<- | [<- | []]]); auto.
    + split; [apply includes_value_spec, He | auto].
  - intros q Hq Hz.
    assert (H : In (MissingField "profit_loss")
                  (errors (validateTradeResultCallback callback))).
    { apply (Hmissing "profit_loss" (r_profit_loss callback)).
      - unfold requiredFields. cbn. tauto.
      - rewrite Hq. apply zero_number_is_not_truthy, Hz. }
    split; [exact (Hin _ H) | exact H].
  - intros q Hq Hz.
    assert (H : In (MissingField "exit_price")
                  (errors (validateTradeResultCallback callback))).
    { apply (Hmissing "exit_price" (r_exit_price callback)).
      - unfold requiredFields. cbn. tauto.
      - rewrite Hq. apply zero_number_is_not_truthy, Hz. }
    split; [exact (Hin _ H) | exact H].
Qed.

(** The example of the endpoint's own description is accepted; the same
    callback with a profit/loss of 0 is not. *)
Example callback_of_the_documentation :
  let documented (profit : num) :=
    mkRaw (JString "20250719-000042") (JString "ses_1234567890_abc123")
      (JString "win") (JNumber (Fin (10965 # 10000))) (JNumber profit)
      (JString "target_reached") (JString "2025-07-19T09:30:00Z") in
  validateTradeResultCallback (documented (Fin (15025 # 100)))
    = mkCallbackValidation true []
  /\ validateTradeResultCallback (documented (Fin 0))
     = mkCallbackValidation false [MissingField "profit_loss"].
Proof. split; reflexivity. Qed.

End ResultCallbackFacts.

(* ===================================================================== *)
(** * The trade-result webhook: what a callback can change *)
(* ===================================================================== *)

Module SessionExtraFacts.

Import JsNum JsString Json DecisionTree NodeJump Store Session SessionNotions.

Lemma steps_of_insert_step (sid : string) (st : StepRow) (db : DB) :
  steps_of sid (insert_step st db)
  = (steps_of sid db ++ (if of_session sid st then [st] else []))%list.
Proof.
  unfold steps_of, insert_step, with_steps. cbn [session_steps].
  rewrite List.filter_app. cbn [List.filter].
  destruct (of_session sid st); reflexivity.
Qed.

(** With a handler that leaves the store alone, a callback ends in one
    of three ways: it fails and the store is as it was; or the UPDATE of
    an open session at a node of the graph is taken and nothing more,
    the result not being a number; or the result is a number and the
    callback is committed. *)
Lemma processTradeResult_cases (handler : Handler) (cb : TradeResultCallback)
    (db : DB) :
  handler_inert handler ->
  (success (fst (processTradeResult handler cb db)) = false
   /\ snd (processTradeResult handler cb db) = db)
  \/ (exists row node,
        sessions db !! cb_session_id cb = Some row
        /\ is_completed row = false
        /\ decisionTree !! current_node row = Some node
        /\ (requiresRollback
              (validateNodeJump (current_node row) (nextNodeOf (result cb) node))
            = false
            \/ exists db0,
                 handler (cb_session_id cb) (current_node row)
                   (nextNodeOf (result cb) node)
                   (validateNodeJump (current_node row)
                      (nextNodeOf (result cb) node)) db
                 = (HandlerReturned false, db0))
        /\ ((exists total message,
               numberOf (profit_loss cb) = None
               /\ processTradeResult handler cb db
                  = (failed (Thrown message), updated cb total row node db))
            \/ (exists actualPnL action,
                  profit_loss cb = JNumber actualPnL
                  /\ processTradeResult handler cb db
                     = (mkResponse true
                          (Some (mkData (cb_session_id cb)
                                   (nextNodeOf (result cb) node)
                                   (JNumber (final_total row + actualPnL)%js)
                                   (String.eqb (nextNodeOf (result cb) node) "End"
                                    || final node) action))
                          None,
                        committed cb actualPnL row node db)))).
Proof.
  intros Hinert.
  destruct (SessionFacts.processTradeResult_shape handler cb db)
    as [[Hf Hs] | (row & node & db0 & Hrow & Hopen & Hnode & Hdb0 & Hend)].
  - left. split; [exact Hf|].
    destruct Hs as [-> | (cur & next & v & ->)]; [reflexivity|apply Hinert].
  - right. exists row, node.
    assert (Hsame : db0 = db).
    { destruct Hdb0 as [[_ ->] | Eh]; [reflexivity|].
      pose proof (Hinert (cb_session_id cb) (current_node row)
                    (nextNodeOf (result cb) node)
                    (validateNodeJump (current_node row)
                       (nextNodeOf (result cb) node)) db) as H.
      rewrite Eh in H. exact H. }
    subst db0.
    split; [exact Hrow|]. split; [exact Hopen|]. split; [exact Hnode|].
    split.
    { destruct Hdb0 as [[Hv _] | Eh]; [left; exact Hv | right; eauto]. }
    destruct Hend as [(total & message & Hnone & _ & Hrun) | Hrun].
    + left. eauto.
    + right. exact Hrun.
Qed.

Lemma updated_other (cb : TradeResultCallback) (total : num) (row : SessionRow)
    (node : DecisionNode) (db : DB) (sid : string) :
  cb_session_id cb <> sid ->
  sessions (updated cb total row node db) !! sid = sessions db !! sid.
Proof.
  intros Hne. unfold updated. rewrite SessionFacts.sessions_updateSession.
  apply lookup_alter_ne. exact Hne.
Qed.

Lemma updated_same (cb : TradeResultCallback) (total : num) (row : SessionRow)
    (node : DecisionNode) (db : DB) :
  sessions db !! cb_session_id cb = Some row ->
  sessions (updated cb total row node db) !! cb_session_id cb
  = Some (mkSession (s_session_id row) (nextNodeOf (result cb) node)
            (initial_amount row) total
            (String.eqb (nextNodeOf (result cb) node) "End" || final node)
            (path_summary row) (s_result row)).
Proof.
  intros Hrow. unfold updated. rewrite SessionFacts.sessions_updateSession.
  rewrite lookup_alter_eq, Hrow. reflexivity.
Qed.

Lemma steps_of_updated (cb : TradeResultCallback) (total : num) (row : SessionRow)
    (node : DecisionNode) (db : DB) (sid : string) :
  steps_of sid (updated cb total row node db) = steps_of sid db.
Proof. reflexivity. Qed.

Lemma committed_other (cb : TradeResultCallback) (actualPnL : num)
    (row : SessionRow) (node : DecisionNode) (db : DB) (sid : string) :
  cb_session_id cb <> sid ->
  sessions (committed cb actualPnL row node db) !! sid = sessions db !! sid
  /\ steps_of sid (committed cb actualPnL row node db) = steps_of sid db.
Proof.
  intros Hne. unfold committed, updated. split.
  - rewrite SessionFacts.sessions_updatePathSummary,
      SessionFacts.sessions_insert_step, SessionFacts.sessions_updateSession.
    rewrite !lookup_alter_ne by exact Hne. reflexivity.
  - unfold updatePathSummary.
    change (steps_of sid (with_sessions ?f ?d)) with (steps_of sid d).
    rewrite steps_of_insert_step.
    unfold of_session at 1. unfold resultStep at 1. cbn [st_session_id].
    destruct (String.eqb_spec (cb_session_id cb) sid) as [E|_]; [contradiction|].
    rewrite app_nil_r. reflexivity.
Qed.

Lemma committed_same (cb : TradeResultCallback) (actualPnL : num)
    (row : SessionRow) (node : DecisionNode) (db : DB) :
  sessions db !! cb_session_id cb = Some row ->
  sessions (committed cb actualPnL row node db) !! cb_session_id cb
  = Some (mkSession (s_session_id row) (nextNodeOf (result cb) node)
            (initial_amount row) (final_total row + actualPnL)%js
            (String.eqb (nextNodeOf (result cb) node) "End" || final node)
            (if String.eqb (path_summary row) ""
             then current_node row ++ arrow ++ nextNodeOf (result cb) node
             else path_summary row ++ arrow ++ nextNodeOf (result cb) node)
            (s_result row))
  /\ steps_of (cb_session_id cb) (committed cb actualPnL row node db)
     = (steps_of (cb_session_id cb) db
        ++ [mkStep (cb_session_id cb) (next_step (cb_session_id cb) db)
              (outcome_upper (result cb)) None None None
              (Some actualPnL) "RESULT" (Some "COMPLETED")])%list.
Proof.
  intros Hrow. unfold committed, updated. split.
  - rewrite SessionFacts.sessions_updatePathSummary,
      SessionFacts.sessions_insert_step, SessionFacts.sessions_updateSession.
    rewrite !lookup_alter_eq, Hrow. reflexivity.
  - unfold updatePathSummary.
    change (steps_of ?s (with_sessions ?f ?d)) with (steps_of s d).
    rewrite steps_of_insert_step.
    unfold of_session at 1. unfold resultStep. cbn [st_session_id].
    rewrite String.eqb_refl. reflexivity.
Qed.

Lemma processTradeResult_frozen (handler : Handler) (cb : TradeResultCallback)
    (db : DB) (sid : string) (row : SessionRow) :
  handler_inert handler ->
  sessions db !! sid = Some row ->
  is_completed row = true ->
  sessions (snd (processTradeResult handler cb db)) !! sid = Some row
  /\ steps_of sid (snd (processTradeResult handler cb db)) = steps_of sid db.
Proof.
  intros Hinert Hrow Hdone.
  destruct (processTradeResult_cases handler cb db Hinert)
    as [[_ ->] | (row' & node & Hrow' & Hopen & _ & _ & Hend)]; [auto|].
  assert (Hne : cb_session_id cb <> sid).
  { intros E. rewrite E, Hrow in Hrow'. injection Hrow' as <-.
    rewrite Hdone in Hopen. discriminate. }
  destruct Hend as [(total & message & _ & ->) | (p & action & _ & ->)];
    cbn [snd].
  - rewrite updated_other by exact Hne. rewrite steps_of_updated. auto.
  - destruct (committed_other cb p row' node db sid Hne) as [-> ->]. auto.
Qed.

(** X4.  A completed session is frozen for the trade-result webhook,
    and so is a session that does not exist.  A callback for such a
    session is answered with a failure and changes nothing in the
    store; and whatever callbacks are processed, for whatever sessions,
    the row and the steps of a completed session stay as they are. *)
Theorem completed_session_is_frozen
    (handler : Handler) (callbacks : list TradeResultCallback) (db : DB)
    (sid : string) (row : SessionRow) :
  handler_inert handler ->
  sessions db !! sid = Some row ->
  is_completed row = true ->
  (forall cb,
      cb_session_id cb = sid ->
      processTradeResult handler cb db = (failed (SessionAlreadyCompleted sid), db))
  /\ (forall cb,
        sessions db !! cb_session_id cb = None ->
        processTradeResult handler cb db
        = (failed (SessionNotFound (cb_session_id cb)), db))
  /\ sessions (processAll handler callbacks db) !! sid = Some row
  /\ steps_of sid (processAll handler callbacks db) = steps_of sid db.
Proof.
  intros Hinert Hrow Hdone. split; [|split].
  - intros cb <-. unfold processTradeResult. rewrite Hrow, Hdone. reflexivity.
  - intros cb Hnone. unfold processTradeResult. rewrite Hnone. reflexivity.
  - revert db Hrow. induction callbacks as [|cb rest IH]; intros db Hrow.
    + auto.
    + cbn [processAll].
      destruct (processTradeResult_frozen handler cb db sid row Hinert Hrow Hdone)
        as [Hs Hst].
      destruct (IH _ Hs) as [H1 H2]. rewrite H1, H2, Hst. auto.
Qed.

Lemma completed_session_is_frozen_witness :
  let done := mkSession "ses_1" "End" (of_Z 100000) (of_Z 99900) true "Start" "" in
  let db := with_sessions (insert "ses_1" done) emptyDB in
  let callbacks :=
    [ mkCallback "t1" "ses_1" Win (of_Z 46000) (JNumber (of_Z 500))
        "target_reached" "d1";
      mkCallback "t2" "ses_2" Loss (of_Z 44500) (JString "-100")
        "stop_reached" "d2" ] in
  (forall cb,
      cb_session_id cb = "ses_1" ->
      processTradeResult handlerUndefined cb db
      = (failed (SessionAlreadyCompleted "ses_1"), db))
  /\ (forall cb,
        sessions db !! cb_session_id cb = None ->
        processTradeResult handlerUndefined cb db
        = (failed (SessionNotFound (cb_session_id cb)), db))
  /\ sessions (processAll handlerUndefined callbacks db) !! "ses_1" = Some done
  /\ steps_of "ses_1" (processAll handlerUndefined callbacks db) = steps_of "ses_1" db.
Proof.
  apply (completed_session_is_frozen handlerUndefined
           [ mkCallback "t1" "ses_1" Win (of_Z 46000) (JNumber (of_Z 500))
               "target_reached" "d1";
             mkCallback "t2" "ses_2" Loss (of_Z 44500) (JString "-100")
               "stop_reached" "d2" ]
           (with_sessions
              (insert "ses_1"
                 (mkSession "ses_1" "End" (of_Z 100000) (of_Z 99900) true "Start" ""))
              emptyDB)
           "ses_1"
           (mkSession "ses_1" "End" (of_Z 100000) (of_Z 99900) true "Start" "")).
  - intros sid cur next v db. reflexivity.
  - reflexivity.
  - reflexivity.
Defined.

(** The edges of the graph: an inner node has both, with names that
    are neither empty nor "End"; a terminal node has none. *)
Lemma graph_edges (cur : string) (node : DecisionNode) (o : Outcome) :
  decisionTree !! cur = Some node ->
  (final node = false
   /\ GraphWalk.edge o node = Some (nextNodeOf o node)
   /\ nextNodeOf o node <> "End")
  \/ (final node = true /\ GraphWalk.edge o node = None
      /\ nextNodeOf o node = "End").
Proof.
  intros H.
  pose proof (DecisionTreeFacts.decisionTree_forall
    (fun '(_, n) =>
       if final n then
         match win n, loss n with None, None => true | _, _ => false end
       else
         match win n, loss n with
         | Some w, Some l =>
             negb (String.eqb w "") && negb (String.eqb w "End")
             && negb (String.eqb l "") && negb (String.eqb l "End")
         | _, _ => false
         end)
    ltac:(vm_compute; reflexivity) cur node H) as Hc.
  cbv beta iota in Hc. unfold nextNodeOf, GraphWalk.edge, str_or.
  destruct (final node).
  - right. destruct (win node), (loss node); try discriminate.
    destruct o; auto.
  - left. destruct (win node) as [w|], (loss node) as [l|]; try discriminate.
    apply andb_prop in Hc as [Hc Hl2]. apply andb_prop in Hc as [Hc Hl1].
    apply andb_prop in Hc as [Hw1 Hw2].
    apply negb_true_iff in Hw1, Hw2, Hl1, Hl2.
    destruct o.
    + rewrite Hw1. repeat split. apply String.eqb_neq, Hw2.
    + rewrite Hl1. repeat split. apply String.eqb_neq, Hl2.
Qed.

(** X5.  What an accepted trade-result callback does.  When the webhook
    answers a callback with success, the session existed and was open
    and the result of the callback is a number; the node of the session
    has moved along the win or loss edge of the graph that the outcome
    names, or, from a terminal node, to "End"; the session is marked
    completed exactly when the new node is "End"; the initial amount is
    kept and the profit or loss is added to the total; the reply
    reports the node, the total and the completion flag that are
    stored; and exactly one RESULT step, carrying the profit or loss,
    is appended to the session's steps. *)
Theorem accepted_result_follows_the_graph
    (handler : Handler) (cb : TradeResultCallback) (db : DB) :
  handler_inert handler ->
  success (fst (processTradeResult handler cb db)) = true ->
  exists row row' node step actualPnL,
    sessions db !! cb_session_id cb = Some row
    /\ is_completed row = false
    /\ sessions (snd (processTradeResult handler cb db)) !! cb_session_id cb
       = Some row'
    /\ decisionTree !! current_node row = Some node
    /\ (GraphWalk.edge (result cb) node = Some (current_node row')
        \/ (final node = true /\ current_node row' = "End"))
    /\ is_completed row' = String.eqb (current_node row') "End"
    /\ initial_amount row' = initial_amount row
    /\ profit_loss cb = JNumber actualPnL
    /\ final_total row' = (final_total row + actualPnL)%js
    /\ (exists action,
          data (fst (processTradeResult handler cb db))
          = Some (mkData (cb_session_id cb) (current_node row')
                    (JNumber (final_total row')) (is_completed row') action))
    /\ steps_of (cb_session_id cb) (snd (processTradeResult handler cb db))
       = (steps_of (cb_session_id cb) db ++ [step])%list
    /\ step_type step = "RESULT"
    /\ trade_result_actual step = Some actualPnL
    /\ node_name step = outcome_upper (result cb).
Proof.
  intros Hinert Hok.
  destruct (processTradeResult_cases handler cb db Hinert)
    as [[Hf _] | (row & node & Hrow & Hopen & Hnode & _ & Hend)].
  { rewrite Hf in Hok. discriminate. }
  destruct Hend as [(total & message & _ & Hrun) | (p & act & Hp & Hrun)].
  { rewrite Hrun in Hok. discriminate. }
  destruct (committed_same cb p row node db Hrow) as [Hrow' Hsteps].
  rewrite Hrun. cbn [fst snd data].
  assert (Hflag : String.eqb (nextNodeOf (result cb) node) "End" || final node
                  = String.eqb (nextNodeOf (result cb) node) "End").
  { destruct (graph_edges (current_node row) node (result cb) Hnode)
      as [(Hfin & _ & _) | (Hfin & _ & Hend)].
    - rewrite Hfin. apply orb_false_r.
    - rewrite Hfin, Hend. reflexivity. }
  eexists row, _, node, _, p. split; [exact Hrow|]. split; [exact Hopen|].
  split; [exact Hrow'|]. split; [exact Hnode|].
  cbn [current_node is_completed initial_amount final_total].
  split.
  { destruct (graph_edges (current_node row) node (result cb) Hnode)
      as [(_ & Hedge & _) | (Hfin & _ & Hend)]; [left|right]; auto. }
  split; [exact Hflag|]. split; [reflexivity|]. split; [exact Hp|].
  split; [reflexivity|].
  split; [exists act; reflexivity|].
  split; [exact Hsteps|]. cbn. auto.
Qed.

Lemma accepted_result_follows_the_graph_witness :
  let db := createNewSession "ses_1" "BTCUSDT" "Start" (of_Z 100000) emptyDB in
  let cb := mkCallback "t1" "ses_1" Loss (of_Z 44500) (JNumber (of_Z (-650)))
              "stop_reached" "2024-01-01T00:00:00Z" in
  exists row row' node step actualPnL,
    sessions db !! cb_session_id cb = Some row
    /\ is_completed row = false
    /\ sessions (snd (processTradeResult handlerUndefined cb db)) !! cb_session_id cb
       = Some row'
    /\ decisionTree !! current_node row = Some node
    /\ (GraphWalk.edge (result cb) node = Some (current_node row')
        \/ (final node = true /\ current_node row' = "End"))
    /\ is_completed row' = String.eqb (current_node row') "End"
    /\ initial_amount row' = initial_amount row
    /\ profit_loss cb = JNumber actualPnL
    /\ final_total row' = (final_total row + actualPnL)%js
    /\ (exists action,
          data (fst (processTradeResult handlerUndefined cb db))
          = Some (mkData (cb_session_id cb) (current_node row')
                    (JNumber (final_total row')) (is_completed row') action))
    /\ steps_of (cb_session_id cb) (snd (processTradeResult handlerUndefined cb db))
       = (steps_of (cb_session_id cb) db ++ [step])%list
    /\ step_type step = "RESULT"
    /\ trade_result_actual step = Some actualPnL
    /\ node_name step = outcome_upper (result cb).
Proof.
  apply (accepted_result_follows_the_graph handlerUndefined
           (mkCallback "t1" "ses_1" Loss (of_Z 44500) (JNumber (of_Z (-650)))
              "stop_reached" "2024-01-01T00:00:00Z")
           (createNewSession "ses_1" "BTCUSDT" "Start" (of_Z 100000) emptyDB)).
  - intros sid cur next v db. reflexivity.
  - vm_compute. reflexivity.
Defined.

(** From a node of the loss branch, the only moves that the webhook's
    validator lets through lead to the loss branch again. *)
Lemma loss_branch_closed (cur : string) (node : DecisionNode) (o : Outcome) :
  In cur webhookReachable ->
  decisionTree !! cur = Some node ->
  requiresRollback (validateNodeJump cur (nextNodeOf o node)) = false ->
  In (nextNodeOf o node) webhookReachable.
Proof.
  intros Hin Hnode Hv. cbn in Hin.
  repeat (destruct Hin as [<- | Hin]);
    try contradiction;
    vm_compute in Hnode; try discriminate;
    injection Hnode as <-; destruct o;
    vm_compute in Hv; try discriminate;
    vm_compute; tauto.
Qed.

Lemma processTradeResult_loss_branch (cb : TradeResultCallback) (db : DB)
    (sid : string) (row : SessionRow) :
  sessions db !! sid = Some row ->
  In (current_node row) webhookReachable ->
  exists row',
    sessions (snd (processTradeResult handlerUndefined cb db)) !! sid = Some row'
    /\ In (current_node row') webhookReachable.
Proof.
  intros Hrow Hin.
  assert (Hinert : handler_inert handlerUndefined) by (intros ? ? ? ? ?; reflexivity).
  destruct (processTradeResult_cases handlerUndefined cb db Hinert)
    as [[_ ->] | (row0 & node & Hrow0 & _ & Hnode & Hv & Hend)];
    [eauto|].
  destruct Hv as [Hv | [db0 Hv]]; [|discriminate].
  destruct (String.eqb_spec (cb_session_id cb) sid) as [E|Hne].
  - subst sid. rewrite Hrow in Hrow0. injection Hrow0 as <-.
    destruct Hend as [(total & message & _ & ->) | (p & action & _ & ->)];
      cbn [snd].
    + rewrite (updated_same cb total row node db Hrow).
      eexists. split; [reflexivity|]. cbn [current_node].
      eapply loss_branch_closed; eauto.
    + destruct (committed_same cb p row node db Hrow) as [-> _].
      eexists. split; [reflexivity|]. cbn [current_node].
      eapply loss_branch_closed; eauto.
  - destruct Hend as [(total & message & _ & ->) | (p & action & _ & ->)];
      cbn [snd].
    + rewrite updated_other by exact Hne. eauto.
    + destruct (committed_other cb p row0 node db sid Hne) as [-> _]. eauto.
Qed.

(** X6.  With the exception handler as the repository has it (the
    method the webhook calls on it is not defined), a session that
    stands on the loss branch of the graph, "Start" included, stays
    on it whatever trade-result callbacks arrive: it is never moved to
    "WIN" or to any node that counts a win. *)
Theorem webhook_never_leaves_the_loss_branch
    (callbacks : list TradeResultCallback) (db : DB)
    (sid : string) (row : SessionRow) :
  sessions db !! sid = Some row ->
  In (current_node row) webhookReachable ->
  exists row',
    sessions (processAll handlerUndefined callbacks db) !! sid = Some row'
    /\ In (current_node row') webhookReachable
    /\ current_node row' <> "WIN".
Proof.
  revert db row. induction callbacks as [|cb rest IH]; intros db row Hrow Hin.
  - exists row. split; [exact Hrow|]. split; [exact Hin|].
    cbn in Hin.
    repeat (destruct Hin as [<- | Hin]); try contradiction; discriminate.
  - cbn [processAll].
    destruct (processTradeResult_loss_branch cb db sid row Hrow Hin)
      as (row1 & Hrow1 & Hin1).
    exact (IH _ row1 Hrow1 Hin1).
Qed.

Lemma webhook_never_leaves_the_loss_branch_witness :
  let db := createNewSession "ses_1" "BTCUSDT" "Start" (of_Z 100000) emptyDB in
  let callbacks :=
    [ mkCallback "t1" "ses_1" Win (of_Z 46000) (JNumber (of_Z 500))
        "target_reached" "d1";
      mkCallback "t2" "ses_1" Loss (of_Z 44500) (JNumber (of_Z (-650)))
        "stop_reached" "d2" ] in
  exists row',
    sessions (processAll handlerUndefined callbacks db) !! "ses_1" = Some row'
    /\ In (current_node row') webhookReachable
    /\ current_node row' <> "WIN".
Proof.
  apply (webhook_never_leaves_the_loss_branch
           [ mkCallback "t1" "ses_1" Win (of_Z 46000) (JNumber (of_Z 500))
               "target_reached" "d1";
             mkCallback "t2" "ses_1" Loss (of_Z 44500) (JNumber (of_Z (-650)))
               "stop_reached" "d2" ]
           (createNewSession "ses_1" "BTCUSDT" "Start" (of_Z 100000) emptyDB)
           "ses_1"
           (mkSession "ses_1" "Start" (of_Z 100000) (of_Z 100000) false "Start" "")).
  - reflexivity.
  - cbn. tauto.
Defined.

End SessionExtraFacts.
(* ===================================================================== *)
(** * The steps of a session: numbering and what each writer appends *)
(* ===================================================================== *)

Module StepFacts.

Import JsNum JsString DecisionTree NodeJump Store Session SessionNotions.

Lemma max_step_bound (p : StepRow -> bool) (steps : list StepRow) :
  match max_step p steps with
  | Some m => Forall (fun st => p st = true -> (step_number st <= m)%Z) steps
  | None => Forall (fun st => p st = false) steps
  end.
Proof.
  induction steps as [|st rest IH].
  - constructor.
  - unfold max_step in *. cbn [foldr].
    set (acc := foldr _ None rest) in *. clearbody acc. fold (max_step p rest) in *.
    destruct (p st) eqn:Hp.
    + destruct acc as [m|].
      * constructor; [intros _; lia|].
        eapply Forall_impl; [exact IH|]. cbn. intros x Hx Hpx.
        specialize (Hx Hpx). lia.
      * constructor; [intros _; lia|].
        eapply Forall_impl; [exact IH|]. cbn. intros x Hx Hpx. congruence.
    + destruct acc as [m|].
      * constructor; [congruence|exact IH].
      * constructor; [exact Hp|exact IH].
Qed.

(** The number that [COALESCE(MAX(step_number), 0) + 1] yields is above
    every number the session has. *)
Lemma sql_next_step_above (sid : string) (db : DB) :
  Forall (fun n => (n < sql_next_step sid db)%Z) (step_numbers sid db).
Proof.
  unfold step_numbers, steps_of, sql_next_step.
  pose proof (max_step_bound (of_session sid) (session_steps db)) as Hb.
  apply Forall_forall. intros n Hn.
  apply list_elem_of_In, in_map_iff in Hn as (st & <- & Hst).
  apply filter_In in Hst as [Hst Hp].
  destruct (max_step (of_session sid) (session_steps db)) as [m|]; cbn.
  - rewrite Forall_forall in Hb.
    specialize (Hb st (proj2 (list_elem_of_In _ _) Hst) Hp). lia.
  - rewrite Forall_forall in Hb.
    specialize (Hb st (proj2 (list_elem_of_In _ _) Hst)). cbn in Hb. congruence.
Qed.

Lemma next_step_above (sid : string) (db : DB) :
  Forall (fun n => (n < next_step sid db)%Z) (step_numbers sid db).
Proof.
  pose proof (sql_next_step_above sid db) as H. unfold next_step.
  destruct (sql_next_step sid db =? 0)%Z eqn:E; [|exact H].
  apply Z.eqb_eq in E. rewrite E in H.
  eapply Forall_impl; [exact H|]. cbn. intros; lia.
Qed.

Lemma increasing_snoc (numbers : list Z) (n : Z) :
  increasing numbers ->
  Forall (fun m => (m < n)%Z) numbers ->
  increasing (numbers ++ [n]).
Proof.
  induction numbers as [|m rest IH]; cbn; intros Hinc Hall.
  - split; constructor.
  - destruct Hinc as [Hm Hrest]. apply Forall_cons in Hall as [Hmn Hall].
    split; [|exact (IH Hrest Hall)].
    apply Forall_app. split; [exact Hm|]. constructor; [exact Hmn|constructor].
Qed.

Lemma step_numbers_insert_step (sid : string) (st : StepRow) (db : DB) :
  step_numbers sid (insert_step st db)
  = (step_numbers sid db
     ++ (if of_session sid st then [step_number st] else []))%list.
Proof.
  unfold step_numbers. rewrite SessionExtraFacts.steps_of_insert_step, map_app.
  destruct (of_session sid st); reflexivity.
Qed.

(** A step appended for session [s] with a number above all of the
    numbers of [s] keeps the numbers of every session increasing. *)
Lemma increasing_insert_step (sid : string) (st : StepRow) (db : DB) :
  Forall (fun m => (m < step_number st)%Z) (step_numbers (st_session_id st) db) ->
  increasing (step_numbers sid db) ->
  increasing (step_numbers sid (insert_step st db)).
Proof.
  intros Habove Hinc. rewrite step_numbers_insert_step.
  unfold of_session. destruct (String.eqb_spec (st_session_id st) sid) as [E|_].
  - apply increasing_snoc; [exact Hinc|]. rewrite <- E. exact Habove.
  - rewrite app_nil_r. exact Hinc.
Qed.

Lemma step_numbers_with_sessions (sid : string) f (db : DB) :
  step_numbers sid (with_sessions f db) = step_numbers sid db.
Proof. reflexivity. Qed.

Lemma step_numbers_with_signals (sid : string) f (db : DB) :
  step_numbers sid (with_signals f db) = step_numbers sid db.
Proof. reflexivity. Qed.

Lemma step_numbers_handlePartialFill (sid s : string) (o f : num) (db : DB) :
  step_numbers sid (Execution.handlePartialFill s o f db) = step_numbers sid db.
Proof.
  unfold Execution.handlePartialFill.
  destruct (max_step _ _) as [latest|]; [|reflexivity].
  unfold step_numbers, steps_of, with_steps. cbn [session_steps].
  induction (session_steps db) as [|st rest IH]; [reflexivity|].
  cbn [map List.filter].
  assert (Hs : of_session sid
                 (if Execution.is_execute_of s st && (step_number st =? latest)%Z
                  then mkStep (st_session_id st) (step_number st) (node_name st)
                         (action st) (Some f) (stake_result st)
                         (trade_result_actual st) (step_type st)
                         (execution_status st)
                  else st)
               = of_session sid st).
  { destruct (_ && _); reflexivity. }
  rewrite Hs. destruct (of_session sid st); [|exact IH].
  cbn [map]. rewrite IH. f_equal. destruct (_ && _); reflexivity.
Qed.

Lemma increasing_recordExecutionStep (sid s : string) (e : Execution.TradeExecution)
    (db : DB) :
  increasing (step_numbers sid db) ->
  increasing (step_numbers sid (Execution.recordExecutionStep s e db)).
Proof.
  intros H. unfold Execution.recordExecutionStep.
  apply increasing_insert_step; [|exact H]. cbn. apply next_step_above.
Qed.

(** The store that [executeTrade] leaves: the step of the returned
    execution, recorded on the store it was given or on that store after
    the partial-fill update. *)
Lemma attemptLoop_store (venue : Execution.Venue) (signal : Execution.ProcessedSignal)
    (remaining : nat) :
  forall attempt lastError slept db,
    let r := Execution.attemptLoop venue signal remaining attempt lastError slept db in
    exists base,
      Execution.store r
      = Execution.recordExecutionStep (Execution.ps_session_id signal)
          (Execution.execution r) base
      /\ (base = db
          \/ exists o f,
               base = Execution.handlePartialFill (Execution.ps_session_id signal)
                        o f db).
Proof.
  induction remaining as [|k IH]; intros attempt lastError slept db;
    cbv zeta; cbn [Execution.attemptLoop].
  - exists db. split; [reflexivity|auto].
  - destruct (Execution.attemptBody venue signal attempt db) as [[e db']|m] eqn:E.
    + apply ExecutionFacts.attemptBody_returns in E as (_ & _ & ->).
      cbn [Execution.store Execution.execution].
      destruct (Execution.partialFillOf signal e) as [[o f]|].
      * eexists. split; [reflexivity|]. right. eauto.
      * exists db. auto.
    + destruct (negb (Execution.isRetryableError m) || (attempt =? Execution.maxRetries)%nat).
      * exists db. split; [reflexivity|auto].
      * apply IH.
Qed.

Lemma increasing_executeRollback (sid s node : string) (db : DB) :
  increasing (step_numbers sid db) ->
  increasing (step_numbers sid (executeRollback s node db)).
Proof.
  intros H. unfold executeRollback.
  apply increasing_insert_step; [|exact H]. cbn [step_number st_session_id].
  apply (sql_next_step_above s (with_sessions _ db)).
Qed.

Lemma increasing_updateDecisionTreeNode (config : ExceptionHandlingConfig)
    (sid s : string) (res : TradeResult) (db : DB) :
  increasing (step_numbers sid db) ->
  increasing (step_numbers sid (updateDecisionTreeNode config s res db)).
Proof.
  intros H. unfold updateDecisionTreeNode.
  destruct (sessions db !! s) as [row|]; [|exact H].
  destruct (decisionTree !! current_node row) as [node|]; [|exact H].
  destruct (match tr_result res with Win => win node | Loss => loss node end)
    as [next|]; [|exact H].
  destruct (String.eqb next ""); [exact H|].
  destruct (negb (isValid (handlerValidateNodeJump config (current_node row) next))).
  - apply increasing_executeRollback, H.
  - cbv zeta. destruct (decisionTree !! next) as [nd|]; [|exact H].
    destruct (final nd); exact H.
Qed.

(** X7.  The step numbers of a session stay strictly increasing in
    the order in which its steps were inserted, hence no two steps of
    a session share a number: when operations run one after another,
    each of the writers - the trade-result webhook, the order
    execution with its partial-fill update, and the result monitor with
    its node update and rollback - preserves this for every session. *)
Theorem step_numbers_stay_increasing (sid : string) (db : DB) :
  increasing (step_numbers sid db) ->
  (forall handler cb,
      handler_inert handler ->
      increasing (step_numbers sid (snd (processTradeResult handler cb db))))
  /\ (forall venue signal,
        increasing
          (step_numbers sid (Execution.store (Execution.executeTrade venue signal db))))
  /\ (forall config execution price,
        increasing
          (step_numbers sid
             (snd (Execution.monitorTradeResult config execution price db)))).
Proof.
  intros Hinc. split; [|split].
  - intros handler cb Hinert.
    destruct (SessionExtraFacts.processTradeResult_cases handler cb db Hinert)
      as [[_ ->] | (row & node & _ & _ & _ & _ & Hend)]; [exact Hinc|].
    destruct Hend as [(total & message & _ & ->) | (p & action & _ & ->)];
      cbn [snd].
    + exact Hinc.
    + unfold committed, updatePathSummary. rewrite step_numbers_with_sessions.
      apply increasing_insert_step.
      * unfold resultStep. cbn [step_number st_session_id]. apply next_step_above.
      * exact Hinc.
  - intros venue signal. unfold Execution.executeTrade.
    destruct (attemptLoop_store venue signal Execution.maxRetries 1 None [] db)
      as (base & -> & Hbase).
    apply increasing_recordExecutionStep.
    destruct Hbase as [-> | (o & f & ->)]; [exact Hinc|].
    rewrite step_numbers_handlePartialFill. exact Hinc.
  - intros config execution price. unfold Execution.monitorTradeResult.
    destruct (Execution.status execution); [|exact Hinc].
    destruct (trade_signals db !! _) as [sig|]; [|exact Hinc].
    destruct (Execution.checkTargetStopReached sig price) as [res|]; [|exact Hinc].
    cbn [snd]. apply increasing_updateDecisionTreeNode.
    unfold Execution.recordResultStep. apply increasing_insert_step; [|exact Hinc].
    cbn [step_number st_session_id]. apply next_step_above.
Qed.

Lemma step_numbers_stay_increasing_witness :
  let db := Execution.signalledStore in
  (forall handler cb,
      handler_inert handler ->
      increasing (step_numbers "ses_1" (snd (processTradeResult handler cb db))))
  /\ (forall venue signal,
        increasing
          (step_numbers "ses_1"
             (Execution.store (Execution.executeTrade venue signal db))))
  /\ (forall config execution price,
        increasing
          (step_numbers "ses_1"
             (snd (Execution.monitorTradeResult config execution price db)))).
Proof.
  apply (step_numbers_stay_increasing "ses_1" Execution.signalledStore).
  vm_compute. split; constructor.
Defined.

End StepFacts.
(* ===================================================================== *)
(** * Order execution: parameter check and recorded steps *)
(* ===================================================================== *)

Module JsNumFacts.

Import JsNum.

(** Between numbers that are not NaN, [a <= b] fails exactly when
    [b < a]. *)
Lemma leb_false_ltb (a b : num) :
  isNaN a = false -> isNaN b = false ->
  (a <=? b)%js = negb (b <? a)%js.
Proof.
  destruct a, b; cbn; intros; try discriminate; try reflexivity.
  rewrite negb_involutive. reflexivity.
Qed.

Lemma ltb_not_nan (a b : num) :
  (a <? b)%js = true -> isNaN a = false /\ isNaN b = false.
Proof. destruct a, b; cbn; intros; try discriminate; auto. Qed.

Lemma positive_iff (a : num) :
  falsy a || (a <=? of_Z 0)%js = false <-> (of_Z 0 <? a)%js = true.
Proof.
  destruct a as [q| | |]; cbn; try (split; intros; discriminate); [|tauto].
  rewrite orb_false_iff, negb_true_iff.
  split; [tauto|]. intros H. split; [|exact H].
  destruct (Qeq_bool q 0) eqn:E; [|reflexivity].
  apply Qeq_bool_eq in E.
  assert (Hle : Qle_bool q (inject_Z 0) = true).
  { apply Qle_bool_iff. rewrite E. apply Qle_refl. }
  rewrite Hle in H. discriminate.
Qed.

Lemma Qeq_bool_red (q : Q) : Qeq_bool (Qred q) 0 = Qeq_bool q 0.
Proof.
  destruct (Qeq_bool q 0) eqn:E.
  - apply Qeq_bool_iff. rewrite Qred_correct. apply Qeq_bool_eq, E.
  - destruct (Qeq_bool (Qred q) 0) eqn:E'; [|reflexivity].
    apply Qeq_bool_eq in E'. rewrite Qred_correct in E'.
    apply Qeq_bool_iff in E'. congruence.
Qed.

Lemma scaled_inf_zero (q : Q) (positive : bool) :
  (q == 0)%Q -> scaled_inf q positive = NaN.
Proof.
  intros H. unfold scaled_inf.
  apply Qeq_alt in H. rewrite H. reflexivity.
Qed.

Lemma scaled_inf_cases (q : Q) (positive : bool) :
  scaled_inf q positive = NaN \/ scaled_inf q positive = PInf
  \/ scaled_inf q positive = NInf.
Proof. unfold scaled_inf. destruct (q ?= 0)%Q, positive; auto. Qed.

(** A quantity computed as [amount / price] and multiplied by the same
    price again is the amount: the relative deviation is not above
    1 percent.  [fallback] stands for the second reading of the price
    that the code uses when the first is falsy. *)
Lemma refill_deviation (amount price fallback : num) :
  (falsy price = true -> isNaN price = false ->
   fallback = price \/ fallback = NaN) ->
  falsy (amount / price)%js = false ->
  (abs ((amount / price) * (if falsy price then fallback else price) - amount)
   / amount >? Fin (1 # 100))%js = false.
Proof.
  intros Hfb Hq. unfold gtb.
  destruct price as [e| | |].
  - destruct (falsy (Fin e)) eqn:Fe.
    + (* a zero price *)
      cbn in Fe. destruct (Hfb eq_refl eq_refl) as [-> | ->].
      * destruct amount as [a| | |]; cbn in Hq |- *; rewrite ?Fe in *;
          try discriminate.
        -- destruct (scaled_inf_cases a true) as [H | [H | H]];
             rewrite H in *; try discriminate; cbn;
             rewrite (scaled_inf_zero e) by (apply Qeq_bool_eq, Fe);
             reflexivity.
        -- destruct (Qle_bool 0 e); cbn;
             rewrite (scaled_inf_zero e) by (apply Qeq_bool_eq, Fe);
             reflexivity.
        -- destruct (Qle_bool 0 e); cbn;
             rewrite (scaled_inf_zero e) by (apply Qeq_bool_eq, Fe);
             reflexivity.
      * destruct amount as [a| | |]; cbn in Hq |- *; rewrite ?Fe in *;
          try discriminate.
        -- destruct (scaled_inf_cases a true) as [H | [H | H]];
             rewrite H in *; try discriminate; reflexivity.
        -- destruct (Qle_bool 0 e); reflexivity.
        -- destruct (Qle_bool 0 e); reflexivity.
    + cbn in Fe.
      assert (He : ~ (e == 0)%Q).
      { intros H. apply Qeq_bool_iff in H. congruence. }
      destruct amount as [a| | |]; cbn in Hq |- *; rewrite ?Fe in *;
        try discriminate.
      * cbn in Hq. rewrite Qeq_bool_red in Hq.
        assert (Ha : ~ (a == 0)%Q).
        { intros H. assert (Hz : (a / e == 0)%Q) by (rewrite H; field; exact He).
          apply Qeq_bool_iff in Hz. congruence. }
        cbn.
        assert (Hzero : (Qred (Qabs (Qred (Qred (Qred (a / e) * e) + Qred (- a))))
                         == 0)%Q).
        { rewrite !Qred_correct.
          assert (Hd : (a / e * e + - a == 0)%Q) by (field; exact He).
          rewrite Hd. reflexivity. }
        destruct (Qeq_bool a 0) eqn:Ea.
        { apply Qeq_bool_eq in Ea. contradiction. }
        cbn. rewrite negb_false_iff. apply Qle_bool_iff.
        rewrite Qred_correct, Hzero. unfold Qdiv. rewrite Qmult_0_l.
        discriminate.
      * unfold scaled_inf.
        destruct (Qle_bool 0 e); cbn; unfold scaled_inf;
          destruct (e ?= 0)%Q eqn:C; try reflexivity.
      * unfold scaled_inf.
        destruct (Qle_bool 0 e); cbn; unfold scaled_inf;
          destruct (e ?= 0)%Q eqn:C; try reflexivity.
  - destruct amount; cbn in Hq; discriminate.
  - destruct amount; cbn in Hq; discriminate.
  - destruct amount; cbn in Hq; discriminate.
Qed.

(** The sign of [amount * ((hi - lo) / entry)] and of its negated
    counterpart, for a positive amount and entry. *)
Lemma profit_sign (a hi lo e : Q) :
  (0 < a)%Q -> (lo < hi)%Q -> (0 < e)%Q ->
  (of_Z 0 <? Fin a * ((Fin hi - Fin lo) / Fin e))%js = true
  /\ (neg (Fin a) * ((Fin hi - Fin lo) / Fin e) <? of_Z 0)%js = true.
Proof.
  intros Ha Hd He. unfold sub. cbn [neg add div].
  assert (E0 : Qeq_bool e 0 = false).
  { destruct (Qeq_bool e 0) eqn:E; [|reflexivity].
    apply Qeq_bool_eq in E. rewrite E in He. inversion He. }
  rewrite E0. cbn [mul ltb of_Z].
  assert (Hpos : (0 < (hi + - lo) / e)%Q).
  { apply Qlt_shift_div_l; [exact He|]. rewrite Qmult_0_l.
    rewrite <- (Qplus_opp_r lo). apply Qplus_lt_l. exact Hd. }
  split; rewrite negb_true_iff.
  - destruct (Qle_bool _ _) eqn:E; [|reflexivity].
    apply Qle_bool_iff in E. rewrite !Qred_correct in E.
    change (inject_Z 0) with 0%Q in E.
    assert (H : (0 < a * ((hi + - lo) / e))%Q)
      by (apply Qmult_lt_0_compat; assumption).
    exfalso. apply (Qlt_irrefl 0). eapply Qlt_le_trans; [exact H|exact E].
  - destruct (Qle_bool _ _) eqn:E; [|reflexivity].
    apply Qle_bool_iff in E. rewrite !Qred_correct in E.
    change (inject_Z 0) with 0%Q in E.
    assert (H : (0 < a * ((hi + - lo) / e))%Q)
      by (apply Qmult_lt_0_compat; assumption).
    exfalso. apply (Qlt_irrefl 0). eapply Qlt_le_trans; [exact H|].
    assert (Hn : (- a * ((hi + - lo) / e) == - (a * ((hi + - lo) / e)))%Q) by ring.
    rewrite Hn in E. apply Qopp_le_compat in E.
    rewrite Qopp_involutive in E. exact E.
Qed.

End JsNumFacts.

Module ExecutionExtraFacts.

Import JsNum JsString Store Execution SessionNotions.

Lemma app_nil_iff {A : Type} (l1 l2 : list A) :
  (l1 ++ l2)%list = [] <-> l1 = [] /\ l2 = [].
Proof.
  split; [apply app_eq_nil|]. intros [-> ->]. reflexivity.
Qed.

Lemma guard_nil_iff (b : bool) (x : string) :
  (if b then [x] else []) = [] <-> b = false.
Proof. destruct b; split; intros; try discriminate; reflexivity. Qed.

(** A signal without errors has three prices that [Number] reads. *)
Lemma valid_parameters_shape (signal : ProcessedSignal) :
  validateTradeParameters signal = [] ->
  not_a_price (ps_entry signal) = false
  /\ not_a_price (ps_target signal) = false
  /\ not_a_price (ps_stop signal) = false
  /\ (of_Z 0 <? trade_amount signal)%js = true.
Proof.
  unfold validateTradeParameters.
  rewrite !app_nil_iff, !guard_nil_iff, JsNumFacts.positive_iff. tauto.
Qed.

(** X8.  What the parameter check of [executeTrade] lets through.
    The check reports no error exactly when the three prices are
    non-empty texts that [Number] reads as numbers, the amount is above
    zero, and, for buy and long, stop < entry < target, for sell and
    short, target < entry < stop.  An action that is none of the four
    is not checked for the order of its prices and is not rejected. *)
Theorem valid_parameters_are_ordered (signal : ProcessedSignal) :
  let entry := jsNumber (ps_entry signal) in
  let target := jsNumber (ps_target signal) in
  let stop := jsNumber (ps_stop signal) in
  validateTradeParameters signal = [] <->
  (not_a_price (ps_entry signal) = false
   /\ not_a_price (ps_target signal) = false
   /\ not_a_price (ps_stop signal) = false
   /\ (of_Z 0 <? trade_amount signal)%js = true
   /\ (is_long (ps_action signal) = true ->
       (stop <? entry)%js = true /\ (entry <? target)%js = true)
   /\ (is_long (ps_action signal) = false ->
       is_short (ps_action signal) = true ->
       (target <? entry)%js = true /\ (entry <? stop)%js = true)).
Proof.
  intros entry target stop. unfold validateTradeParameters.
  fold entry target stop.
  rewrite !app_nil_iff, !guard_nil_iff, JsNumFacts.positive_iff.
  assert (Hnan : forall s, not_a_price s = false -> isNaN (jsNumber s) = false).
  { intros s H. unfold not_a_price in H. apply orb_false_iff in H. tauto. }
  split.
  - intros (He & Ht & Hs & Ha & Hact).
    pose proof (Hnan _ He) as Ne. pose proof (Hnan _ Ht) as Nt.
    pose proof (Hnan _ Hs) as Ns. fold entry in Ne. fold target in Nt.
    fold stop in Ns.
    refine (conj He (conj Ht (conj Hs (conj Ha (conj _ _))))).
    + intros Hl. rewrite Hl in Hact.
      apply app_nil_iff in Hact as [H1 H2].
      apply guard_nil_iff in H1, H2. unfold geb in H2.
      rewrite JsNumFacts.leb_false_ltb in H1, H2 by assumption.
      apply negb_false_iff in H1, H2. auto.
    + intros Hl Hsh. rewrite Hl, Hsh in Hact.
      apply app_nil_iff in Hact as [H1 H2].
      apply guard_nil_iff in H1, H2. unfold geb in H1.
      rewrite JsNumFacts.leb_false_ltb in H1, H2 by assumption.
      apply negb_false_iff in H1, H2. auto.
  - intros (He & Ht & Hs & Ha & Hlong & Hshort).
    pose proof (Hnan _ He) as Ne. pose proof (Hnan _ Ht) as Nt.
    pose proof (Hnan _ Hs) as Ns. fold entry in Ne. fold target in Nt.
    fold stop in Ns.
    repeat split; auto.
    destruct (is_long (ps_action signal)).
    + destruct (Hlong eq_refl) as [H1 H2].
      rewrite app_nil_iff, !guard_nil_iff. unfold geb.
      rewrite !JsNumFacts.leb_false_ltb by assumption.
      rewrite H1, H2. auto.
    + destruct (is_short (ps_action signal)); [|reflexivity].
      destruct (Hshort eq_refl eq_refl) as [H1 H2].
      rewrite app_nil_iff, !guard_nil_iff. unfold geb.
      rewrite !JsNumFacts.leb_false_ltb by assumption.
      rewrite H1, H2. auto.
Qed.

Lemma max_step_map (p : StepRow -> bool) (g : StepRow -> StepRow)
    (steps : list StepRow) :
  (forall st, p (g st) = p st) ->
  (forall st, step_number (g st) = step_number st) ->
  max_step p (map g steps) = max_step p steps.
Proof.
  intros Hp Hn. unfold max_step.
  induction steps as [|st rest IH]; [reflexivity|].
  cbn [map foldr]. rewrite IH, Hp, Hn. reflexivity.
Qed.

(** The partial-fill update changes the stake of steps and nothing
    else. *)
Lemma handlePartialFill_forgets (sid : string) (o f : num) (db : DB) :
  map forget_stake (session_steps (handlePartialFill sid o f db))
  = map forget_stake (session_steps db)
  /\ forall s, next_step s (handlePartialFill sid o f db) = next_step s db.
Proof.
  unfold handlePartialFill.
  destruct (max_step (is_execute_of sid) (session_steps db)) as [latest|];
    [|split; reflexivity].
  unfold with_steps. split.
  - cbn [session_steps]. rewrite map_map. apply map_ext.
    intros st. destruct (_ && _); reflexivity.
  - intros s. unfold next_step, sql_next_step. cbn [session_steps].
    rewrite max_step_map; [reflexivity| |];
      intros st; destruct (_ && _); reflexivity.
Qed.

(** The store a call of [executeTrade] leaves. *)
Lemma executeTrade_store_shape
    (venue : Venue) (signal : ProcessedSignal) (db : DB) :
  let r := executeTrade venue signal db in
  let sid := ps_session_id signal in
  sessions (store r) = sessions db
  /\ trade_signals (store r) = trade_signals db
  /\ exists older,
       session_steps (store r)
       = (older
          ++ [mkStep sid (next_step sid db) "EXECUTE"
                (Some (match status (execution r) with
                       | SUCCESS => "execute" | FAILED => "failed" end))
                (Some (of_Z 0)) None None "EXECUTE"
                (Some (status_string (status (execution r))))])%list
       /\ map forget_stake older = map forget_stake (session_steps db).
Proof.
  intros r sid. split; [apply WebhookFacts.executeTrade_sessions|].
  destruct (StepFacts.attemptLoop_store venue signal maxRetries 1 None [] db)
    as (base & Hstore & Hbase).
  fold (executeTrade venue signal db) in Hstore. fold r sid in Hstore.
  rewrite Hstore. unfold recordExecutionStep, insert_step, with_steps.
  cbn [trade_signals session_steps].
  destruct Hbase as [-> | (o & f & ->)].
  - split; [reflexivity|]. exists (session_steps db). auto.
  - destruct (handlePartialFill_forgets (ps_session_id signal) o f db)
      as [Hforget Hnext].
    split; [apply ExecutionFacts.handlePartialFill_keeps_rows|].
    eexists. split; [|exact Hforget].
    fold sid. rewrite Hnext. reflexivity.
Qed.

(** X9.  Whatever the venue does, and however many attempts are
    made, a call of [executeTrade] appends exactly one step to the
    session's history: an EXECUTE step that carries the status of the
    execution returned, the next free step number and a stake of 0.
    Attempts that are retried leave no step.  The steps that existed
    keep everything but, possibly, their stake, and neither the
    sessions nor the stored trade signals are touched. *)
Theorem executeTrade_records_one_step
    (venue : Venue) (signal : ProcessedSignal) (db : DB) :
  let r := executeTrade venue signal db in
  let sid := ps_session_id signal in
  sessions (store r) = sessions db
  /\ trade_signals (store r) = trade_signals db
  /\ exists older,
       session_steps (store r)
       = (older
          ++ [mkStep sid (next_step sid db) "EXECUTE"
                (Some (match status (execution r) with
                       | SUCCESS => "execute" | FAILED => "failed" end))
                (Some (of_Z 0)) None None "EXECUTE"
                (Some (status_string (status (execution r))))])%list
       /\ map forget_stake older = map forget_stake (session_steps db).
Proof. exact (executeTrade_store_shape venue signal db). Qed.

Lemma skip_ws_idempotent (s : string) : skip_ws (skip_ws s) = skip_ws s.
Proof.
  induction s as [|c r IH]; [reflexivity|].
  cbn [skip_ws]. destruct (is_space c) eqn:E; [exact IH|].
  cbn [skip_ws]. rewrite E. reflexivity.
Qed.

Lemma parseFloat_skip_ws (s : string) : parseFloat (skip_ws s) = parseFloat s.
Proof. unfold parseFloat. rewrite skip_ws_idempotent. reflexivity. Qed.

(** [Number(s)] and [parseFloat(s)] agree wherever the first is a
    number, except on white space, which the first reads as 0 and the
    second as NaN. *)
Lemma jsNumber_parseFloat (s : string) :
  jsNumber s = NaN
  \/ jsNumber s = parseFloat s
  \/ (jsNumber s = of_Z 0 /\ parseFloat s = NaN).
Proof.
  unfold jsNumber. cbv zeta.
  destruct (String.eqb (skip_ws s) "") eqn:E.
  - right. right. split; [reflexivity|].
    apply String.eqb_eq in E. unfold parseFloat. rewrite E. reflexivity.
  - destruct (read_sign (skip_ws s)) as [negative s1].
    match goal with
    | |- context [if ?c then parseFloat _ else NaN] => destruct c
    end; [|auto].
    right. left. apply parseFloat_skip_ws.
Qed.

(** The answer of a built-in platform is never taken for a partial
    fill. *)
Lemma platform_fill_is_full (platform : Platform.PlatformName) (random : num)
    (now : string) (signal : ProcessedSignal) :
  partialFillOf signal
    (Platform.executeTradeWithTimeout platform random now
       (prepareExecutionData signal))
  = None.
Proof.
  assert (Hfull : forall id,
    partialFillOf signal
      {| ex_trade_id := ps_trade_id signal;
         ex_session_id := ps_session_id signal;
         status := SUCCESS;
         ex_error := None;
         platform_order_id := id;
         actual_entry_price := Some (jsNumber (ps_entry signal));
         actual_quantity := Some (trade_amount signal / jsNumber (ps_entry signal))%js |}
    = None).
  { intros id. unfold partialFillOf.
    cbn [status actual_quantity actual_entry_price].
    destruct (falsy (trade_amount signal / jsNumber (ps_entry signal))%js) eqn:Hq;
      [reflexivity|].
    unfold opt_num_or.
    rewrite JsNumFacts.refill_deviation; [reflexivity| |exact Hq].
    intros Hf Hn.
    destruct (jsNumber_parseFloat (ps_entry signal)) as [H | [H | [H1 H2]]].
    - rewrite H in Hn. discriminate.
    - left. symmetry. exact H.
    - right. exact H2. }
  destruct platform; cbn [Platform.executeTradeWithTimeout];
    unfold Platform.executeBinanceTrade, Platform.executeMTTrade,
      Platform.executeDemoTrade, prepareExecutionData;
    cbn [ed_trade_id ed_session_id ed_entry_price quantity];
    try apply Hfull.
  destruct (_ >? _)%js; [apply Hfull | reflexivity].
Qed.

(** The text of a failed parameter check is not taken for a transient
    error. *)
Lemma validation_error_not_retryable (signal : ProcessedSignal) :
  isRetryableError
    ("Invalid trade parameters: " ++ join ", " (validateTradeParameters signal))
  = false.
Proof.
  unfold validateTradeParameters.
  destruct (not_a_price (ps_entry signal)), (not_a_price (ps_target signal)),
    (not_a_price (ps_stop signal)),
    (falsy (trade_amount signal) || (trade_amount signal <=? of_Z 0)%js),
    (is_long (ps_action signal)), (is_short (ps_action signal)),
    (jsNumber (ps_target signal) <=? jsNumber (ps_entry signal))%js,
    (jsNumber (ps_stop signal) >=? jsNumber (ps_entry signal))%js,
    (jsNumber (ps_target signal) >=? jsNumber (ps_entry signal))%js,
    (jsNumber (ps_stop signal) <=? jsNumber (ps_entry signal))%js;
    vm_compute; reflexivity.
Qed.

(** X10.  With a built-in platform (Binance, MT4, MT5 or the demo
    venue with its simulated failures), [executeTrade] makes a single
    attempt and never waits: the platform answers rather than throws, a
    simulated failure of the demo venue comes back as a FAILED
    execution and is not retried, and a failed parameter check is not
    retried either.  The answer is never taken for a partial fill, so
    the steps that existed stay as they are and one EXECUTE step is
    appended. *)
Theorem builtin_platform_single_attempt
    (platform : Platform.PlatformName) (random : nat -> num) (now : nat -> string)
    (signal : ProcessedSignal) (db : DB) :
  let r := executeTrade (Platform.platformVenue platform random now) signal db in
  attempts r = 1%nat
  /\ waits r = []
  /\ (validateTradeParameters signal = [] ->
      execution r
      = Platform.executeTradeWithTimeout platform (random 1%nat) (now 1%nat)
          (prepareExecutionData signal))
  /\ (validateTradeParameters signal <> [] -> status (execution r) = FAILED)
  /\ store r = recordExecutionStep (ps_session_id signal) (execution r) db.
Proof.
  unfold executeTrade, maxRetries. cbn [attemptLoop].
  unfold attemptBody.
  pose proof (validation_error_not_retryable signal) as Hnr.
  destruct (validateTradeParameters signal) as [|e errors].
  - unfold Platform.platformVenue.
    cbn [attempts waits execution store].
    rewrite platform_fill_is_full.
    repeat split; auto. congruence.
  - rewrite Hnr. cbn. repeat split; auto. discriminate.
Qed.

Lemma Qle_bool_false (x y : Q) : Qle_bool x y = false -> (y < x)%Q.
Proof.
  intros H. apply Qnot_le_lt. intros Hle.
  apply Qle_bool_iff in Hle. congruence.
Qed.

(** X11.  The result the monitor computes for a trade whose prices
    are ordered as the parameter check demands (buy and long:
    stop < entry < target; every other action is treated as a sale:
    target < entry < stop), with a positive entry price and amount.
    The trade is a win with a profit above zero exactly when the price
    has reached the target, a loss with a result below zero exactly
    when it has reached the stop, and undecided in between.  The exit
    price reported is the target or the stop, not the price observed. *)
Theorem monitor_result_sign (tradeSignal : SignalRow) (e t s a p : Q) :
  entry_price tradeSignal = Fin e ->
  target_price tradeSignal = Fin t ->
  stop_price tradeSignal = Fin s ->
  ts_trade_amount tradeSignal = Fin a ->
  (0 < e)%Q -> (0 < a)%Q ->
  (if is_long (ts_action tradeSignal)
   then (s < e)%Q /\ (e < t)%Q else (t < e)%Q /\ (e < s)%Q) ->
  match checkTargetStopReached tradeSignal (Fin p) with
  | Some r =>
      Session.tr_trade_id r = ts_trade_id tradeSignal
      /\ Session.tr_session_id r = ts_session_id tradeSignal
      /\ ((Session.tr_result r = Session.Win
           /\ Session.tr_exit_price r = Fin t
           /\ (of_Z 0 <? Session.tr_profit_loss r)%js = true
           /\ (if is_long (ts_action tradeSignal) then (t <= p)%Q else (p <= t)%Q))
          \/ (Session.tr_result r = Session.Loss
              /\ Session.tr_exit_price r = Fin s
              /\ (Session.tr_profit_loss r <? of_Z 0)%js = true
              /\ (if is_long (ts_action tradeSignal)
                  then (p <= s)%Q else (s <= p)%Q)))
  | None =>
      if is_long (ts_action tradeSignal)
      then (s < p)%Q /\ (p < t)%Q else (t < p)%Q /\ (p < s)%Q
  end.
Proof.
  intros He Ht Hs Ha Epos Apos Hord. unfold checkTargetStopReached.
  rewrite He, Ht, Hs, Ha. unfold geb. cbn [leb].
  destruct (is_long (ts_action tradeSignal)); destruct Hord as [H1 H2].
  - destruct (Qle_bool t p) eqn:Ct.
    + cbn. split; [reflexivity|]. split; [reflexivity|]. left.
      repeat split; [apply (JsNumFacts.profit_sign a t e e); assumption|].
      apply Qle_bool_iff, Ct.
    + destruct (Qle_bool p s) eqn:Cs.
      * cbn. split; [reflexivity|]. split; [reflexivity|]. right.
        repeat split; [apply (JsNumFacts.profit_sign a e s e); assumption|].
        apply Qle_bool_iff, Cs.
      * split; apply Qle_bool_false; assumption.
  - destruct (Qle_bool p t) eqn:Ct.
    + cbn. split; [reflexivity|]. split; [reflexivity|]. left.
      repeat split; [apply (JsNumFacts.profit_sign a e t e); assumption|].
      apply Qle_bool_iff, Ct.
    + destruct (Qle_bool s p) eqn:Cs.
      * cbn. split; [reflexivity|]. split; [reflexivity|]. right.
        repeat split; [apply (JsNumFacts.profit_sign a s e e); assumption|].
        apply Qle_bool_iff, Cs.
      * split; apply Qle_bool_false; assumption.
Qed.

Lemma monitor_result_sign_witness :
  let tradeSignal :=
    mkSignalRow "ses_1" "20250719-000042" "BTCUSDT" "buy"
      (of_Z 100) (of_Z 110) (of_Z 95) (of_Z 1000) "Start" in
  match checkTargetStopReached tradeSignal (Fin 111) with
  | Some r =>
      Session.tr_trade_id r = ts_trade_id tradeSignal
      /\ Session.tr_session_id r = ts_session_id tradeSignal
      /\ ((Session.tr_result r = Session.Win
           /\ Session.tr_exit_price r = Fin 110
           /\ (of_Z 0 <? Session.tr_profit_loss r)%js = true
           /\ (if is_long (ts_action tradeSignal)
               then (110 <= 111)%Q else (111 <= 110)%Q))
          \/ (Session.tr_result r = Session.Loss
              /\ Session.tr_exit_price r = Fin 95
              /\ (Session.tr_profit_loss r <? of_Z 0)%js = true
              /\ (if is_long (ts_action tradeSignal)
                  then (111 <= 95)%Q else (95 <= 111)%Q)))
  | None =>
      if is_long (ts_action tradeSignal)
      then (95 < 111)%Q /\ (111 < 110)%Q else (110 < 111)%Q /\ (111 < 95)%Q
  end.
Proof.
  apply (monitor_result_sign
           (mkSignalRow "ses_1" "20250719-000042" "BTCUSDT" "buy"
              (of_Z 100) (of_Z 110) (of_Z 95) (of_Z 1000) "Start")
           100 110 95 1000 111);
    try reflexivity.
  vm_compute. split; reflexivity.
Defined.

End ExecutionExtraFacts.
(* ===================================================================== *)
(** * The trade-signal webhook: balance refresh *)
(* ===================================================================== *)

Module BalanceFacts.

Import JsNum JsString Store Webhook.

(** A balance compared with itself shows no change above 5 percent. *)
Lemma no_change_against_itself (b : num) :
  ((abs (b - b) / b) * of_Z 100 >? of_Z 5)%js = false.
Proof.
  unfold gtb, sub. destruct b as [q| | |]; try reflexivity.
  cbn [neg add abs div].
  assert (Hz : (Qred (Qabs (Qred (q + Qred (- q)))) == 0)%Q).
  { rewrite !Qred_correct.
    assert (H : (q + - q == 0)%Q) by ring. rewrite H. reflexivity. }
  destruct (Qeq_bool q 0).
  - rewrite (JsNumFacts.scaled_inf_zero _ true Hz). reflexivity.
  - cbn. rewrite negb_false_iff. apply Qle_bool_iff.
    rewrite !Qred_correct.
    assert (H : (q + - q == 0)%Q) by ring. rewrite H. discriminate.
Qed.

(** X12.  Refreshing the balance of a session is idempotent: a
    second refresh with the same balance changes nothing, because the
    5 percent threshold is measured against the amount the first refresh
    stored.  A refresh changes at most the initial amount of the one
    session: its node, its running total and its completion flag, every
    other session, the steps and the trade signals stay as they are. *)
Theorem balance_refresh_is_idempotent (sid : string) (balance : num) (db : DB) :
  updateSessionBalance sid balance (updateSessionBalance sid balance db)
  = updateSessionBalance sid balance db
  /\ session_steps (updateSessionBalance sid balance db) = session_steps db
  /\ trade_signals (updateSessionBalance sid balance db) = trade_signals db
  /\ (forall other,
        other <> sid ->
        sessions (updateSessionBalance sid balance db) !! other
        = sessions db !! other)
  /\ (forall row,
        sessions db !! sid = Some row ->
        exists amount,
          sessions (updateSessionBalance sid balance db) !! sid
          = Some (mkSession (s_session_id row) (current_node row) amount
                    (final_total row) (is_completed row) (path_summary row)
                    (s_result row))
          /\ (amount = initial_amount row \/ amount = balance)).
Proof.
  destruct (sessions db !! sid) as [row|] eqn:Hrow.
  2:{ assert (Hsame : updateSessionBalance sid balance db = db)
        by (unfold updateSessionBalance; rewrite Hrow; reflexivity).
      rewrite !Hsame. repeat split; auto. intros row H. discriminate. }
  destruct ((abs (balance - initial_amount row) / initial_amount row * of_Z 100
             >? of_Z 5)%js) eqn:Hchange.
  - assert (Hnew : updateSessionBalance sid balance db
                   = with_sessions
                       (alter (fun r =>
                                 mkSession (s_session_id r) (current_node r) balance
                                   (final_total r) (is_completed r) (path_summary r)
                                   (s_result r)) sid) db)
      by (unfold updateSessionBalance; rewrite Hrow; cbv zeta; rewrite Hchange;
          reflexivity).
    rewrite !Hnew. clear Hnew. split.
    + unfold updateSessionBalance, with_sessions.
      cbn [sessions].
      destruct (alter _ sid (sessions db) !! sid) as [row'|] eqn:E;
        [|reflexivity].
      rewrite lookup_alter_eq, Hrow in E. injection E as <-.
      cbn [initial_amount]. rewrite no_change_against_itself. reflexivity.
    + split; [reflexivity|]. split; [reflexivity|]. split.
      * intros other Hne. unfold with_sessions. cbn [sessions].
        apply lookup_alter_ne. congruence.
      * intros row' [= <-]. exists balance. split; [|auto].
        unfold with_sessions. cbn [sessions].
        rewrite lookup_alter_eq, Hrow. reflexivity.
  - assert (Hsame : updateSessionBalance sid balance db = db)
      by (unfold updateSessionBalance; rewrite Hrow; cbv zeta; rewrite Hchange;
          reflexivity).
    rewrite !Hsame. repeat split; auto. intros row' [= <-].
    exists (initial_amount row). split; [|auto]. rewrite Hrow.
    destruct row; reflexivity.
Qed.

End BalanceFacts.
(* ===================================================================== *)
(** * The overnight manager: what it remembers *)
(* ===================================================================== *)

Module OvernightExtraFacts.

Import JsNum Store Overnight OvernightRoute.

Lemma checkOvernightTrades_world (now : Z) (w : World) :
  fst (checkOvernightTrades now w) = w.
Proof. unfold checkOvernightTrades. apply (OvernightFacts.scan_keeps_world now _ (w, [])). Qed.

Lemma call_keeps_entries (c : Call) (w : World) (tradeId : string) :
  is_Some (getTradeStatus tradeId w) ->
  is_Some (getTradeStatus tradeId (call c w)).
Proof.
  unfold getTradeStatus. intros H.
  destruct c as [rowTime entryTime id sid sym e t s a node enabled previous
                | id reason | now | | act id enabled | id]; cbn [call].
  - rewrite (proj2 (OvernightFacts.registerTrade_refused _ _ _ _ _ _ _ _ _ _ _ _ _)).
    exact H.
  - unfold manualClose. destruct (activeTrades w !! id); [|exact H].
    cbn [snd activeTrades]. apply lookup_insert_is_Some'. auto.
  - rewrite checkOvernightTrades_world. exact H.
  - cbn [loadActiveTrades activeTrades]. apply lookup_union_is_Some. auto.
  - unfold POST. destruct (String.eqb id ""); [exact H|].
    destruct (String.eqb act "close").
    + unfold manualClose. destruct (activeTrades w !! id); [|exact H].
      cbn [snd activeTrades]. apply lookup_insert_is_Some'. auto.
    + destruct (String.eqb act "update_settings"); [|exact H].
      destruct enabled; [|exact H].
      cbn [snd activeTrades]. apply lookup_alter_is_Some. exact H.
  - unfold DELETE. destruct (String.eqb id ""); [exact H|].
    destruct (overnight_trades w !! id); exact H.
Qed.

(** X13.  The overnight manager never forgets a trade while the
    process runs: whatever calls follow - registrations, manual closes,
    scans, loads, and the POST and DELETE requests of the route - a
    trade id that has an in-memory entry keeps one.  In particular
    DELETE, which removes the row of the table, leaves the in-memory
    entry and its status as they are. *)
Theorem manager_never_forgets (cs : list Call) (w : World) (tradeId : string) :
  is_Some (getTradeStatus tradeId w) ->
  is_Some (getTradeStatus tradeId (calls cs w))
  /\ getTradeStatus tradeId (snd (DELETE tradeId w)) = getTradeStatus tradeId w
  /\ getActiveTrades (snd (DELETE tradeId w)) = getActiveTrades w.
Proof.
  intros H. split.
  - revert w H. unfold calls. induction cs as [|c cs IH]; intros w H; [exact H|].
    cbn [foldl]. apply IH, call_keeps_entries, H.
  - unfold DELETE. destruct (String.eqb tradeId ""); [auto|].
    destruct (overnight_trades w !! tradeId); auto.
Qed.

Lemma manager_never_forgets_witness :
  is_Some
    (getTradeStatus "20250719-000042"
       (calls [CallDELETE "20250719-000042"; CallCheck (27 * hour);
               CallManualClose "20250719-000042" "manual_close"; CallLoad]
          nightWorld))
  /\ getTradeStatus "20250719-000042" (snd (DELETE "20250719-000042" nightWorld))
     = getTradeStatus "20250719-000042" nightWorld
  /\ getActiveTrades (snd (DELETE "20250719-000042" nightWorld))
     = getActiveTrades nightWorld.
Proof.
  apply (manager_never_forgets
           [CallDELETE "20250719-000042"; CallCheck (27 * hour);
            CallManualClose "20250719-000042" "manual_close"; CallLoad]
           nightWorld "20250719-000042").
  vm_compute. eauto.
Defined.

Lemma elem_of_getActiveTrades (t : TradeStatus) (w : World) :
  t ∈ getActiveTrades w
  <-> is_active t = true /\ exists tradeId, activeTrades w !! tradeId = Some t.
Proof.
  unfold getActiveTrades. rewrite list_elem_of_filter, list_elem_of_fmap.
  split.
  - intros [Ha ([k v] & -> & Hin)]. apply elem_of_map_to_list in Hin. eauto.
  - intros [Ha (k & Hk)]. split; [exact Ha|].
    exists (k, t). split; [reflexivity|]. apply elem_of_map_to_list, Hk.
Qed.

(** X14.  Closing a trade by hand.  For a trade id without in-memory
    entry, [manualClose] answers false and changes nothing, whatever the
    table holds.  For an id with an entry - active or already closed -
    it answers true: the entry becomes closed and keeps its other
    fields, the row of the table, if there is one, becomes closed with
    the reason given, no other trade is touched in memory or in the
    table, and the trades listed as active are those that were, without
    this one.  Closing the same trade again succeeds again, and the
    route answers 200 for it. *)
Theorem manual_close_lifecycle (tradeId reason : string) (w : World) :
  let w' := snd (manualClose tradeId reason w) in
  match getTradeStatus tradeId w with
  | None => manualClose tradeId reason w = (false, w)
  | Some trade =>
      fst (manualClose tradeId reason w) = true
      /\ getTradeStatus tradeId w'
         = Some (mkTradeStatus (trade_id trade) closed (overnightCloseEnabled trade)
                   (entry_time trade) (symbol trade) (current_node trade))
      /\ (ot_status <$> overnight_trades w' !! tradeId)
         = (fun _ => closed) <$> overnight_trades w !! tradeId
      /\ (close_reason <$> overnight_trades w' !! tradeId)
         = (fun _ => Some reason) <$> overnight_trades w !! tradeId
      /\ (forall other,
            other <> tradeId ->
            getTradeStatus other w' = getTradeStatus other w
            /\ overnight_trades w' !! other = overnight_trades w !! other)
      /\ (forall t,
            t ∈ getActiveTrades w'
            <-> is_active t = true
                /\ exists other,
                     other <> tradeId /\ activeTrades w !! other = Some t)
      /\ db w' = db w
      /\ (forall again, fst (manualClose tradeId again w') = true)
      /\ (tradeId <> "" ->
          forall flag, fst (POST "close" tradeId flag w') = Ok200)
  end.
Proof.
  intros w'. unfold getTradeStatus.
  destruct (activeTrades w !! tradeId) as [trade|] eqn:Hmem.
  2:{ unfold manualClose. rewrite Hmem. reflexivity. }
  assert (Hw' : w' = mkWorld (db w)
                       (alter (fun row =>
                                 mkOvernightTrade (ot_trade_id row) (ot_session_id row)
                                   (ot_symbol row) (ot_entry_price row)
                                   (ot_target_price row) (ot_stop_price row)
                                   (ot_trade_amount row) (ot_current_node row)
                                   (previous_node row) (ot_entry_time row)
                                   (overnight_close_enabled row) closed (Some reason))
                              tradeId (overnight_trades w))
                       (<[tradeId := mkTradeStatus (trade_id trade) closed
                                       (overnightCloseEnabled trade) (entry_time trade)
                                       (symbol trade) (current_node trade)]>
                          (activeTrades w))).
  { unfold w', manualClose. rewrite Hmem. reflexivity. }
  assert (Hagain : forall again, fst (manualClose tradeId again w') = true).
  { intros again. unfold manualClose. rewrite Hw'. cbn [activeTrades].
    rewrite lookup_insert_eq. reflexivity. }
  split; [unfold manualClose; rewrite Hmem; reflexivity|].
  split; [rewrite Hw'; cbn [activeTrades]; apply lookup_insert_eq|].
  split.
  { rewrite Hw'. cbn [overnight_trades]. rewrite lookup_alter_eq.
    destruct (overnight_trades w !! tradeId); reflexivity. }
  split.
  { rewrite Hw'. cbn [overnight_trades]. rewrite lookup_alter_eq.
    destruct (overnight_trades w !! tradeId); reflexivity. }
  split.
  { intros other Hne. rewrite Hw'. cbn [activeTrades overnight_trades]. split.
    - apply lookup_insert_ne. congruence.
    - apply lookup_alter_ne. congruence. }
  split.
  { intros t. rewrite elem_of_getActiveTrades. rewrite Hw'. cbn [activeTrades].
    split.
    - intros [Ha (k & Hk)]. split; [exact Ha|].
      destruct (decide (k = tradeId)) as [->|Hne].
      + rewrite lookup_insert_eq in Hk. injection Hk as <-. discriminate.
      + rewrite lookup_insert_ne in Hk by congruence. eauto.
    - intros [Ha (k & Hne & Hk)]. split; [exact Ha|].
      exists k. rewrite lookup_insert_ne by congruence. exact Hk. }
  split; [rewrite Hw'; reflexivity|].
  split; [exact Hagain|].
  intros Hid flag. unfold POST.
  destruct (String.eqb_spec tradeId "") as [E|_]; [contradiction|].
  cbn [String.eqb Ascii.eqb Bool.eqb].
  pose proof (Hagain "manual_close") as H.
  destruct (manualClose tradeId "manual_close" w') as [ok w'']. cbn in H.
  rewrite H. reflexivity.
Qed.

Lemma restart_lookup (tradeId : string) (w : World) :
  getTradeStatus tradeId (restart w)
  = match overnight_trades w !! tradeId with
    | Some row =>
        if row_is_active row
        then Some (mkTradeStatus tradeId active (overnight_close_enabled row)
                     (ot_entry_time row) (ot_symbol row) (ot_current_node row))
        else None
    | None => None
    end.
Proof.
  unfold getTradeStatus, restart, loadActiveTrades. cbn [activeTrades overnight_trades].
  rewrite lookup_union, lookup_empty, map_lookup_imap.
  destruct (overnight_trades w !! tradeId) as [row|]; [|reflexivity].
  cbn. unfold row_is_active. destruct (ot_status row); reflexivity.
Qed.

(** X15.  What a restart of the process restores from the table:
    the rows whose status is active, and nothing else.  After a restart
    the entry of a trade id is the one its active row gives - entry
    time, symbol, node and overnight flag of the row - and a trade id
    without active row has no entry, whatever the process held before.
    A trade closed by hand is not restored.  A trade deleted through
    the route is gone after a restart although the running process
    still holds it.  A call of [registerTrade] adds nothing that could
    be restored: with the table as the script of the repository creates
    it, the INSERT is refused, the method answers false and leaves the
    table and the in-memory map as they were. *)
Theorem restart_restores_active_rows (w : World) (tradeId : string) :
  getTradeStatus tradeId (restart w)
  = match overnight_trades w !! tradeId with
    | Some row =>
        if row_is_active row
        then Some (mkTradeStatus tradeId active (overnight_close_enabled row)
                     (ot_entry_time row) (ot_symbol row) (ot_current_node row))
        else None
    | None => None
    end
  /\ (forall reason,
        is_Some (getTradeStatus tradeId w) ->
        getTradeStatus tradeId (restart (snd (manualClose tradeId reason w))) = None)
  /\ (tradeId <> "" ->
      getTradeStatus tradeId (restart (snd (DELETE tradeId w))) = None
      /\ getTradeStatus tradeId (snd (DELETE tradeId w)) = getTradeStatus tradeId w)
  /\ (forall rowTime entryTime sessionId sym e t s a node enabled previous,
        registerTrade rowTime entryTime tradeId sessionId sym e t s a node enabled
          previous w
        = (false, w)).
Proof.
  split; [apply restart_lookup|]. split; [|split].
  - intros reason [trade Hmem]. rewrite restart_lookup.
    unfold getTradeStatus in Hmem. unfold manualClose. rewrite Hmem.
    cbn [snd overnight_trades]. rewrite lookup_alter_eq.
    destruct (overnight_trades w !! tradeId); reflexivity.
  - intros Hid. rewrite restart_lookup. unfold DELETE.
    destruct (String.eqb_spec tradeId "") as [E|_]; [contradiction|].
    destruct (overnight_trades w !! tradeId) as [row|] eqn:Hrow.
    + cbn [snd overnight_trades]. rewrite lookup_delete_eq. auto.
    + cbn [snd]. rewrite Hrow. auto.
  - intros. apply OvernightFacts.registerTrade_refused.
Qed.

(** The reference scenario: the trade that the process loaded is found
    again after a restart; closed by hand or deleted through the route,
    it is not. *)
Example restart_of_the_night_world :
  getTradeStatus "20250719-000042" (restart nightWorld)
  = Some (mkTradeStatus "20250719-000042" active true 0 "BTCUSDT" "0-1")
  /\ getTradeStatus "20250719-000042"
       (restart (snd (manualClose "20250719-000042" "manual_close" nightWorld)))
     = None
  /\ getTradeStatus "20250719-000042"
       (restart (snd (DELETE "20250719-000042" nightWorld)))
     = None
  /\ is_Some (getTradeStatus "20250719-000042"
                (snd (DELETE "20250719-000042" nightWorld))).
Proof. vm_compute. repeat split; eauto. Qed.

End OvernightExtraFacts.
(* ===================================================================== *)
(** * Broker costs: commission, limits and the cost cache *)
(* ===================================================================== *)

Module BrokerCostExtraFacts.

Import JsNum BrokerCost CostConditions.

(** [Math.min(a, b)] is never above [b]. *)
Lemma min_not_above (a b : num) : (min a b >? b)%js = false.
Proof.
  unfold gtb.
  destruct a as [x| | |], b as [y| | |]; cbn; try reflexivity.
  - destruct (Qle_bool x y) eqn:E; cbn; rewrite negb_false_iff.
    + exact E.
    + apply Qle_bool_iff, Qle_refl.
  - rewrite negb_false_iff. apply Qle_bool_iff, Qle_refl.
Qed.

Lemma min_leb_r (a b : num) : isNaN (min a b) = false -> (min a b <=? b)%js = true.
Proof.
  intros H. destruct (BrokerCostFacts.min_le_r a b) as [E|E]; [|exact E].
  rewrite E in H. discriminate.
Qed.

(** X16.  A cost calculation always resolves, and the error
    "required stake exceeds maximum allowed" is never among its errors:
    the stake it settles on is the smaller of the required stake and the
    maximum, so the only error it can report is the spread limit of the
    cost data.  The stake is NaN or at most the maximum, which is NaN or
    at most a tenth of the nominal amount; the total costs reported are
    the sum of the three cost items at that stake. *)
Theorem stake_error_is_never_reported
    (config : BrokerCostConfig) (costData : RealTimeCostData)
    (nominal entryPrice targetPrice stopPrice targetNetProfit : num) :
  exists r,
    calculateTradeCosts config costData nominal entryPrice targetPrice stopPrice
      targetNetProfit = Resolved r
    /\ v_errors r
       = (if isWithinLimits costData then []
          else [SpreadExceedsLimit (currentSpread costData) (maxAllowedSpread config)])
    /\ (isNaN (netAmount r) = false ->
        (netAmount r <=? ra_maxAllowedStake r)%js = true
        /\ v_isWithinLimits r = isWithinLimits costData)
    /\ (isNaN (ra_maxAllowedStake r) = false ->
        (ra_maxAllowedStake r <=? nominal * dec 1 10)%js = true)
    /\ ra_adjustedStake r = netAmount r
    /\ totalCosts r = (commission r + spreadCost r + swapCost r)%js
    /\ commission r = calculateCommission config (netAmount r) entryPrice
    /\ spreadCost r
       = calculateSpreadCost (netAmount r) (currentSpread costData) entryPrice
    /\ swapCost r = calculateSwapCost config (netAmount r) entryPrice (of_Z 1).
Proof.
  eexists. split; [reflexivity|].
  cbn [v_errors netAmount ra_maxAllowedStake v_isWithinLimits ra_adjustedStake
       totalCosts commission spreadCost swapCost].
  rewrite min_not_above.
  split; [destruct (isWithinLimits costData); reflexivity|].
  split.
  { intros H. apply min_leb_r in H. rewrite H, andb_true_r. auto. }
  split; [apply min_leb_r|].
  repeat split.
Qed.

Lemma leb_refl (a : num) : isNaN a = false -> (a <=? a)%js = true.
Proof.
  destruct a; cbn; intros; try discriminate; try reflexivity.
  apply Qle_bool_iff, Qle_refl.
Qed.

Lemma leb_total (a b : num) :
  isNaN a = false -> isNaN b = false ->
  (a <=? b)%js = false -> (b <=? a)%js = true.
Proof.
  destruct a as [x| | |], b as [y| | |]; cbn; intros; try discriminate;
    try reflexivity.
  apply Qle_bool_iff, Qlt_le_weak, Qnot_le_lt. intros C.
  apply Qle_bool_iff in C. congruence.
Qed.

Lemma min_unfold (a b : num) :
  isNaN a = false -> isNaN b = false ->
  min a b = if (a <=? b)%js then a else b.
Proof. destruct a, b; intros; try discriminate; reflexivity. Qed.

Lemma max_unfold (a b : num) :
  isNaN a = false -> isNaN b = false ->
  max a b = if (a <=? b)%js then b else a.
Proof. destruct a, b; intros; try discriminate; reflexivity. Qed.

Lemma max_cases (a b : num) :
  isNaN a = false -> isNaN b = false ->
  (a <=? b)%js = true ->
  forall x, isNaN x = false ->
    (a <=? max a (min b x))%js = true /\ (max a (min b x) <=? b)%js = true.
Proof.
  intros Ha Hb Hab x Hx.
  assert (Hm : isNaN (min b x) = false).
  { rewrite min_unfold by assumption. destruct (b <=? x)%js; assumption. }
  assert (Hmb : (min b x <=? b)%js = true).
  { rewrite min_unfold by assumption. destruct (b <=? x)%js eqn:E.
    - apply leb_refl, Hb.
    - apply leb_total; assumption. }
  rewrite max_unfold by assumption.
  destruct (a <=? min b x)%js eqn:E; split; auto.
  apply leb_refl, Ha.
Qed.

Lemma max_min_nan (a b x : num) :
  isNaN a = false -> isNaN b = false ->
  isNaN (max a (min b x)) = isNaN x.
Proof.
  intros Ha Hb.
  destruct a as [p| | |], b as [q| | |], x as [y| | |]; try discriminate;
    cbn; try reflexivity;
    repeat match goal with
      | |- context [Qle_bool ?u ?v] => destruct (Qle_bool u v); cbn
      end; reflexivity.
Qed.

(** X17.  The commission is clamped.  For a broker whose minimum
    commission is at most its maximum, the commission charged on any
    amount at any price is either NaN - exactly when the raw commission
    of its type is NaN - or lies between the minimum and the maximum.
    With a fixed commission it depends neither on the amount nor on the
    price. *)
Theorem commission_is_clamped (config : BrokerCostConfig) (amount price : num) :
  isNaN (minCommission config) = false ->
  isNaN (maxCommission config) = false ->
  (minCommission config <=? maxCommission config)%js = true ->
  let raw :=
    match commissionType config with
    | fixed => commissionValue config
    | percentage => ((amount * commissionValue config) / of_Z 100)%js
    | per_lot => ((amount / (price * of_Z 100000)) * commissionValue config)%js
    end in
  let c := calculateCommission config amount price in
  isNaN c = isNaN raw
  /\ (isNaN raw = false ->
      (minCommission config <=? c)%js = true
      /\ (c <=? maxCommission config)%js = true)
  /\ (commissionType config = fixed ->
      forall amount' price',
        calculateCommission config amount' price' = c).
Proof.
  intros Hmin Hmax Hle raw c.
  assert (Hc : c = max (minCommission config) (min (maxCommission config) raw)).
  { unfold c, raw, calculateCommission. destruct (commissionType config); reflexivity. }
  split; [rewrite Hc; apply max_min_nan; assumption|].
  split.
  - intros Hraw. rewrite Hc. apply max_cases; assumption.
  - intros Hfixed amount' price'. unfold c, calculateCommission.
    rewrite Hfixed. reflexivity.
Qed.

Lemma commission_is_clamped_witness :
  let raw := ((of_Z 1000 * commissionValue binance) / of_Z 100)%js in
  let c := calculateCommission binance (of_Z 1000) (of_Z 45000) in
  isNaN c = isNaN raw
  /\ (isNaN raw = false ->
      (minCommission binance <=? c)%js = true
      /\ (c <=? maxCommission binance)%js = true)
  /\ (commissionType binance = fixed ->
      forall amount' price',
        calculateCommission binance amount' price' = c).
Proof.
  apply (commission_is_clamped binance (of_Z 1000) (of_Z 45000)); reflexivity.
Defined.

(** The spread a fetch reports, for a default spread of at least 2/15
    pips and a draw of [0, 1): the default varied by at most a quarter. *)
Lemma getCurrentSpread_range (config : BrokerCostConfig) (d q : Q) :
  defaultSpread config = Fin d ->
  (2 # 15 <= d)%Q -> (0 <= q)%Q -> (q < 1)%Q ->
  exists x,
    getCurrentSpread config (Fin q) = Fin x
    /\ (x == d * (3 # 4) + d * q * (1 # 2))%Q.
Proof.
  intros Hd Hlow Hq0 Hq1. unfold getCurrentSpread. rewrite Hd.
  change (dec 5 10) with (Fin (1 # 2)). change (dec 1 10) with (Fin (1 # 10)).
  unfold sub. cbn [neg add mul of_Z].
  set (y := Qred (d * Qred (inject_Z 1 + Qred (Qred (q + Qred (- (1 # 2))) * (1 # 2))))).
  assert (Hy : (y == d * (3 # 4) + d * q * (1 # 2))%Q).
  { unfold y. rewrite !Qred_correct. change (inject_Z 1) with 1%Q. ring. }
  assert (Hge : Qle_bool (1 # 10) y = true).
  { apply Qle_bool_iff. rewrite Hy. nra. }
  cbn [max leb]. rewrite Hge. exists y. split; [reflexivity|exact Hy].
Qed.

Lemma Qle_bool_of_lt (x y : Q) : (x < y)%Q -> Qle_bool y x = false.
Proof.
  intros H. destruct (Qle_bool y x) eqn:E; [|reflexivity].
  apply Qle_bool_iff in E. exfalso. apply (Qlt_irrefl x).
  eapply Qlt_le_trans; eassumption.
Qed.

(** X18.  What the simulated cost feed can report for the three
    broker configurations of the module (demo, binance, mt5), for any
    two draws of [0, 1).  The spread stays within a quarter of the
    default spread and therefore within the broker's limit: the cost
    data is within limits and carries no high-spread warning, and
    [validateTradeConditions] reports neither a spread error nor an
    elevated-spread warning.  The only error it can report is the
    spread to stop-loss; with the binance configuration it reports that
    error for every draw of at least 0.001, so that the conditions are
    hardly ever valid. *)
Theorem default_brokers_stay_within_spread_limit
    (config : BrokerCostConfig) (symbol : string) (q1 q2 : Q) :
  In config defaultBrokerConfigs ->
  (0 <= q1)%Q -> (q1 < 1)%Q -> (0 <= q2)%Q -> (q2 < 1)%Q ->
  let costData := freshCostData config symbol (Fin q1) (Fin q2) in
  let report := validateTradeConditions config costData in
  isWithinLimits costData = true
  /\ (forall s, ~ In (HighSpread s) (cd_warnings costData))
  /\ warnings report = []
  /\ (forall s l, ~ In (SpreadTooHigh s l) (errors report))
  /\ (isValid report = negb (spreadToSL costData >? maxSpreadToSL config)%js)
  /\ (config = binance -> (1 # 1000 <= q2)%Q -> isValid report = false).
Proof.
  intros Hin H10 H11 H20 H21 costData report.
  assert (Hspread : exists d m x,
            defaultSpread config = Fin d /\ maxAllowedSpread config = Fin m
            /\ currentSpread costData = Fin x
            /\ (x == d * (3 # 4) + d * q1 * (1 # 2))%Q
            /\ (0 < d)%Q /\ (d * (5 # 4) <= m)%Q).
  { unfold defaultBrokerConfigs, In in Hin.
    destruct Hin as [E | [E | [E | E]]]; [subst config..|contradiction].
    - destruct (getCurrentSpread_range demo 3 q1 eq_refl ltac:(discriminate) H10 H11)
        as (x & Hx & Ex).
      exists 3%Q, 10%Q, x. repeat split; auto; try reflexivity; discriminate.
    - destruct (getCurrentSpread_range binance 2 q1 eq_refl ltac:(discriminate) H10 H11)
        as (x & Hx & Ex).
      exists 2%Q, 8%Q, x. repeat split; auto; try reflexivity; discriminate.
    - destruct (getCurrentSpread_range mt5 5 q1 eq_refl ltac:(discriminate) H10 H11)
        as (x & Hx & Ex).
      exists 5%Q, 15%Q, x. repeat split; auto; try reflexivity; discriminate. }
  destruct Hspread as (d & m & x & Hd & Hm & Hx & Ex & Hdpos & Hdm).
  assert (Hlimit : (currentSpread costData <=? maxAllowedSpread config)%js = true).
  { rewrite Hx, Hm. cbn [leb]. apply Qle_bool_iff. rewrite Ex. nra. }
  assert (Hnot_above : (currentSpread costData >? maxAllowedSpread config)%js = false).
  { rewrite Hx, Hm. unfold gtb. cbn [ltb]. rewrite negb_false_iff.
    apply Qle_bool_iff. rewrite Ex. nra. }
  assert (Hnot_high :
            (currentSpread costData >? defaultSpread config * dec 15 10)%js = false).
  { rewrite Hx, Hd. change (dec 15 10) with (Fin (3 # 2)).
    unfold gtb. cbn [mul ltb]. rewrite negb_false_iff.
    apply Qle_bool_iff. rewrite Qred_correct, Ex. nra. }
  assert (Hwarn : cd_warnings costData
                  = if (spreadToSL costData >? maxSpreadToSL config)%js
                    then [SpreadToSLExceedsLimit (spreadToSL costData)] else []).
  { unfold costData at 1, freshCostData. cbn [cd_warnings].
    fold (currentSpread costData) in *.
    change (getCurrentSpread config (Fin q1)) with (currentSpread costData).
    rewrite Hnot_high. reflexivity. }
  assert (Herr : errors report
                 = if (spreadToSL costData >? maxSpreadToSL config)%js
                   then [SpreadToSLTooHigh (spreadToSL costData) (maxSpreadToSL config)]
                   else []).
  { unfold report, validateTradeConditions. cbn [errors].
    rewrite Hnot_above. reflexivity. }
  assert (Hvalid : isValid report
                   = negb (spreadToSL costData >? maxSpreadToSL config)%js).
  { unfold report, validateTradeConditions. cbn [isValid].
    rewrite Hnot_above. cbn [app].
    destruct (spreadToSL costData >? maxSpreadToSL config)%js; reflexivity. }
  split; [exact Hlimit|].
  split.
  { intros s Hs. rewrite Hwarn in Hs.
    destruct (spreadToSL costData >? maxSpreadToSL config)%js; cbn in Hs;
      [destruct Hs as [Hs|[]]; discriminate | exact Hs]. }
  split.
  { unfold report, validateTradeConditions. cbn [warnings].
    rewrite Hnot_above, Hnot_high. reflexivity. }
  split.
  { intros s l Hs. rewrite Herr in Hs.
    destruct (spreadToSL costData >? maxSpreadToSL config)%js; cbn in Hs;
      [destruct Hs as [Hs|[]]; discriminate | exact Hs]. }
  split; [exact Hvalid|].
  intros -> Hq2. rewrite Hvalid. rewrite negb_false_iff.
  destruct (getCurrentSpread_range binance 2 q2 eq_refl ltac:(discriminate) H20 H21)
    as (x2 & Hx2 & Ex2).
  unfold costData, freshCostData. cbn [spreadToSL]. rewrite Hx2.
  unfold gtb. cbn [spreadMultiplier maxSpreadToSL binance mul of_Z ltb].
  rewrite negb_true_iff. apply Qle_bool_of_lt.
  rewrite Qred_correct, Ex2. change (inject_Z 3) with 3%Q.
  change (inject_Z 2) with 2%Q. nra.
Qed.

Lemma default_brokers_stay_within_spread_limit_witness :
  let costData := freshCostData binance "BTCUSDT" (Fin (9 # 10)) (Fin (1 # 10)) in
  let report := validateTradeConditions binance costData in
  isWithinLimits costData = true
  /\ (forall s, ~ In (HighSpread s) (cd_warnings costData))
  /\ warnings report = []
  /\ (forall s l, ~ In (SpreadTooHigh s l) (errors report))
  /\ (isValid report = negb (spreadToSL costData >? maxSpreadToSL binance)%js)
  /\ (binance = binance -> (1 # 1000 <= 1 # 10)%Q -> isValid report = false).
Proof.
  apply (default_brokers_stay_within_spread_limit binance "BTCUSDT"
           (9 # 10) (1 # 10));
    try discriminate; try reflexivity.
  cbn. tauto.
Defined.

(** X19.  The cost cache.  After a call of [getRealTimeCostData] the
    cache holds, for the symbol asked, the data just returned, with a
    time stamp less than 30 seconds old; every later call for that
    symbol made before the stamp is 30 seconds old returns the same data
    and leaves the cache alone, whatever the market would have shown.
    An entry is kept from the time it was built, not from its last use,
    and the entries of other symbols are never touched. *)
Theorem cost_cache_serves_for_30_seconds
    (config : BrokerCostConfig) (now : Z) (r1 r2 : num) (symbol : string)
    (costCache : CostCache) :
  let costData := fst (getRealTimeCostData config now r1 r2 symbol costCache) in
  let costCache' := snd (getRealTimeCostData config now r1 r2 symbol costCache) in
  exists timestamp,
    costCache' !! symbol = Some (costData, timestamp)
    /\ (now - timestamp < CACHE_DURATION)%Z
    /\ (forall now' r1' r2',
          (now' - timestamp < CACHE_DURATION)%Z ->
          getRealTimeCostData config now' r1' r2' symbol costCache'
          = (costData, costCache'))
    /\ (forall now' r1' r2',
          (CACHE_DURATION <= now' - timestamp)%Z ->
          fst (getRealTimeCostData config now' r1' r2' symbol costCache')
          = freshCostData config symbol r1' r2')
    /\ (forall other, other <> symbol -> costCache' !! other = costCache !! other)
    /\ (costCache !! symbol = None ->
        costData = freshCostData config symbol r1 r2 /\ timestamp = now).
Proof.
  intros costData costCache'.
  assert (Hserve : forall cache d ts,
            cache !! symbol = Some (d, ts) ->
            (forall now' r1' r2',
                (now' - ts < CACHE_DURATION)%Z ->
                getRealTimeCostData config now' r1' r2' symbol cache = (d, cache))
            /\ (forall now' r1' r2',
                  (CACHE_DURATION <= now' - ts)%Z ->
                  fst (getRealTimeCostData config now' r1' r2' symbol cache)
                  = freshCostData config symbol r1' r2')).
  { intros cache d ts Hc. split; intros now' r1' r2' Hn;
      unfold getRealTimeCostData; rewrite Hc.
    - apply Z.ltb_lt in Hn. rewrite Hn. reflexivity.
    - apply Z.ltb_ge in Hn. rewrite Hn. reflexivity. }
  unfold costData, costCache', getRealTimeCostData.
  destruct (costCache !! symbol) as [[cached ts]|] eqn:Hc.
  - destruct (now - ts <? CACHE_DURATION)%Z eqn:Hfresh.
    + cbn [fst snd]. exists ts. split; [exact Hc|].
      split; [apply Z.ltb_lt, Hfresh|].
      destruct (Hserve costCache cached ts Hc) as [H1 H2].
      split; [exact H1|]. split; [exact H2|]. split; [reflexivity|].
      intros H. discriminate.
    + cbn [fst snd]. exists now.
      split; [apply lookup_insert_eq|].
      split; [unfold CACHE_DURATION; lia|].
      destruct (Hserve (<[symbol := (freshCostData config symbol r1 r2, now)]> costCache)
                  (freshCostData config symbol r1 r2) now
                  (lookup_insert_eq _ _ _)) as [H1 H2].
      split; [exact H1|]. split; [exact H2|].
      split; [intros other Hne; apply lookup_insert_ne; congruence|].
      intros H. discriminate.
  - cbn [fst snd]. exists now.
    split; [apply lookup_insert_eq|].
    split; [unfold CACHE_DURATION; lia|].
    destruct (Hserve (<[symbol := (freshCostData config symbol r1 r2, now)]> costCache)
                (freshCostData config symbol r1 r2) now
                (lookup_insert_eq _ _ _)) as [H1 H2].
    split; [exact H1|]. split; [exact H2|].
    split; [intros other Hne; apply lookup_insert_ne; congruence|].
    auto.
Qed.

End BrokerCostExtraFacts.
(* ===================================================================== *)
(** * The trade-signal webhook: what each answer leaves behind *)
(* ===================================================================== *)

Module WebhookExtraFacts.

Import JsNum JsString Json Store Execution SignalIntake Webhook WebhookNotions.

(** A signal that passes validation has all its fields. *)
Lemma valid_has_all_fields (parse : string -> num) (clock : num)
    (signal : TradeSignal) (seen : list JsValue) :
  isValid (fst (validateTradeSignal parse clock signal seen)) = true ->
  missingFields signal = [].
Proof.
  unfold validateTradeSignal.
  destruct (missingFields signal); [reflexivity|discriminate].
Qed.

(** A signal that passes validation was not found in the set. *)
Lemma valid_was_not_seen (parse : string -> num) (clock : num)
    (signal : TradeSignal) (seen : list JsValue) :
  isValid (fst (validateTradeSignal parse clock signal seen)) = true ->
  set_has (id signal) seen = false.
Proof.
  intros Hvalid. destruct (set_has (id signal) seen) eqn:E; [|reflexivity].
  destruct (WebhookFacts.validateTradeSignal_duplicate parse clock signal seen
              (valid_has_all_fields _ _ _ _ Hvalid) E)
    as (errs & warns & Hv & _).
  rewrite Hv in Hvalid. discriminate.
Qed.

(** After a valid signal, its id is the last value of the set, and
    [has] finds it unless it is an array or an object. *)
Lemma valid_is_remembered (parse : string -> num) (clock : num)
    (signal : TradeSignal) (seen : list JsValue) :
  isValid (fst (validateTradeSignal parse clock signal seen)) = true ->
  snd (validateTradeSignal parse clock signal seen) = (seen ++ [id signal])%list
  /\ (is_compound (id signal) = false ->
      set_has (id signal) (snd (validateTradeSignal parse clock signal seen))
      = true).
Proof.
  intros Hvalid.
  pose proof (valid_has_all_fields _ _ _ _ Hvalid) as Hfields.
  pose proof (valid_was_not_seen _ _ _ _ Hvalid) as Hunseen.
  split.
  - rewrite WebhookFacts.validateTradeSignal_set, Hfields.
    unfold set_add. rewrite Hunseen. reflexivity.
  - apply WebhookFacts.validateTradeSignal_remembers, Hfields.
Qed.

Lemma processTradeSignal_saves (env : Env) (signal : TradeSignal) (db db1 : DB)
    (p : ProcessedTradeSignal) :
  processTradeSignal env signal db = (inl p, db1) ->
  p_trade_id p = id signal
  /\ p_symbol p = symbol signal
  /\ trade_signals db1 !! sqlText (id signal)
     = Some (mkSignalRow (p_session_id p) (sqlText (id signal)) (symbol signal)
               (action signal) (jsNumber (entry signal))
               (jsNumber (target signal)) (jsNumber (stop signal))
               (p_trade_amount p) (p_current_node p))
  /\ (findSessionByTradeId (id signal) db = None ->
      p_session_id p = freshSessionId env
      /\ p_current_node p = "Start"
      /\ is_Some (sessions db1 !! freshSessionId env)).
Proof.
  unfold processTradeSignal.
  destruct (findSessionByTradeId (id signal) db) as [existing|] eqn:Hfind.
  - destruct (DecisionTree.decisionTree !! Store.current_node existing);
      [|discriminate].
    set (cost := calculateValueWithCostAdjustment env _ _ _ _ _). clearbody cost.
    intros H. injection H as <- <-.
    cbn [p_trade_id p_symbol p_session_id p_trade_amount p_current_node].
    split; [reflexivity|]. split; [reflexivity|].
    split; [|discriminate].
    unfold saveTradeSignal, with_signals. cbn [trade_signals p_trade_id].
    apply lookup_insert_eq.
  - change (DecisionTree.decisionTree !! "Start")
      with (Some (DecisionTree.inner "0.65%" 1 "1-0" "0-1")).
    cbv iota beta.
    set (cost := calculateValueWithCostAdjustment env _ _ _ _ _). clearbody cost.
    intros H. injection H as <- <-.
    cbn [p_trade_id p_symbol p_session_id p_trade_amount p_current_node].
    split; [reflexivity|]. split; [reflexivity|].
    split.
    + unfold saveTradeSignal, with_signals. cbn [trade_signals p_trade_id].
      apply lookup_insert_eq.
    + intros _. split; [reflexivity|]. split; [reflexivity|].
      unfold saveTradeSignal, with_signals. cbn [sessions].
      unfold Session.createNewSessionWebhook.
      destruct (sessions db !! freshSessionId env) eqn:E.
      * rewrite E. eauto.
      * cbn [sessions insert_step with_steps with_sessions].
        rewrite lookup_insert_eq. eauto.
Qed.

(** X20.  What each answer of the trade-signal webhook leaves
    behind.  Whatever the answer, the overnight manager and its table
    are as they were: the registration that follows a successful
    execution is refused by the database, and the webhook answers 200
    without looking at what [registerTrade] returned.  A 400 rejection
    leaves the sessions, the steps and the stored signals as they were
    too.  After a 200, the execution reported is a SUCCESS, the last
    step of the store is the EXECUTE step of the session of the answer,
    with status SUCCESS, and for a trade id that had no session the
    session of the answer is the new one, at "Start".  After a 200 and
    after a 500 alike, the id of the signal has been added to the set
    of the signal processor. *)
Theorem webhook_answers (env : Env) (signal : TradeSignal) (sys : System) :
  let sys' := snd (POST env signal sys) in
  let db' := Overnight.db (world sys') in
  Overnight.activeTrades (world sys') = Overnight.activeTrades (world sys)
  /\ Overnight.overnight_trades (world sys') = Overnight.overnight_trades (world sys)
  /\ match fst (POST env signal sys) with
     | Http400 _ _ => world sys' = world sys
     | Http200 p e =>
         status e = SUCCESS
         /\ processedSignals sys' = (processedSignals sys ++ [id signal])%list
         /\ p_trade_id p = id signal
         /\ (exists number,
               last (session_steps db')
               = Some (mkStep (p_session_id p) number "EXECUTE" (Some "execute")
                         (Some (of_Z 0)) None None "EXECUTE" (Some "SUCCESS")))
         /\ (findSessionByTradeId (id signal) (Overnight.db (world sys)) = None ->
             p_session_id p = freshSessionId env
             /\ p_current_node p = "Start"
             /\ is_Some (sessions db' !! freshSessionId env))
     | Http500 _ =>
         processedSignals sys' = (processedSignals sys ++ [id signal])%list
     end.
Proof.
  cbv zeta.
  pose proof (WebhookFacts.POST_processedSignals env signal sys) as Hseen.
  pose proof (valid_is_remembered (parseDate env) (of_Z (now env)) signal
                (processedSignals sys)) as Hremember.
  rewrite <- Hseen in Hremember. clear Hseen.
  unfold POST in *.
  destruct (validateTradeSignal (parseDate env) (of_Z (now env)) signal
              (processedSignals sys)) as [v seen'].
  cbn [fst] in Hremember.
  destruct (isValid v) eqn:Hvalid; cbn [negb]; [|cbn; auto].
  destruct (Hremember eq_refl) as [Hlast _]. clear Hremember.
  destruct (processTradeSignal env signal (Overnight.db (world sys)))
    as [[p|err] db1] eqn:Hproc.
  2:{ cbn [fst snd] in *. auto. }
  destruct (processTradeSignal_saves env signal _ db1 p Hproc)
    as (Hid & Hsym & Hrow & Hnew).
  destruct (ExecutionExtraFacts.executeTrade_store_shape (venue env)
              (toExecutionSignal p) db1)
    as (Hsessions & Hsignals & older & Hsteps & _).
  destruct (executeTrade (venue env) (toExecutionSignal p) db1)
    as [ex slept attempt st].
  cbn [execution store] in *.
  destruct (status ex) eqn:Hstatus.
  - rewrite (proj2 (OvernightFacts.registerTrade_refused _ _ _ _ _ _ _ _ _ _ _ _ _))
      in *.
    cbn [fst snd] in *.
    cbn [world Overnight.db with_db Overnight.overnight_trades
         Overnight.activeTrades] in *.
    split; [reflexivity|]. split; [reflexivity|].
    split; [exact Hstatus|]. split; [exact Hlast|]. split; [exact Hid|].
    split.
    { eexists. rewrite Hsteps, last_snoc. reflexivity. }
    intros Hnone. destruct (Hnew Hnone) as (H1 & H2 & H3).
    rewrite Hsessions. auto.
  - cbn [fst snd] in *. auto.
Qed.

(** A signal that fails the parameter check is given up at the first
    attempt, whatever the venue. *)
Lemma executeTrade_invalid (v : Venue) (s : ProcessedSignal) (db : DB) :
  validateTradeParameters s <> [] ->
  executeTrade v s db
  = giveUp s
      (Some ("Invalid trade parameters: " ++ join ", " (validateTradeParameters s)))
      [] 1 db.
Proof.
  intros Hinvalid. unfold executeTrade, maxRetries. cbn [attemptLoop].
  unfold attemptBody.
  pose proof (ExecutionExtraFacts.validation_error_not_retryable s) as Hnr.
  destruct (validateTradeParameters s) as [|e errors]; [contradiction|].
  rewrite Hnr. reflexivity.
Qed.

Lemma unclean_price_is_invalid (s : ProcessedSignal) :
  not_a_price (ps_entry s) || not_a_price (ps_target s) || not_a_price (ps_stop s)
  = true ->
  validateTradeParameters s <> [].
Proof.
  intros H Hnil.
  apply ExecutionExtraFacts.valid_parameters_shape in Hnil
    as (He & Ht & Hs & _).
  rewrite He, Ht, Hs in H. discriminate.
Qed.

(** The venue plays no part in the processing of a signal. *)
Lemma processTradeSignal_venue (v : Venue) (env : Env) (signal : TradeSignal)
    (db : DB) :
  processTradeSignal (with_venue v env) signal db = processTradeSignal env signal db.
Proof.
  destruct env.
  unfold with_venue, processTradeSignal, calculateValueWithCostAdjustment.
  cbn [parseDate now registerRowTime registerEntryTime freshSessionId
       accountBalance brokerConfig costDataAt venue].
  reflexivity.
Qed.

(** X21.  Intake and execution disagree on what a price is.  The
    intake reads the prices with [parseFloat], the execution with
    [Number]: a signal that passes the intake although one of its prices
    is not a number for [Number] (a number followed by other text, for
    one) is answered with a 500 whatever the venue would do - the venue
    is never asked.  By then the id of the signal has been remembered,
    so the corrected signal cannot be sent again, and for a new trade the
    session has been created. *)
Theorem unclean_price_fails_after_intake
    (env : Env) (signal : TradeSignal) (sys : System) :
  isValid (fst (validateTradeSignal (parseDate env) (of_Z (now env)) signal
                  (processedSignals sys))) = true ->
  not_a_price (entry signal) || not_a_price (target signal)
  || not_a_price (stop signal) = true ->
  (exists message, fst (POST env signal sys) = Http500 message)
  /\ (forall v, POST (with_venue v env) signal sys = POST env signal sys)
  /\ id signal ∈ processedSignals (snd (POST env signal sys))
  /\ (is_compound (id signal) = false ->
      set_has (id signal) (processedSignals (snd (POST env signal sys))) = true)
  /\ (findSessionByTradeId (id signal) (Overnight.db (world sys)) = None ->
      is_Some (sessions (Overnight.db (world (snd (POST env signal sys))))
               !! freshSessionId env)).
Proof.
  intros Hvalid Hprice.
  pose proof (WebhookFacts.POST_processedSignals env signal sys) as Hseen.
  pose proof (valid_is_remembered (parseDate env)
                (of_Z (now env)) signal (processedSignals sys) Hvalid)
    as [Hlast Hremember].
  rewrite <- Hseen in Hlast, Hremember. clear Hseen.
  assert (Hpost : forall v,
    POST (with_venue v env) signal sys
    = match processTradeSignal env signal (Overnight.db (world sys)) with
      | (inr e, db1) =>
          (Http500 e,
           mkSystem (with_db (fun _ => db1) (world sys))
             (snd (validateTradeSignal (parseDate env) (of_Z (now env)) signal
                     (processedSignals sys))))
      | (inl p, db1) =>
          let run :=
            giveUp (toExecutionSignal p)
              (Some ("Invalid trade parameters: "
                     ++ join ", " (validateTradeParameters (toExecutionSignal p))))
              [] 1 db1 in
          (Http500
             ("Trade execution failed: "
              ++ default "null" (ex_error (execution run))),
           mkSystem (with_db (fun _ => store run) (world sys))
             (snd (validateTradeSignal (parseDate env) (of_Z (now env)) signal
                     (processedSignals sys))))
      end).
  { intros v. unfold POST.
    cbn [parseDate now registerRowTime registerEntryTime with_venue].
    destruct (validateTradeSignal (parseDate env) (of_Z (now env)) signal
                (processedSignals sys)) as [vr seen'].
    cbn [fst snd] in *. rewrite Hvalid. cbn [negb].
    rewrite processTradeSignal_venue.
    destruct (processTradeSignal env signal (Overnight.db (world sys)))
      as [[p|e] db1] eqn:Hproc; [|reflexivity].
    assert (Hp : ps_entry (toExecutionSignal p) = entry signal
                 /\ ps_target (toExecutionSignal p) = target signal
                 /\ ps_stop (toExecutionSignal p) = stop signal).
    { unfold processTradeSignal in Hproc.
      destruct (findSessionByTradeId _ _).
      - destruct (DecisionTree.decisionTree !! _); [|discriminate].
        injection Hproc as <- _. auto.
      - destruct (DecisionTree.decisionTree !! _); [|discriminate].
        injection Hproc as <- _. auto. }
    destruct Hp as (He & Ht & Hs).
    cbn [venue with_venue].
    rewrite executeTrade_invalid
      by (apply unclean_price_is_invalid; rewrite He, Ht, Hs; exact Hprice).
    reflexivity. }
  assert (Hsame : with_venue (venue env) env = env) by (destruct env; reflexivity).
  pose proof (Hpost (venue env)) as Hthis. rewrite Hsame in Hthis.
  split.
  { rewrite Hthis.
    destruct (processTradeSignal env signal (Overnight.db (world sys)))
      as [[p|e] db1]; cbn [fst]; eauto. }
  split; [intros v; rewrite Hthis; apply Hpost|].
  split; [rewrite Hlast; apply elem_of_app; right; apply list_elem_of_singleton;
          reflexivity|].
  split; [exact Hremember|].
  intros Hnone. rewrite Hthis.
  destruct (processTradeSignal env signal (Overnight.db (world sys)))
    as [[p|e] db1] eqn:Hproc.
  - destruct (processTradeSignal_saves env signal _ db1 p Hproc)
      as (_ & _ & _ & Hnew).
    destruct (Hnew Hnone) as (_ & _ & Hsession).
    cbn [snd world with_db Overnight.db giveUp store].
    unfold recordExecutionStep, insert_step, with_steps. cbn [sessions].
    exact Hsession.
  - unfold processTradeSignal in Hproc. rewrite Hnone in Hproc.
    change (DecisionTree.decisionTree !! "Start")
      with (Some (DecisionTree.inner "0.65%" 1 "1-0" "0-1")) in Hproc.
    discriminate.
Qed.

Lemma unclean_price_fails_after_intake_witness :
  let signal :=
    mkSignal "buy" "BTCUSDT" "15" "2025-07-19T09:00:00Z" "45000abc" "46000" "44500"
      (JString "20250719-000042") "2" "1" None None in
  let env := demoEnv "ses_A" in
  (exists message, fst (POST env signal emptySystem) = Http500 message)
  /\ (forall v, POST (with_venue v env) signal emptySystem = POST env signal emptySystem)
  /\ id signal ∈ processedSignals (snd (POST env signal emptySystem))
  /\ (is_compound (id signal) = false ->
      set_has (id signal) (processedSignals (snd (POST env signal emptySystem)))
      = true)
  /\ (findSessionByTradeId (id signal) (Overnight.db (world emptySystem)) = None ->
      is_Some (sessions (Overnight.db (world (snd (POST env signal emptySystem))))
               !! freshSessionId env)).
Proof.
  apply (unclean_price_fails_after_intake (demoEnv "ses_A")
           (mkSignal "buy" "BTCUSDT" "15" "2025-07-19T09:00:00Z" "45000abc" "46000"
              "44500" (JString "20250719-000042") "2" "1" None None)
           emptySystem).
  - vm_compute. reflexivity.
  - vm_compute. reflexivity.
Defined.

End WebhookExtraFacts.
(* ===================================================================== *)
(** * The local session cache of the exception handler *)
(* ===================================================================== *)

Module SessionCacheFacts.

Import JsNum Store NodeJump SessionCache.

Lemma handleFailures_cons (config : ExceptionHandlingConfig) (t : Z)
    (d : CachedSessionData) (rest : list (Z * CachedSessionData))
    (cache : gmap string CachedSessionData) :
  handleFailures config ((t, d) :: rest) cache
  = handleFailures config rest
      (<[sessionId d :=
           match cache !! sessionId d with
           | Some existingCache =>
               mkCached (sessionId existingCache) (signal existingCache)
                 (currentNode existingCache) (initialAmount existingCache) t
                 (retryCount existingCache + 1)
           | None =>
               mkCached (sessionId d) (signal d) (currentNode d) (initialAmount d) t 1
           end]> cache).
Proof. reflexivity. Qed.

Lemma last_nonempty {A : Type} (a : A) (l : list A) (d d' : A) :
  List.last (a :: l) d = List.last (a :: l) d'.
Proof.
  revert a. induction l as [|b l IH]; intros a; [reflexivity|].
  change (List.last (b :: l) d = List.last (b :: l) d'). apply IH.
Qed.

Lemma handleFailures_same_session (config : ExceptionHandlingConfig)
    (sid : string) (rest : list (Z * CachedSessionData)) :
  forall (cache : gmap string CachedSessionData) (entry : CachedSessionData),
    cache !! sid = Some entry ->
    Forall (fun failure => sessionId (snd failure) = sid) rest ->
    handleFailures config rest cache !! sid
    = Some (mkCached (sessionId entry) (signal entry) (currentNode entry)
              (initialAmount entry) (List.last (map fst rest) (timestamp entry))
              (retryCount entry + Z.of_nat (length rest)))
    /\ forall other, other <> sid ->
         handleFailures config rest cache !! other = cache !! other.
Proof.
  induction rest as [|[t d] rest IH]; intros cache entry Hentry Hall.
  - cbn. rewrite Z.add_0_r. split; [|reflexivity].
    rewrite Hentry. destruct entry; reflexivity.
  - apply Forall_cons in Hall as [Hd Hall]. cbn [snd] in Hd.
    pose (e1 := mkCached (sessionId entry) (signal entry) (currentNode entry)
                  (initialAmount entry) t (retryCount entry + 1)).
    assert (Hstep : handleFailures config ((t, d) :: rest) cache
                    = handleFailures config rest (<[sid := e1]> cache)).
    { rewrite handleFailures_cons, Hd, Hentry. reflexivity. }
    rewrite Hstep.
    destruct (IH (<[sid := e1]> cache) e1 (lookup_insert_eq _ _ _) Hall) as [H1 H2].
    split.
    + rewrite H1. unfold e1.
      cbn [sessionId signal currentNode initialAmount timestamp retryCount].
      f_equal. f_equal.
      * destruct rest as [|[t' d'] rest']; [reflexivity|].
        cbn [map fst timestamp].
        change (List.last (t' :: map fst rest') t
                = List.last (t' :: map fst rest') (timestamp entry)).
        apply last_nonempty.
      * cbn [length]. lia.
    + intros other Hne. rewrite H2 by exact Hne.
      apply lookup_insert_ne. congruence.
Qed.

(** X22.  Repeated database failures for one session.  When a
    session that is not in the local cache fails to be written several
    times in a row, the cache keeps the data of the first failure - the
    signal, the node and the amount of the later ones are dropped - and
    only counts the failures and renews the time stamp.  The count is
    what [getCachedSessionsStatus] reports, other sessions are not
    touched, and the next failure is answered with "max retries
    exceeded" exactly when the count would pass the configured maximum;
    every answer says cached and not successful. *)
Theorem repeated_failures_keep_first_data
    (config : ExceptionHandlingConfig) (cache : gmap string CachedSessionData)
    (t0 : Z) (first : CachedSessionData) (rest : list (Z * CachedSessionData))
    (t : Z) (next : CachedSessionData) :
  cache !! sessionId first = None ->
  Forall (fun failure => sessionId (snd failure) = sessionId first) rest ->
  sessionId next = sessionId first ->
  let cache' := handleFailures config ((t0, first) :: rest) cache in
  let count := Z.of_nat (S (length rest)) in
  cache' !! sessionId first
  = Some (mkCached (sessionId first) (signal first) (currentNode first)
            (initialAmount first) (List.last (map fst rest) t0) count)
  /\ retryCounts (getCachedSessionsStatus config t cache') !! sessionId first
     = Some count
  /\ (forall other, other <> sessionId first -> cache' !! other = cache !! other)
  /\ fst (handleDatabaseFailure config t next cache')
     = mkCacheReply false true
         (if (count + 1 <=? maxRetryCount config)%Z
          then RetryNumber (count + 1) (maxRetryCount config)
          else MaxRetriesExceeded).
Proof.
  intros Hnew Hall Hnext cache' count.
  assert (H : cache' !! sessionId first
              = Some (mkCached (sessionId first) (signal first) (currentNode first)
                        (initialAmount first) (List.last (map fst rest) t0) count)
              /\ forall other, other <> sessionId first ->
                   cache' !! other = cache !! other).
  { pose (e1 := mkCached (sessionId first) (signal first) (currentNode first)
                  (initialAmount first) t0 1).
    assert (Hstep : cache'
                    = handleFailures config rest (<[sessionId first := e1]> cache)).
    { unfold cache'. rewrite handleFailures_cons, Hnew. reflexivity. }
    rewrite Hstep.
    destruct (handleFailures_same_session config (sessionId first) rest
                (<[sessionId first := e1]> cache) e1
                (lookup_insert_eq _ _ _) Hall) as [H1 H2].
    split.
    - rewrite H1. unfold e1.
      cbn [sessionId signal currentNode initialAmount timestamp retryCount].
      f_equal. f_equal. unfold count. lia.
    - intros other Hne. rewrite H2 by exact Hne.
      apply lookup_insert_ne. congruence. }
  destruct H as [H1 H2].
  split; [exact H1|]. split.
  { unfold getCachedSessionsStatus. cbn [retryCounts].
    rewrite lookup_fmap, H1. reflexivity. }
  split; [exact H2|].
  unfold handleDatabaseFailure. cbn [fst]. rewrite Hnext, H1.
  cbn [retryCount]. reflexivity.
Qed.

Lemma repeated_failures_keep_first_data_witness :
  let config := defaultHandlerConfig in
  let data (node : string) :=
    mkCached "ses_1" Webhook.demoSignal node (of_Z 100000) 0 0 in
  let cache' :=
    handleFailures config [(10, data "Start"); (20, data "0-1"); (30, data "0-2")]%Z ∅ in
  let count := Z.of_nat 3 in
  cache' !! "ses_1"
  = Some (mkCached "ses_1" Webhook.demoSignal "Start" (of_Z 100000) 30 count)
  /\ retryCounts (getCachedSessionsStatus config 40 cache') !! "ses_1" = Some count
  /\ (forall other,
        other <> "ses_1" ->
        cache' !! other = (∅ : gmap string CachedSessionData) !! other)
  /\ fst (handleDatabaseFailure config 40 (data "0-3") cache')
     = mkCacheReply false true
         (if (count + 1 <=? maxRetryCount config)%Z
          then RetryNumber (count + 1) (maxRetryCount config)
          else MaxRetriesExceeded).
Proof.
  apply (repeated_failures_keep_first_data defaultHandlerConfig ∅ 10
           (mkCached "ses_1" Webhook.demoSignal "Start" (of_Z 100000) 0 0)
           [(20, mkCached "ses_1" Webhook.demoSignal "0-1" (of_Z 100000) 0 0);
            (30, mkCached "ses_1" Webhook.demoSignal "0-2" (of_Z 100000) 0 0)]%Z
           40 (mkCached "ses_1" Webhook.demoSignal "0-3" (of_Z 100000) 0 0)).
  - reflexivity.
  - repeat constructor.
  - reflexivity.
Defined.

Section Synchronize.

Variable config : ExceptionHandlingConfig.
Variable currentTime : Z.
Variable write : CachedSessionData -> DB -> option DB.

Let expiredIn (l : list (string * CachedSessionData)) : nat :=
  length (List.filter (fun entry => is_expired config currentTime (snd entry)) l).

Lemma sync_fold (l : list (string * CachedSessionData)) :
  forall (results : SyncResults) (cache : gmap string CachedSessionData) (db : DB),
    NoDup (l.*1) ->
    let r := foldl (syncEntry config currentTime write) (results, cache, db) l in
    sync_success (fst (fst r)) = sync_success results
    /\ (synced (fst (fst r)) + failed (fst (fst r)) + expiredIn l
        = synced results + failed results + length l)%nat
    /\ (forall sid, sid ∉ l.*1 -> snd (fst r) !! sid = cache !! sid)
    /\ (forall sid d,
          (sid, d) ∈ l ->
          snd (fst r) !! sid = None
          \/ (snd (fst r) !! sid = cache !! sid
              /\ is_expired config currentTime d = false))
    /\ ((forall d db0, is_Some (write d db0)) ->
        failed (fst (fst r)) = failed results
        /\ forall sid d, (sid, d) ∈ l -> snd (fst r) !! sid = None)
    /\ ((forall d db0, write d db0 = None) ->
        snd r = db /\ synced (fst (fst r)) = synced results).
Proof.
  induction l as [|[sid0 d0] rest IH]; intros results cache db Hnodup.
  - cbn. split; [reflexivity|]. split; [reflexivity|]. split; [reflexivity|].
    split; [intros sid d Hsid; inversion Hsid|].
    split; [intros _; split; [reflexivity|intros sid d Hsid; inversion Hsid]|].
    intros _. auto.
  - cbn [fmap list_fmap fst] in Hnodup. apply NoDup_cons in Hnodup as [Hfresh Hnodup].
    cbn [foldl].
    set (acc1 := syncEntry config currentTime write (results, cache, db) (sid0, d0)).
    destruct acc1 as [[r1 c1] db1] eqn:Hacc1.
    pose proof (IH r1 c1 db1 Hnodup) as IH1. cbv zeta in IH1 |- *.
    set (r := foldl (syncEntry config currentTime write) (r1, c1, db1) rest) in *.
    destruct IH1 as (Hs & Hcount & Hout & Hin & Hok & Hfail).
    assert (Hstep :
      sync_success r1 = sync_success results
      /\ (synced r1 + failed r1
           + (if is_expired config currentTime d0 then 1 else 0)
          = synced results + failed results + 1)%nat
      /\ (forall sid, sid <> sid0 -> c1 !! sid = cache !! sid)
      /\ (c1 !! sid0 = None
          \/ (c1 = cache /\ is_expired config currentTime d0 = false))
      /\ ((forall d db0, is_Some (write d db0)) ->
          failed r1 = failed results /\ c1 !! sid0 = None)
      /\ ((forall d db0, write d db0 = None) ->
          db1 = db /\ synced r1 = synced results)).
    { subst acc1. unfold syncEntry in Hacc1.
      destruct (is_expired config currentTime d0) eqn:Hexp.
      - injection Hacc1 as <- <- <-. cbn.
        split; [reflexivity|]. split; [lia|].
        split; [intros sid Hne; apply lookup_delete_ne; congruence|].
        split; [left; apply lookup_delete_eq|].
        split; [intros _; split; [reflexivity|apply lookup_delete_eq]|].
        intros _. auto.
      - destruct (write d0 db) as [dbw|] eqn:Hw.
        + injection Hacc1 as <- <- <-. cbn.
          split; [reflexivity|]. split; [lia|].
          split; [intros sid Hne; apply lookup_delete_ne; congruence|].
          split; [left; apply lookup_delete_eq|].
          split; [intros _; split; [reflexivity|apply lookup_delete_eq]|].
          intros Hnone. specialize (Hnone d0 db). congruence.
        + injection Hacc1 as <- <- <-. cbn.
          split; [reflexivity|]. split; [lia|].
          split; [reflexivity|]. split; [right; auto|].
          split; [|intros _; auto].
          intros Hsome. specialize (Hsome d0 db). rewrite Hw in Hsome.
          destruct Hsome; discriminate. }
    destruct Hstep as (Hs1 & Hcount1 & Hout1 & Hin1 & Hok1 & Hfail1).
    split; [congruence|]. split.
    { unfold expiredIn in *. cbn [List.filter snd length].
      destruct (is_expired config currentTime d0); cbn [length]; lia. }
    split.
    { intros sid Hsid. cbn [fmap list_fmap fst] in Hsid.
      apply not_elem_of_cons in Hsid as [Hne Hsid].
      rewrite Hout by exact Hsid. apply Hout1, Hne. }
    split.
    { intros sid d Hsid. apply elem_of_cons in Hsid as [E | Hsid].
      - injection E as -> ->. rewrite Hout by exact Hfresh.
        destruct Hin1 as [Hnone | [-> Hexp]]; [left; exact Hnone|].
        right. auto.
      - assert (Hne : sid <> sid0).
        { intros ->. apply Hfresh. apply list_elem_of_fmap.
          exists (sid0, d). auto. }
        destruct (Hin sid d Hsid) as [Hnone | [Heq Hexp]]; [left; exact Hnone|].
        right. rewrite Heq, Hout1 by exact Hne. auto. }
    split.
    { intros Hall. destruct (Hok Hall) as [Hf Hnone].
      destruct (Hok1 Hall) as [Hf1 Hnone1].
      split; [congruence|].
      intros sid d Hsid. apply elem_of_cons in Hsid as [E | Hsid].
      - injection E as -> ->. rewrite Hout by exact Hfresh. exact Hnone1.
      - eapply Hnone, Hsid. }
    intros Hall. destruct (Hfail Hall) as [Hdb Hsy].
    destruct (Hfail1 Hall) as [Hdb1 Hsy1]. split; congruence.
Qed.

(** X23.  Synchronizing the local cache with the database.  Every
    cached session is accounted for exactly once: the sessions
    written, the ones that failed and the ones that had expired add up
    to the size of the cache.  What stays in the cache are entries
    that had not expired; an expired entry is discarded without being
    written.  When every write succeeds the cache ends up empty; when
    every write fails the store is left as it was.  The run reports
    success in either case. *)
Theorem synchronization_accounts_for_every_entry
    (cachedSessions : gmap string CachedSessionData) (db : DB) :
  let run := synchronizeCachedSessions config currentTime write cachedSessions db in
  let results := fst (fst run) in
  let cachedSessions' := snd (fst run) in
  let status := getCachedSessionsStatus config currentTime cachedSessions in
  sync_success results = true
  /\ (synced results + failed results + expired status = total status)%nat
  /\ (forall sid d,
        cachedSessions' !! sid = Some d ->
        cachedSessions !! sid = Some d
        /\ is_expired config currentTime d = false)
  /\ (forall sid d,
        cachedSessions !! sid = Some d ->
        is_expired config currentTime d = true ->
        cachedSessions' !! sid = None)
  /\ ((forall d db0, is_Some (write d db0)) ->
      cachedSessions' = ∅ /\ failed results = 0%nat)
  /\ ((forall d db0, write d db0 = None) ->
      snd run = db /\ synced results = 0%nat).
Proof.
  intros run results cachedSessions' status.
  destruct (sync_fold (map_to_list cachedSessions)
              (mkSyncResults true 0 0 []) cachedSessions db
              (NoDup_fst_map_to_list cachedSessions))
    as (Hs & Hcount & Hout & Hin & Hok & Hfail).
  fold (synchronizeCachedSessions config currentTime write cachedSessions db)
    in Hs, Hcount, Hout, Hin, Hok, Hfail.
  fold run in Hs, Hcount, Hout, Hin, Hok, Hfail.
  fold results cachedSessions' in Hs, Hcount, Hout, Hin, Hok, Hfail.
  cbn [sync_success synced failed] in *.
  assert (Hkeys : forall sid,
            sid ∉ (map_to_list cachedSessions).*1 <-> cachedSessions !! sid = None).
  { intros sid. rewrite <- not_elem_of_dom, dom_alt.
    rewrite elem_of_list_to_set. reflexivity. }
  split; [exact Hs|]. split.
  { unfold status, getCachedSessionsStatus. cbn [expired total].
    rewrite <- length_map_to_list. unfold expiredIn in Hcount. lia. }
  split.
  { intros sid d Hd.
    destruct (cachedSessions !! sid) as [d0|] eqn:Hold.
    - apply elem_of_map_to_list in Hold as Hl.
      destruct (Hin sid d0 Hl) as [Hnone | [Heq Hexp]]; [congruence|].
      rewrite Heq, Hold in Hd. injection Hd as <-. auto.
    - rewrite Hout in Hd by (apply Hkeys, Hold). congruence. }
  split.
  { intros sid d Hold Hexp. apply elem_of_map_to_list in Hold.
    destruct (Hin sid d Hold) as [Hnone | [_ Hne]]; [exact Hnone|congruence]. }
  split.
  { intros Hall. destruct (Hok Hall) as [Hf Hnone]. split; [|exact Hf].
    apply map_eq. intros sid. rewrite lookup_empty.
    destruct (cachedSessions !! sid) as [d|] eqn:Hold.
    - apply (Hnone sid d), elem_of_map_to_list, Hold.
    - rewrite Hout by (apply Hkeys, Hold). exact Hold. }
  intros Hall. destruct (Hfail Hall) as [Hdb Hsy]. auto.
Qed.

End Synchronize.

End SessionCacheFacts.
(* ===================================================================== *)
(** * The alert service: the stake monitor *)
(* ===================================================================== *)

Module AlertFacts.

Import JsNum JsString DecisionTree Store Alerts.
Local Open Scope list_scope.

Lemma lastN_short {A : Type} (n : nat) (xs : list A) :
  (length xs <= n)%nat -> lastN n xs = xs.
Proof.
  intros H. unfold lastN. replace (length xs - n)%nat with 0%nat by lia.
  reflexivity.
Qed.

Lemma lastN_length {A : Type} (n : nat) (xs : list A) :
  (length (lastN n xs) <= n)%nat.
Proof. unfold lastN. rewrite length_skipn. lia. Qed.

Lemma lastN_app {A : Type} (n : nat) (xs ys : list A) :
  lastN n (lastN n xs ++ ys) = lastN n (xs ++ ys).
Proof.
  unfold lastN. rewrite !length_app, length_skipn.
  destruct (Nat.le_gt_cases (length xs) n) as [Hle | Hgt].
  - replace (length xs - n)%nat with 0%nat by lia. cbn [skipn].
    rewrite Nat.sub_0_r. reflexivity.
  - rewrite !skipn_app, skipn_skipn, length_skipn.
    f_equal; f_equal; lia.
Qed.

(** The history after one check, when it held at most ten values. *)
Lemma history_step (h : list num) (d : num) :
  (length h <= 10)%nat ->
  (if (10 <? length (h ++ [d]))%nat then tail (h ++ [d]) else h ++ [d])
  = lastN 10 (h ++ [d]).
Proof.
  intros Hh. rewrite length_app. cbn [length].
  destruct (Nat.ltb_spec 10 (length h + 1)) as [Hlt | Hge].
  - assert (Hlen : length h = 10%nat) by lia.
    unfold lastN. rewrite length_app. cbn [length]. rewrite Hlen. cbn [Nat.add Nat.sub].
    destruct h as [|x h]; [discriminate|]. reflexivity.
  - symmetry. apply lastN_short. rewrite length_app. cbn [length]. lia.
Qed.

Lemma monitorStakeCalculations_cons (config : AlertConfig) (a e : num)
    (rest : list (num * num)) (s : AlertService) :
  monitorStakeCalculations config ((a, e) :: rest) s
  = monitorStakeCalculations config rest (monitorStakeCalculation config a e s).
Proof. reflexivity. Qed.

Lemma monitorStakeCalculation_fields (config : AlertConfig) (a e : num)
    (s : AlertService) :
  let s' := monitorStakeCalculation config a e s in
  stakeCalculationHistory s'
  = (if (10 <? length (stakeCalculationHistory s ++ [deviationPercentage a e]))%nat
     then tail (stakeCalculationHistory s ++ [deviationPercentage a e])
     else stakeCalculationHistory s ++ [deviationPercentage a e])
  /\ lastSignalTime s' = lastSignalTime s
  /\ platformHealthStatus s' = platformHealthStatus s
  /\ alertQueue s'
     = (alertQueue s
        ++ (if (deviationPercentage a e >? stakeCalculationThreshold config)%js
            then [mkAlert STAKE_ABNORMAL MEDIUM
                    (StakeDetails a e (deviationPercentage a e)
                       (stakeCalculationThreshold config)) false]
            else []))%list.
Proof.
  unfold monitorStakeCalculation.
  destruct (_ >? _)%js; cbn; rewrite ?app_nil_r; auto.
Qed.

(** X24.  The stake monitor keeps a window of the last ten
    deviations.  After any run of stake checks on a service whose
    history held at most ten values, the history is the last ten values
    of the old history followed by the deviations of the run, in order;
    it never holds more than ten.  One alert joins the queue for each
    check whose deviation is above the threshold, and the platform
    status and the last signal time are not touched. *)
Theorem stake_history_is_a_window (config : AlertConfig)
    (checks : list (num * num)) (s : AlertService) :
  (length (stakeCalculationHistory s) <= 10)%nat ->
  let s' := monitorStakeCalculations config checks s in
  stakeCalculationHistory s'
  = lastN 10 (stakeCalculationHistory s ++ map deviationOf checks)
  /\ (length (stakeCalculationHistory s') <= 10)%nat
  /\ length (alertQueue s')
     = (length (alertQueue s)
        + length (List.filter
                    (fun check =>
                       (deviationOf check >? stakeCalculationThreshold config)%js)
                    checks))%nat
  /\ platformHealthStatus s' = platformHealthStatus s
  /\ lastSignalTime s' = lastSignalTime s.
Proof.
  revert s. induction checks as [|[a e] rest IH]; intros s Hlen; cbv zeta.
  - cbn. rewrite app_nil_r, lastN_short by exact Hlen. repeat split; auto.
  - rewrite monitorStakeCalculations_cons.
    destruct (monitorStakeCalculation_fields config a e s)
      as (Hh & Ht & Hp & Hq).
    rewrite history_step in Hh by exact Hlen.
    set (s1 := monitorStakeCalculation config a e s) in *.
    assert (Hlen1 : (length (stakeCalculationHistory s1) <= 10)%nat)
      by (rewrite Hh; apply lastN_length).
    destruct (IH s1 Hlen1) as (IHh & IHl & IHq & IHp & IHt).
    split.
    { rewrite IHh, Hh, lastN_app. cbn [map]. rewrite <- app_assoc. reflexivity. }
    split; [exact IHl|]. split.
    { rewrite IHq, Hq, length_app. cbn [List.filter].
      unfold deviationOf at 2. cbn [fst snd].
      destruct (_ >? _)%js; cbn [length]; lia. }
    split; congruence.
Qed.

Lemma stake_history_is_a_window_witness :
  let s' :=
    monitorStakeCalculations defaultAlertConfig
      [(Fin (13 # 20), Fin (13 # 20)); (of_Z 1, of_Z 2)] newAlertService in
  stakeCalculationHistory s'
  = lastN 10 (stakeCalculationHistory newAlertService
              ++ map deviationOf [(Fin (13 # 20), Fin (13 # 20)); (of_Z 1, of_Z 2)])
  /\ (length (stakeCalculationHistory s') <= 10)%nat
  /\ length (alertQueue s')
     = (length (alertQueue newAlertService)
        + length (List.filter
                    (fun check =>
                       (deviationOf check
                        >? stakeCalculationThreshold defaultAlertConfig)%js)
                    [(Fin (13 # 20), Fin (13 # 20)); (of_Z 1, of_Z 2)]))%nat
  /\ platformHealthStatus s' = platformHealthStatus newAlertService
  /\ lastSignalTime s' = lastSignalTime newAlertService.
Proof.
  apply (stake_history_is_a_window defaultAlertConfig
           [(Fin (13 # 20), Fin (13 # 20)); (of_Z 1, of_Z 2)] newAlertService).
  cbn. lia.
Defined.

(** The percentage of every node of the graph, compared with itself,
    deviates by 0. *)
Lemma node_against_itself (cur : string) (node : DecisionNode) :
  decisionTree !! cur = Some node ->
  deviationPercentage (parseFloat (replace_first "%" (value node)))
    (parseFloat (replace_first "%" (value node)))
  = of_Z 0.
Proof.
  intros H.
  pose proof (DecisionTreeFacts.decisionTree_forall
    (fun '(_, n) =>
       match deviationPercentage (parseFloat (replace_first "%" (value n)))
               (parseFloat (replace_first "%" (value n))) with
       | Fin (Qmake Z0 xH) => true
       | _ => false
       end)
    ltac:(vm_compute; reflexivity) cur node H) as Hc.
  cbv beta iota in Hc.
  destruct (deviationPercentage _ _) as [[[| |] [| |]]| | |]; try discriminate.
  reflexivity.
Qed.

Lemma processTradeSignal_node (env : Webhook.Env) (signal : SignalIntake.TradeSignal)
    (db db1 : DB) (p : Webhook.ProcessedTradeSignal) :
  Webhook.processTradeSignal env signal db = (inl p, db1) ->
  exists node,
    decisionTree !! Webhook.p_current_node p = Some node
    /\ Webhook.node_stake_percentage p = value node.
Proof.
  unfold Webhook.processTradeSignal.
  destruct (Webhook.findSessionByTradeId _ _) as [existing|].
  - destruct (decisionTree !! current_node existing) as [node|] eqn:Hnode;
      [|discriminate].
    intros H. injection H as <- _. exists node. auto.
  - change (decisionTree !! "Start") with (Some (inner "0.65%" 1 "1-0" "0-1")).
    cbv iota beta.
    set (cost := Webhook.calculateValueWithCostAdjustment env _ _ _ _ _).
    clearbody cost.
    intros H. injection H as <- _.
    eexists. split; reflexivity.
Qed.

Lemma zeros_trend (n : nat) :
  (n <= 10)%nat ->
  getStakeCalculationTrend
    (mkAlertService [] None HEALTHY (repeat (of_Z 0) n)) = STABLE.
Proof.
  intros H.
  do 11 (destruct n as [|n]; [vm_compute; reflexivity|]). lia.
Qed.

Lemma in_skipn {A : Type} (n : nat) (xs : list A) (x : A) :
  In x (skipn n xs) -> In x xs.
Proof.
  intros H. rewrite <- (firstn_skipn n xs). apply in_or_app. right. exact H.
Qed.

Lemma all_zeros (h : list num) :
  Forall (fun d => d = of_Z 0) h -> h = repeat (of_Z 0) (length h).
Proof.
  induction 1 as [|d h Hd _ IH]; [reflexivity|].
  cbn [length repeat]. rewrite Hd at 1. f_equal. exact IH.
Qed.

(** X25.  The stake check of the trade-signal webhook never raises
    an alert.  For every signal the webhook has processed, the check
    compares the percentage of the signal's node with itself: the
    deviation it records is 0, no alert joins the queue whatever the
    threshold (if it is not negative), and on a service whose history
    holds only such checks the stake trend stays STABLE. *)
Theorem webhook_stake_check_is_silent
    (config : AlertConfig) (env : Webhook.Env) (signal : SignalIntake.TradeSignal)
    (db db1 : DB) (p : Webhook.ProcessedTradeSignal) (s : AlertService) :
  Webhook.processTradeSignal env signal db = (inl p, db1) ->
  (of_Z 0 <=? stakeCalculationThreshold config)%js = true ->
  (length (stakeCalculationHistory s) <= 10)%nat ->
  let s' := webhookStakeMonitor config p s in
  alertQueue s' = alertQueue s
  /\ stakeCalculationHistory s' = lastN 10 (stakeCalculationHistory s ++ [of_Z 0])
  /\ (Forall (fun d => d = of_Z 0) (stakeCalculationHistory s) ->
      getStakeCalculationTrend s' = STABLE).
Proof.
  intros Hp Hthr Hlen s'.
  destruct (processTradeSignal_node env signal db db1 p Hp) as (node & Hnode & Hvalue).
  destruct (monitorStakeCalculation_fields config
              (parseFloat (replace_first "%" (Webhook.node_stake_percentage p)))
              (parseFloat (replace_first "%" (value node))) s)
    as (Hh & _ & _ & Hq).
  assert (Hs' : s' = monitorStakeCalculation config
                       (parseFloat (replace_first "%" (Webhook.node_stake_percentage p)))
                       (parseFloat (replace_first "%" (value node))) s).
  { unfold s', webhookStakeMonitor. rewrite Hnode. reflexivity. }
  rewrite <- Hs' in Hh, Hq. clear Hs'.
  rewrite Hvalue, (node_against_itself _ node Hnode) in Hh, Hq.
  rewrite history_step in Hh by exact Hlen.
  assert (Hquiet : (of_Z 0 >? stakeCalculationThreshold config)%js = false).
  { unfold gtb. destruct (stakeCalculationThreshold config) as [t| | |];
      cbn [leb ltb of_Z] in Hthr |- *; try discriminate; try reflexivity.
    rewrite Hthr. reflexivity. }
  rewrite Hquiet, app_nil_r in Hq.
  split; [exact Hq|]. split; [exact Hh|].
  intros Hzeros.
  assert (Hall : Forall (fun d => d = of_Z 0) (stakeCalculationHistory s')).
  { rewrite Hh. unfold lastN. apply Forall_forall. intros d Hd.
    apply list_elem_of_In in Hd. apply in_skipn in Hd.
    apply in_app_or in Hd as [Hd | [<- | []]]; [|reflexivity].
    rewrite Forall_forall in Hzeros. apply Hzeros, list_elem_of_In, Hd. }
  pose proof (all_zeros _ Hall) as Hrep.
  assert (Hlen' : (length (stakeCalculationHistory s') <= 10)%nat)
    by (rewrite Hh; apply lastN_length).
  pose proof (zeros_trend _ Hlen') as Htrend.
  unfold getStakeCalculationTrend in *. cbn [stakeCalculationHistory] in Htrend.
  rewrite <- Hrep in Htrend. exact Htrend.
Qed.

Lemma webhook_stake_check_is_silent_witness :
  let run :=
    Webhook.processTradeSignal (Webhook.demoEnv "ses_A") Webhook.demoSignal emptyDB in
  let p :=
    match fst run with
    | inl p => p
    | inr _ =>
        Webhook.mkProcessedTradeSignal "" Json.JNull "" "" "" "" "" NaN "" NaN ""
          (Webhook.mkCostAdjustment NaN NaN NaN)
    end in
  let s' := webhookStakeMonitor defaultAlertConfig p newAlertService in
  alertQueue s' = alertQueue newAlertService
  /\ stakeCalculationHistory s'
     = lastN 10 (stakeCalculationHistory newAlertService ++ [of_Z 0])
  /\ (Forall (fun d => d = of_Z 0) (stakeCalculationHistory newAlertService) ->
      getStakeCalculationTrend s' = STABLE).
Proof.
  apply (webhook_stake_check_is_silent defaultAlertConfig (Webhook.demoEnv "ses_A")
           Webhook.demoSignal emptyDB
           (snd (Webhook.processTradeSignal (Webhook.demoEnv "ses_A")
                   Webhook.demoSignal emptyDB))
           (match fst (Webhook.processTradeSignal (Webhook.demoEnv "ses_A")
                         Webhook.demoSignal emptyDB) with
            | inl p => p
            | inr _ =>
                Webhook.mkProcessedTradeSignal "" Json.JNull "" "" "" "" "" NaN "" NaN ""
                  (Webhook.mkCostAdjustment NaN NaN NaN)
            end)
           newAlertService).
  - vm_compute. reflexivity.
  - reflexivity.
  - cbn. lia.
Defined.

End AlertFacts.
(* ===================================================================== *)
(** * Trade signals delivered again *)
(* ===================================================================== *)

Module ReplayFacts.

Import JsNum JsString Json Store Execution SignalIntake Webhook.

(** The set of processed ids bears on the validation only through the
    search for the id. *)
Lemma validateTradeSignal_unseen (parse : string -> num) (clock : num)
    (signal : TradeSignal) (seen : list JsValue) :
  set_has (id signal) seen = false ->
  fst (validateTradeSignal parse clock signal seen)
  = fst (validateTradeSignal parse clock signal []).
Proof.
  intros Hunseen. unfold validateTradeSignal.
  destruct (missingFields signal); [|reflexivity].
  unfold validateSignalQuality. rewrite Hunseen. reflexivity.
Qed.

Lemma session_steps_saveTradeSignal (p : ProcessedTradeSignal) (db : DB) :
  session_steps (saveTradeSignal p db) = session_steps db.
Proof. reflexivity. Qed.

Lemma session_steps_updateSessionBalance (sid : string) (balance : num) (db : DB) :
  session_steps (updateSessionBalance sid balance db) = session_steps db.
Proof.
  unfold updateSessionBalance. destruct (sessions db !! sid); [|reflexivity].
  destruct (_ >? _)%js; reflexivity.
Qed.

(** After an accepted first delivery for a trade id without session,
    the session of the trade is found through the stored signal: it is
    the new session, at "Start". *)
Lemma accepted_delivery_is_found (env : Env) (signal : TradeSignal)
    (sys sys1 : System) (p : ProcessedTradeSignal) (e : TradeExecution) :
  POST env signal sys = (Http200 p e, sys1) ->
  findSessionByTradeId (id signal) (Overnight.db (world sys)) = None ->
  sessions (Overnight.db (world sys)) !! freshSessionId env = None ->
  findSessionByTradeId (id signal) (Overnight.db (world sys1))
  = Some (mkSession (freshSessionId env) "Start" (accountBalance env) (of_Z 0)
            false "Start" "").
Proof.
  intros H Hnone Hfresh.
  pose proof (WebhookFacts.accepted_delivery_creates_one_session
                env signal sys sys1 p e H Hnone Hfresh) as Hsessions.
  apply WebhookFacts.POST_accepted in H as (db1 & Hproc & _ & _ & ->).
  destruct (WebhookExtraFacts.processTradeSignal_saves env signal _ db1 p Hproc)
    as (_ & _ & Hrow & Hnew).
  destruct (Hnew Hnone) as (Hsid & _ & _).
  destruct (ExecutionExtraFacts.executeTrade_store_shape (venue env)
              (toExecutionSignal p) db1) as (_ & Hsignals & _).
  cbn [world Overnight.db with_db] in *.
  unfold findSessionByTradeId. rewrite Hsignals, Hrow. cbn [ts_session_id].
  rewrite Hsessions, Hsid. apply lookup_insert_eq.
Qed.

(** A delivery that passes validation for a trade id whose session
    stands at a node of the graph is processed and handed to
    [executeTrade]; the answer follows the execution. *)
Lemma POST_continues (env : Env) (signal : TradeSignal) (sys : System)
    (existing : SessionRow) (node : DecisionTree.DecisionNode) :
  isValid (fst (validateTradeSignal (parseDate env) (of_Z (now env)) signal
                  (processedSignals sys))) = true ->
  findSessionByTradeId (id signal) (Overnight.db (world sys)) = Some existing ->
  DecisionTree.decisionTree !! Store.current_node existing = Some node ->
  exists p db1,
    let run := executeTrade (venue env) (toExecutionSignal p) db1 in
    p_trade_id p = id signal
    /\ p_session_id p = s_session_id existing
    /\ session_steps db1 = session_steps (Overnight.db (world sys))
    /\ fst (POST env signal sys)
       = match status (execution run) with
         | SUCCESS => Http200 p (execution run)
         | FAILED =>
             Http500 ("Trade execution failed: "
                      ++ default "null" (ex_error (execution run)))
         end
    /\ Overnight.db (world (snd (POST env signal sys))) = store run.
Proof.
  intros Hvalid Hfind Hnode.
  destruct (WebhookFacts.processTradeSignal_continues env signal _ existing node
              Hfind Hnode) as (p & Hproc & Hsid & Htid & _).
  exists p,
    (saveTradeSignal p
       (updateSessionBalance (s_session_id existing) (accountBalance env)
          (Overnight.db (world sys)))).
  cbv zeta.
  split; [exact Htid|]. split; [exact Hsid|].
  split.
  { rewrite session_steps_saveTradeSignal.
    apply session_steps_updateSessionBalance. }
  unfold POST.
  destruct (validateTradeSignal (parseDate env) (of_Z (now env)) signal
              (processedSignals sys)) as [v seen'].
  cbn [fst] in Hvalid. rewrite Hvalid. cbn [negb]. rewrite Hproc.
  set (run := executeTrade (venue env) (toExecutionSignal p) _).
  destruct (status (execution run)).
  - rewrite (proj2 (OvernightFacts.registerTrade_refused _ _ _ _ _ _ _ _ _ _ _ _ _)).
    split; reflexivity.
  - split; reflexivity.
Qed.

(** C7 (the code departs from the claim).  The only duplicate check is
    the search for the id in a [Set] that lives in the memory of the
    process and compares an array or an object by identity.  A signal
    for a new trade is delivered and answered 200.  The same signal is
    delivered again to a process whose set does not hold the id for
    [has] - the set of a process started since, which is empty, or any
    set at all when the id is an array or an object - at a time at
    which the signal passes the other checks.  It is not rejected: the
    route hands the signal to [executeTrade] a second time and answers
    as that execution ends, with 200 when the venue fills the order
    again; and the steps of the store end with one more EXECUTE
    step. *)
Theorem replayed_signal_is_executed_again
    (env1 env2 : Env) (signal : TradeSignal) (sys : System)
    (seen : list JsValue) :
  (exists p e, fst (POST env1 signal sys) = Http200 p e) ->
  findSessionByTradeId (id signal) (Overnight.db (world sys)) = None ->
  sessions (Overnight.db (world sys)) !! freshSessionId env1 = None ->
  set_has (id signal) seen = false ->
  isValid (fst (validateTradeSignal (parseDate env2) (of_Z (now env2)) signal []))
  = true ->
  let after := snd (POST env1 signal sys) in
  let replay := POST env2 signal (mkSystem (world after) seen) in
  exists p2 db2,
    let run := executeTrade (venue env2) (toExecutionSignal p2) db2 in
    p_trade_id p2 = id signal
    /\ fst replay
       = match status (execution run) with
         | SUCCESS => Http200 p2 (execution run)
         | FAILED =>
             Http500 ("Trade execution failed: "
                      ++ default "null" (ex_error (execution run)))
         end
    /\ Overnight.db (world (snd replay)) = store run
    /\ exists older step,
         session_steps (store run) = (older ++ [step])%list
         /\ (length (session_steps (Overnight.db (world after))) <= length older)%nat
         /\ step_type step = "EXECUTE".
Proof.
  intros (p & e & Hfirst) Hnone Hfresh Hunseen Hvalid. cbv zeta.
  assert (Hfound :
    findSessionByTradeId (id signal)
      (Overnight.db (world (snd (POST env1 signal sys))))
    = Some (mkSession (freshSessionId env1) "Start" (accountBalance env1) (of_Z 0)
              false "Start" "")).
  { apply (accepted_delivery_is_found env1 signal sys _ p e);
      [|exact Hnone|exact Hfresh].
    rewrite <- Hfirst. apply surjective_pairing. }
  set (after := snd (POST env1 signal sys)) in *. clearbody after.
  assert (Hvalid' :
    isValid (fst (validateTradeSignal (parseDate env2) (of_Z (now env2)) signal
                    (processedSignals (mkSystem (world after) seen)))) = true).
  { cbn [processedSignals]. rewrite validateTradeSignal_unseen by exact Hunseen.
    exact Hvalid. }
  destruct (POST_continues env2 signal (mkSystem (world after) seen)
              (mkSession (freshSessionId env1) "Start" (accountBalance env1)
                 (of_Z 0) false "Start" "")
              (DecisionTree.inner "0.65%" 1 "1-0" "0-1") Hvalid' Hfound eq_refl)
    as (p2 & db2 & Htid & _ & Hsteps & Hanswer & Hstore).
  exists p2, db2. cbv zeta.
  split; [exact Htid|]. split; [exact Hanswer|]. split; [exact Hstore|].
  destruct (ExecutionExtraFacts.executeTrade_store_shape (venue env2)
              (toExecutionSignal p2) db2) as (_ & _ & older & Hshape & Hforget).
  eexists older, _. split; [exact Hshape|]. split; [|reflexivity].
  apply (f_equal (@length _)) in Hforget. rewrite !length_map in Hforget.
  cbn [world Overnight.db] in Hsteps. rewrite <- Hsteps, Hforget. apply Nat.le_refl.
Qed.

Lemma replayed_signal_is_executed_again_witness :
  let after := snd (POST (demoEnv "ses_A") demoSignal emptySystem) in
  let replay := POST (demoEnv "ses_B") demoSignal (mkSystem (world after) []) in
  exists p2 db2,
    let run := executeTrade (venue (demoEnv "ses_B")) (toExecutionSignal p2) db2 in
    p_trade_id p2 = id demoSignal
    /\ fst replay
       = match status (execution run) with
         | SUCCESS => Http200 p2 (execution run)
         | FAILED =>
             Http500 ("Trade execution failed: "
                      ++ default "null" (ex_error (execution run)))
         end
    /\ Overnight.db (world (snd replay)) = store run
    /\ exists older step,
         session_steps (store run) = (older ++ [step])%list
         /\ (length (session_steps (Overnight.db (world after))) <= length older)%nat
         /\ step_type step = "EXECUTE".
Proof.
  apply (replayed_signal_is_executed_again (demoEnv "ses_A") (demoEnv "ses_B")
           demoSignal emptySystem []).
  - eexists. eexists. vm_compute. reflexivity.
  - reflexivity.
  - reflexivity.
  - reflexivity.
  - vm_compute. reflexivity.
Defined.

(** The failing input in full.  The reference signal is delivered to a
    fresh system and executed.  The process is started again: its set
    of ids is empty, the store is as the first delivery left it.  The
    same signal is answered 200 again: the route continues the session
    of the trade, the order goes to the venue a second time, and the
    one session has a second EXECUTE step. *)
Example replay_after_restart_is_executed_again :
  let first := POST (demoEnv "ses_A") demoSignal emptySystem in
  let restarted := mkSystem (world (snd first)) [] in
  let second := POST (demoEnv "ses_B") demoSignal restarted in
  (exists p e, fst first = Http200 p e /\ p_trade_amount p = of_Z 1000)
  /\ (exists p e, fst second = Http200 p e /\ p_session_id p = "ses_A")
  /\ size (sessions (Overnight.db (world (snd second)))) = 1%nat
  /\ map (fun st => (st_session_id st, step_number st, step_type st))
       (session_steps (Overnight.db (world (snd second))))
     = [("ses_A", 1%Z, "DECISION"); ("ses_A", 2%Z, "EXECUTE");
        ("ses_A", 3%Z, "EXECUTE")].
Proof.
  cbv zeta. split; [eexists; eexists; vm_compute; split; reflexivity|].
  split; [eexists; eexists; vm_compute; split; reflexivity|].
  split; vm_compute; reflexivity.
Qed.

(** Within one process, an id that is an object: the second delivery of
    the same body finds no equal value in the set, which by then holds
    the object of the first, and is executed as well. *)
Example object_id_is_never_a_duplicate :
  let signal :=
    mkSignal "buy" "BTCUSDT" "15" "2025-07-19T09:00:00Z" "45000" "46000" "44500"
      (JCompound "[object Object]" "{}") "2" "1" None None in
  let first := POST (demoEnv "ses_A") signal emptySystem in
  let second := POST (demoEnv "ses_B") signal (snd first) in
  (exists p e, fst first = Http200 p e)
  /\ processedSignals (snd first) = [JCompound "[object Object]" "{}"]
  /\ (exists p e, fst second = Http200 p e)
  /\ map step_type (session_steps (Overnight.db (world (snd second))))
     = ["DECISION"; "EXECUTE"; "EXECUTE"].
Proof.
  cbv zeta. split; [eexists; eexists; vm_compute; reflexivity|].
  split; [vm_compute; reflexivity|].
  split; [eexists; eexists; vm_compute; reflexivity|].
  vm_compute. reflexivity.
Qed.

End ReplayFacts.
